(** * ANTEX reader: a shallow embedding of package [antex]

    The Go package reads an ANTEX (ANTenna EXchange) file line by line:
    [ScanHeader] consumes the header, [ReadAntexData] collects the antenna
    blocks, [scanOneAntenna] reads one block, [parseOneFreq] one frequency
    section and [parseOneAzi] one row of phase centre variations.

    Go strings are byte sequences; the scanner is the list of lines it has
    not delivered yet; run-time panics (slice bounds, index out of range,
    negative [make]) are an explicit outcome; the logger is a list of
    entries threaded through the functions that write to it. *)

From Stdlib Require Import ZArith String Ascii Bool Lia.
From Stdlib Require Import Floats.SpecFloat.
From stdpp Require Import base tactics option list strings.

Local Open Scope string_scope.
Local Open Scope nat_scope.
Local Open Scope list_scope.

(** ** Go strings *)

Definition gostring := list ascii.

Coercion lit (s : string) : gostring := list_ascii_of_string s.

Definition len {A} (s : list A) : Z := Z.of_nat (length s).

Definition streq (a b : gostring) : bool := bool_decide (a = b).

(** [strings.HasPrefix] *)
Fixpoint HasPrefix (s prefix : gostring) : bool :=
  match prefix, s with
  | [], _ => true
  | p :: prefix', c :: s' => bool_decide (c = p) && HasPrefix s' prefix'
  | _ :: _, [] => false
  end.

(** [strings.HasSuffix] *)
Definition HasSuffix (s suffix : gostring) : bool :=
  HasPrefix (rev s) (rev suffix).

Definition space : ascii := " "%char.

Fixpoint trimLeftSp (s : gostring) : gostring :=
  match s with
  | c :: s' => if bool_decide (c = space) then trimLeftSp s' else s
  | [] => []
  end.

(** [strings.TrimRight(s, " ")]: the cutset is the single byte 0x20. *)
Definition TrimRightSp (s : gostring) : gostring := rev (trimLeftSp (rev s)).

(** ** Outcomes: a value, a run-time panic, or fuel exhausted

    [OutOfFuel] belongs to the embedding only: loops whose callee consumes
    lines are driven by a counter, and the entry points start them with
    more fuel than there are lines (see the [_fuel] lemmas). *)

Inductive panic :=
| SliceBounds      (* slice bounds out of range *)
| IndexRange       (* index out of range *)
| MakeSliceLen.    (* makeslice: len out of range *)

Inductive outcome (A : Type) :=
| Ret (a : A)
| Panic (p : panic)
| OutOfFuel.
Arguments Ret {A} a.
Arguments Panic {A} p.
Arguments OutOfFuel {A}.

Global Instance outcome_ret : MRet outcome := fun A a => Ret a.
Global Instance outcome_bind : MBind outcome := fun A B f m =>
  match m with
  | Ret a => f a
  | Panic p => Panic p
  | OutOfFuel => OutOfFuel
  end.

(** [s[i:]], [s[:j]], [s[i:j]] and [s[i]] with Go's bounds checks. *)
Definition sliceFrom (s : gostring) (i : nat) : outcome gostring :=
  if decide (i ≤ length s) then Ret (drop i s) else Panic SliceBounds.

Definition sliceTo (s : gostring) (j : nat) : outcome gostring :=
  if decide (j ≤ length s) then Ret (take j s) else Panic SliceBounds.

Definition slice (s : gostring) (i j : nat) : outcome gostring :=
  if decide (i ≤ j ∧ j ≤ length s) then Ret (take (j - i) (drop i s))
  else Panic SliceBounds.

Definition index {A} (s : list A) (i : nat) : outcome A :=
  match s !! i with
  | Some c => Ret c
  | None => Panic IndexRange
  end.

(** ** [fmt.Sprintf("%-60sCOMMENT", buf)]

    The width of [%-60s] counts runes, not bytes: the padding is
    [60 - utf8.RuneCountInString(buf)] spaces when that is positive. *)

Definition byteval (c : ascii) : nat := nat_of_ascii c.

Definition contb (c : ascii) : bool :=
  (128 <=? byteval c)%nat && (byteval c <=? 191)%nat.

Definition inrange (lo hi : nat) (c : ascii) : bool :=
  (lo <=? byteval c)%nat && (byteval c <=? hi)%nat.

(** Size in bytes of the rune that starts with byte [c] followed by
    [rest], as [utf8.RuneCountInString] steps: 1 for ASCII and for every
    invalid or truncated encoding. *)
Definition runeSize (c : ascii) (rest : gostring) : nat :=
  let b := byteval c in
  if (b <? 128)%nat then 1%nat
  else if (b <? 194)%nat then 1%nat
  else if (b <? 224)%nat then
    match rest with
    | c1 :: _ => if inrange 128 191 c1 then 2%nat else 1%nat
    | _ => 1%nat
    end
  else if (b <? 240)%nat then
    match rest with
    | c1 :: c2 :: _ =>
        let lo := if (b =? 224)%nat then 160%nat else 128%nat in
        let hi := if (b =? 237)%nat then 159%nat else 191%nat in
        if inrange lo hi c1 && contb c2 then 3%nat else 1%nat
    | _ => 1%nat
    end
  else if (b <? 245)%nat then
    match rest with
    | c1 :: c2 :: c3 :: _ =>
        let lo := if (b =? 240)%nat then 144%nat else 128%nat in
        let hi := if (b =? 244)%nat then 143%nat else 191%nat in
        if inrange lo hi c1 && contb c2 && contb c3 then 4%nat else 1%nat
    | _ => 1%nat
    end
  else 1%nat.

(** [skip] bytes of the current rune remain to be stepped over. *)
Fixpoint runeCountFrom (skip : nat) (s : gostring) : nat :=
  match s with
  | [] => 0%nat
  | c :: s' =>
      match skip with
      | S k => runeCountFrom k s'
      | O => S (runeCountFrom (runeSize c s' - 1) s')
      end
  end.

Definition RuneCountInString (s : gostring) : nat := runeCountFrom 0 s.

Definition Sprintf_pad60_COMMENT (buf : gostring) : gostring :=
  buf ++ replicate (60 - RuneCountInString buf) space ++ lit "COMMENT".

(** ** float64 and int

    A [float64] is an IEEE 754 binary64 value, with the arithmetic of the
    Standard Library's executable specification (round to nearest even).
    An [int] is a 64-bit two's complement integer. *)

Definition float64 := spec_float.
Definition prec : Z := 53.
Definition emax : Z := 1024.

Definition fsub : float64 → float64 → float64 := SFsub prec emax.
Definition fdiv : float64 → float64 → float64 := SFdiv prec emax.
Definition feqb : float64 → float64 → bool := SFeqb.
Definition fzero : float64 := S754_zero false.
(** The constant [360.] *)
Definition f360 : float64 :=
  Eval vm_compute in binary_normalize prec emax 360 0 false.

Definition wrap64 (z : Z) : Z := ((z + 2 ^ 63) mod 2 ^ 64 - 2 ^ 63)%Z.

Definition in_int64 (z : Z) : bool := ((- 2 ^ 63 <=? z) && (z <? 2 ^ 63))%Z.

(** The integer part of a finite float, fraction discarded (towards zero). *)
Definition truncZ (f : float64) : option Z :=
  match f with
  | S754_zero _ => Some 0%Z
  | S754_finite sg m e => Some (cond_Zopp sg (Z.shiftl (Zpos m) e))
  | S754_infinity _ | S754_nan => None
  end.

(** The largest integer not above a finite float ([Z.shiftl] by a negative
    amount is the shift to the right, which rounds down). *)
Definition floorZ (f : float64) : option Z :=
  match f with
  | S754_zero _ => Some 0%Z
  | S754_finite sg m e => Some (Z.shiftl (cond_Zopp sg (Zpos m)) e)
  | S754_infinity _ | S754_nan => None
  end.

(** ** Errors and log entries *)

Inductive error :=
| NumError (fn : string) (num : gostring)       (* *strconv.NumError *)
| TimeParseError (layout value : gostring)      (* *time.ParseError *)
| EndLabelNotFound            (* "End of freq label not found" *)
| PcvDataError (typ : gostring) (e : error)
                              (* "error in pcv data for '%s', err='%w'" *)
| LineError (e : error)       (* "line=%d, err='%w'" *)
| NoaziNotFound (buf : gostring)
| InvalidValues (nzen n : Z) (buf : gostring)
| NoaziInAzimuth (buf : gostring)
| InvalidAz (az : gostring)
| InvalidEndOfFreqPosition
| EndOfFreqNotFound
| NoPhaseVariation (s : gostring)
| ParseValError (tok : gostring) (e : error).

Inductive logEntry :=
| WarnNoHeaderLabel (buf : gostring)  (* "warning: no header label found" *)
| WarnNoAntexData (buf : gostring)    (* "warning: no antex data found" *)
| WarnNoLabel (buf : gostring)        (* "warning: no label found" *)
| LogError (e : error).               (* "error: %v" *)

Definition is_LogError (l : logEntry) : bool :=
  match l with LogError _ => true | _ => false end.

(** ** Data model *)

Record Time := mkTime {
  year : Z; month : Z; day : Z; hour : Z; minute : Z; second : Z;
  nanosecond : Z }.

(** The zero [time.Time]: January 1, year 1, 00:00:00 UTC. *)
Definition zeroTime : Time := mkTime 1 1 1 0 0 0 0.

Record pco := mkPco { PCO_N : float64; PCO_E : float64; PCO_U : float64 }.

Record pcv := mkPcv {
  Sys : ascii;
  Freq : Z;
  Zen1 : float64; Zen2 : float64;
  Dzen : float64;
  Dazi : float64;
  Nazi : Z; Nzen : Z;
  PCO : pco;
  Vnonaz : list float64;
  Vaz : list (list float64);
  Azs : list float64 }.

Record antenna := mkAntenna {
  Type_ : gostring;
  S1 : gostring;
  S2 : gostring;
  S3 : gostring;
  PCV : list pcv;
  isSatelliteAntenna : bool;
  ValidFrom : Time; ValidUntil : Time;
  SinexCode : gostring }.

Definition IsSatAnt (a : antenna) : bool := isSatelliteAntenna a.

(** Zero values of the structs. *)
Definition pcv0 : pcv :=
  mkPcv zero 0 fzero fzero fzero fzero 0 0 (mkPco fzero fzero fzero) [] [] [].

Definition antenna0 : antenna :=
  mkAntenna [] [] [] [] [] false zeroTime zeroTime [].

Record header := mkHeader {
  antexVer : gostring; satSys : ascii; pcvType : ascii; refAnt : gostring;
  h : gostring }.

Definition header0 : header := mkHeader [] zero zero [] [].

(** ** The Go library functions the reader calls

    [strings.TrimSpace] and [strings.Fields] (Unicode white space),
    [strconv.ParseFloat(_, 64)], [strconv.Atoi] and [time.Parse] are kept
    as an interface; each returns its value together with its error, as in
    Go. [cvt_indefinite] is what the conversion [int(f)] yields for a float
    that has no [int] value, which Go leaves to the implementation. *)

Class GoEnv := {
  TrimSpace : gostring → gostring;
  Fields : gostring → list gostring;
  ParseFloat : gostring → float64 * option error;
  Atoi : gostring → Z * option error;
  time_Parse : gostring → gostring → Time * option error;
  cvt_indefinite : float64 → Z }.

(** ** The scanner

    [mscanner.Scanner] belongs to another module. The reader calls [Text]
    only after a [Scan] that returned true, so the scanner is the list of
    the lines it has yet to deliver: [Scan] and [Text] together take its
    head, and [Scan] is false on the empty list. [LineNumber] is used for
    the text of error messages alone; the errors here carry their kind and
    the strings they quote, not the line number. *)

Definition Scanner := list gostring.

Section Antex.
Context `{GoEnv}.

(** The conversion [int(f)] of a float64. *)
Definition int_of_float (f : float64) : Z :=
  match truncZ f with
  | Some z => if in_int64 z then z else wrap64 (cvt_indefinite f)
  | None => wrap64 (cvt_indefinite f)
  end.

(** ** ScanHeader *)

Definition set_h (v : gostring) (hd : header) : header :=
  mkHeader (antexVer hd) (satSys hd) (pcvType hd) (refAnt hd) v.

Definition set_version (v : gostring) (c : ascii) (hd : header) : header :=
  mkHeader v c (pcvType hd) (refAnt hd) (h hd).

Definition set_pcvtype (c : ascii) (r : gostring) (hd : header) : header :=
  mkHeader (antexVer hd) (satSys hd) c r (h hd).

Definition newline : ascii := ascii_of_nat 10.

(** The loop of [ScanHeader]: [s] is the scanner, [hd] the named results
    so far. The function returns the results and the scanner it leaves. *)
Fixpoint ScanHeader_loop (s : Scanner) (hd : header) (log : list logEntry)
  : outcome (header * Scanner * list logEntry) :=
  match s with
  | [] => Ret (hd, [], log)     (* "END OF HEADER" not found *)
  | buf0 :: s' =>
      let short := bool_decide (len buf0 < 61)%Z in
      let log := if short then log ++ [WarnNoHeaderLabel buf0] else log in
      let buf := if short then Sprintf_pad60_COMMENT buf0 else buf0 in
      let hd := set_h (h hd ++ buf ++ [newline]) hd in
      lab ← sliceFrom buf 60;
      if HasPrefix lab "ANTEX VERSION / SYST" then
        v ← sliceTo buf 8;
        c ← index buf 20;
        ScanHeader_loop s' (set_version (TrimSpace v) c hd) log
      else if HasPrefix lab "PCV TYPE / REFANT" then
        c ← index buf 0;
        r ← slice buf 20 40;
        ScanHeader_loop s' (set_pcvtype c (TrimSpace r) hd) log
      else if HasPrefix lab "COMMENT" then
        ScanHeader_loop s' hd log
      else if HasPrefix lab "END OF HEADER" then
        Ret (hd, s', log)
      else
        ScanHeader_loop s' hd log
  end.

Definition ScanHeader (s : Scanner)
  : outcome (header * Scanner * list logEntry) :=
  ScanHeader_loop s header0 [].

(** ** parseOneAzi *)

(** The loop over [sep[1:]]: [v] has one entry per token; at the first
    token that does not parse, the entries after it keep their zero. *)
Fixpoint parseVals (toks : list gostring) : list float64 * option error :=
  match toks with
  | [] => ([], None)
  | t :: ts =>
      let '(x, e) := ParseFloat t in
      match e with
      | Some err => (x :: replicate (length ts) fzero, Some (ParseValError t err))
      | None => let '(xs, e') := parseVals ts in (x :: xs, e')
      end
  end.

Definition parseOneAzi (s : gostring)
  : gostring * list float64 * option error :=
  match Fields s with
  | [] => ([], [], Some (NoPhaseVariation s))
  | az :: toks => let '(v, e) := parseVals toks in (az, v, e)
  end.

(** ** parseDate *)

Definition timeForm : gostring := "2006     1     2    15     4    5        ".

Definition parseDate (s : gostring) : Time * option error :=
  time_Parse timeForm (TrimSpace s).

(** ** parseOneFreq *)

(** The closure [nextLine]. It tests [buf], the variable of the enclosing
    function it captures, which holds the line read before, and not the
    [line] it has just scanned. *)
Fixpoint nextLine (buf : gostring) (s : Scanner) : gostring * Scanner :=
  match s with
  | [] => ([], [])
  | line :: s' =>
      if negb (HasSuffix (TrimRightSp buf) "COMMENT") then (line, s')
      else nextLine buf s'
  end.

(** The loop taken when the NORTH / EAST / UP line has fewer than three
    fields. It returns [true] when it reaches a line labelled END OF
    FREQUENCY (the function returns there) and [false] at the end of
    input, with [buf] and the scanner as it leaves them. *)
Fixpoint seekEndOfFrequency (buf : gostring) (s : Scanner)
  : outcome (bool * gostring * Scanner) :=
  match s with
  | [] => Ret (false, buf, [])
  | buf :: s' =>
      lab ← sliceFrom buf 60;
      if HasPrefix lab "END OF FREQUENCY" then Ret (true, buf, s')
      else seekEndOfFrequency buf s'
  end.

Definition first_error (es : list (option error)) : option error :=
  match filter is_Some es with
  | e :: _ => e
  | [] => None
  end.

Definition parseNEU (sep : list gostring)
  : outcome (float64 * float64 * float64 * option error) :=
  t0 ← index sep 0; let '(n, e1) := ParseFloat t0 in
  t1 ← index sep 1; let '(e, e2) := ParseFloat t1 in
  t2 ← index sep 2; let '(u, e3) := ParseFloat t2 in
  Ret (n, e, u, first_error [e1; e2; e3]).

(** Numbers of azimuth and zenith angles: [(nazi, nzen)]. *)
Definition gridSize (dazi zen1 zen2 dzen : float64) : Z * Z :=
  let nazi := if feqb dazi fzero then 0%Z
              else wrap64 (int_of_float (fdiv f360 dazi) + 1) in
  let nzen := wrap64 (int_of_float (fdiv (fsub zen2 zen1) dzen) + 1) in
  (nazi, nzen).

Definition set_Sys (c : ascii) (p : pcv) : pcv :=
  mkPcv c (Freq p) (Zen1 p) (Zen2 p) (Dzen p) (Dazi p) (Nazi p) (Nzen p)
        (PCO p) (Vnonaz p) (Vaz p) (Azs p).
Definition set_Freq (f : Z) (p : pcv) : pcv :=
  mkPcv (Sys p) f (Zen1 p) (Zen2 p) (Dzen p) (Dazi p) (Nazi p) (Nzen p)
        (PCO p) (Vnonaz p) (Vaz p) (Azs p).
Definition set_PCO (o : pco) (p : pcv) : pcv :=
  mkPcv (Sys p) (Freq p) (Zen1 p) (Zen2 p) (Dzen p) (Dazi p) (Nazi p) (Nzen p)
        o (Vnonaz p) (Vaz p) (Azs p).
Definition set_size (nazi nzen : Z) (p : pcv) : pcv :=
  mkPcv (Sys p) (Freq p) (Zen1 p) (Zen2 p) (Dzen p) (Dazi p) nazi nzen
        (PCO p) (Vnonaz p) (Vaz p) (Azs p).
Definition set_Vnonaz (v : list float64) (p : pcv) : pcv :=
  mkPcv (Sys p) (Freq p) (Zen1 p) (Zen2 p) (Dzen p) (Dazi p) (Nazi p) (Nzen p)
        (PCO p) v (Vaz p) (Azs p).
Definition set_Vaz (v : list (list float64)) (p : pcv) : pcv :=
  mkPcv (Sys p) (Freq p) (Zen1 p) (Zen2 p) (Dzen p) (Dazi p) (Nazi p) (Nzen p)
        (PCO p) (Vnonaz p) v (Azs p).
Definition set_Azs (v : list float64) (p : pcv) : pcv :=
  mkPcv (Sys p) (Freq p) (Zen1 p) (Zen2 p) (Dzen p) (Dazi p) (Nazi p) (Nzen p)
        (PCO p) (Vnonaz p) (Vaz p) v.
Definition set_grid (dazi zen1 zen2 dzen : float64) (p : pcv) : pcv :=
  mkPcv (Sys p) (Freq p) zen1 zen2 dzen dazi (Nazi p) (Nzen p)
        (PCO p) (Vnonaz p) (Vaz p) (Azs p).

(** [make([]T, n)]: a negative length panics (the limits of the allocator
    are not modelled). *)
Definition make {A} (zeroval : A) (n : Z) : outcome (list A) :=
  if bool_decide (n < 0)%Z then Panic MakeSliceLen
  else Ret (replicate (Z.to_nat n) zeroval).

(** The loop [for i := 0; i < nazi; i++], with [n] rounds left. It returns
    the grid, the error if one ended the function, and [buf] and the
    scanner. Row [i] exists: the slices were made with length [nazi]. *)
Fixpoint readAzimuths (n i : nat) (nzen : Z) (buf : gostring) (s : Scanner)
    (p : pcv) : pcv * option error * gostring * Scanner :=
  match n with
  | O => (p, None, buf, s)
  | S n' =>
      let '(buf, s) := nextLine buf s in
      let '(az, vals, e) := parseOneAzi buf in
      match e with
      | Some e => (p, Some (LineError e), buf, s)
      | None =>
          if streq az "NOAZI" then (p, Some (NoaziInAzimuth buf), buf, s)
          else if negb (len vals =? nzen)%Z
          then (p, Some (InvalidValues nzen (len vals) buf), buf, s)
          else
            let p := set_Vaz (<[i := vals]> (Vaz p)) p in
            let '(x, e) := ParseFloat az in
            let p := set_Azs (<[i := x]> (Azs p)) p in
            match e with
            | Some _ => (p, Some (InvalidAz az), buf, s)
            | None => readAzimuths n' (S i) nzen buf s p
            end
      end
  end.

(** The loop that looks for the next END OF FREQUENCY after a misplaced
    one; every path out of it is an error. *)
Fixpoint resyncEndOfFrequency (s : Scanner) : outcome (error * Scanner) :=
  match s with
  | [] => Ret (EndOfFreqNotFound, [])
  | buf :: s' =>
      hit ← (if bool_decide (len buf > 60)%Z then Ret true
             else lab ← sliceFrom buf 60;
                  Ret (HasPrefix lab "END OF FREQUENCY"));
      if hit : bool then Ret (InvalidEndOfFreqPosition, s')
      else resyncEndOfFrequency s'
  end.

(** [parseOneFreq] from the computation of the grid size to its end. *)
Definition parseGrid (p : pcv) (buf : gostring) (s : Scanner)
    (dazi zen1 zen2 dzen : float64) : outcome (pcv * option error * Scanner) :=
  let '(nazi, nzen) := gridSize dazi zen1 zen2 dzen in
  let p := set_size nazi nzen p in
  vaz ← make [] nazi;
  let p := set_Vaz vaz p in
  azs ← make fzero nazi;
  let p := set_Azs azs p in
  let '(buf, s) := nextLine buf s in
  let '(az, vals, e) := parseOneAzi buf in
  match e with
  | Some e => Ret (p, Some (LineError e), s)
  | None =>
      if negb (streq az "NOAZI") then Ret (p, Some (NoaziNotFound buf), s)
      else if negb (len vals =? nzen)%Z
      then Ret (p, Some (InvalidValues nzen (len vals) buf), s)
      else
        let p := set_Vnonaz vals p in
        let '(p, e, buf, s) := readAzimuths (Z.to_nat nazi) 0 nzen buf s p in
        match e with
        | Some e => Ret (p, Some e, s)
        | None =>
            let '(buf, s) := nextLine buf s in
            misplaced ← (if bool_decide (len buf < 61)%Z then Ret true
                         else lab ← sliceFrom buf 60;
                              Ret (negb (HasPrefix lab "END OF FREQUENCY")));
            if misplaced : bool then
              '(e, s) ← resyncEndOfFrequency s;
              Ret (p, Some e, s)
            else Ret (p, None, s)
        end
  end.

Definition parseOneFreq (s : Scanner) (buf : gostring)
    (dazi zen1 zen2 dzen : float64) : outcome (pcv * option error * Scanner) :=
  c ← index buf 3;
  let p := set_Sys c pcv0 in
  d ← slice buf 4 6;
  let '(f, err) := Atoi d in
  let p := set_Freq f p in
  match err with
  | Some e => Ret (p, Some e, s)
  | None =>
      let '(buf, s) := nextLine buf s in
      lab ← sliceFrom buf 60;
      if HasPrefix lab "NORTH / EAST / UP" then
        d ← sliceTo buf 60;
        let sep := Fields d in
        '(found, buf, s) ← (if bool_decide (length sep < 3)
                            then seekEndOfFrequency buf s
                            else Ret (false, buf, s));
        if found : bool then Ret (p, None, s)  (* [return], [err] still nil *)
        else
          '(n, e, u, err) ← parseNEU sep;
          match err with
          | Some ee => Ret (p, Some ee, s)
          | None => parseGrid (set_PCO (mkPco n e u) p) buf s
                              dazi zen1 zen2 dzen
          end
      else parseGrid p buf s dazi zen1 zen2 dzen
  end.

(** ** scanOneAntenna *)

(** The local variables of [scanOneAntenna] that live across lines. *)
Record antState := mkSt {
  ant : antenna;
  nf : Z;
  dazi : float64; zen1 : float64; zen2 : float64; dzen : float64 }.

Definition st0 : antState := mkSt antenna0 0 fzero fzero fzero fzero.

Definition set_ant (a : antenna) (st : antState) : antState :=
  mkSt a (nf st) (dazi st) (zen1 st) (zen2 st) (dzen st).
Definition set_nf (n : Z) (st : antState) : antState :=
  mkSt (ant st) n (dazi st) (zen1 st) (zen2 st) (dzen st).
Definition set_dazi (x : float64) (st : antState) : antState :=
  mkSt (ant st) (nf st) x (zen1 st) (zen2 st) (dzen st).
Definition set_zen (z1 z2 dz : float64) (st : antState) : antState :=
  mkSt (ant st) (nf st) (dazi st) z1 z2 dz.

Definition set_serial (t s1 s2 s3 : gostring) (a : antenna) : antenna :=
  mkAntenna t s1 s2 s3 (PCV a) (isSatelliteAntenna a)
            (ValidFrom a) (ValidUntil a) (SinexCode a).
Definition set_PCV (l : list pcv) (a : antenna) : antenna :=
  mkAntenna (Type_ a) (S1 a) (S2 a) (S3 a) l (isSatelliteAntenna a)
            (ValidFrom a) (ValidUntil a) (SinexCode a).
Definition set_ValidFrom (t : Time) (a : antenna) : antenna :=
  mkAntenna (Type_ a) (S1 a) (S2 a) (S3 a) (PCV a) (isSatelliteAntenna a)
            t (ValidUntil a) (SinexCode a).
Definition set_ValidUntil (t : Time) (a : antenna) : antenna :=
  mkAntenna (Type_ a) (S1 a) (S2 a) (S3 a) (PCV a) (isSatelliteAntenna a)
            (ValidFrom a) t (SinexCode a).
Definition set_SinexCode (c : gostring) (a : antenna) : antenna :=
  mkAntenna (Type_ a) (S1 a) (S2 a) (S3 a) (PCV a) (isSatelliteAntenna a)
            (ValidFrom a) (ValidUntil a) c.

(** How one round of the loop ends. *)
Inductive stepResult :=
| Next (st : antState) (s : Scanner)               (* next round *)
| Return_ (st : antState) (s : Scanner)            (* success return *)
| Break (st : antState) (e : error) (s : Scanner). (* [e != nil]: break *)

Definition or_break (st : antState) (e : option error) (s : Scanner)
  : stepResult :=
  match e with
  | Some err => Break st err s
  | None => Next st s
  end.

(** The case START OF FREQUENCY once [parseOneFreq] has returned. *)
Definition afterFreq (st : antState) (r : pcv * option error * Scanner)
  : stepResult :=
  let '(p, e1, s) := r in
  match e1 with
  | Some e1 => Break st (PcvDataError (Type_ (ant st)) e1) s
  | None =>
      let p := set_grid (dazi st) (zen1 st) (zen2 st) (dzen st) p in
      Next (set_ant (set_PCV (PCV (ant st) ++ [p]) (ant st)) st) s
  end.

(** The [switch label] of [scanOneAntenna] for a line [buf] of at least
    61 bytes, followed by the test [e != nil]. *)
Definition labelStep (buf : gostring) (s : Scanner) (st : antState)
  : outcome stepResult :=
  lab ← sliceFrom buf 60;
  let label := TrimRightSp lab in
  if streq label "COMMENT" then Ret (Next st s)
  else if streq label "TYPE / SERIAL NO" then
    t ← sliceTo buf 20;
    a ← slice buf 20 40;
    b ← slice buf 40 50;
    c ← slice buf 50 60;
    Ret (Next (set_ant (set_serial (TrimSpace t) (TrimSpace a) (TrimSpace b)
                                   (TrimSpace c) (ant st)) st) s)
  else if streq label "METH / BY / # / DATE" then Ret (Next st s)
  else if streq label "DAZI" then
    d ← sliceTo buf 60;
    let '(x, e) := ParseFloat (TrimSpace d) in
    Ret (or_break (set_dazi x st) e s)
  else if streq label "ZEN1 / ZEN2 / DZEN" then
    d ← sliceTo buf 60;
    let sep := Fields d in
    if bool_decide (length sep < 3) then Ret (Next st s)
    else
      t0 ← index sep 0; let '(z1, e1) := ParseFloat t0 in
      t1 ← index sep 1; let '(z2, e2) := ParseFloat t1 in
      t2 ← index sep 2; let '(dz, e3) := ParseFloat t2 in
      Ret (or_break (set_zen z1 z2 dz st) (first_error [e1; e2; e3]) s)
  else if streq label "# OF FREQUENCIES" then
    d ← sliceTo buf 60;
    let '(n, e) := Atoi (TrimSpace d) in
    Ret (or_break (set_nf n st) e s)
  else if streq label "VALID FROM" then
    d ← sliceTo buf 60;
    let '(t, e) := parseDate d in
    Ret (or_break (set_ant (set_ValidFrom t (ant st)) st) e s)
  else if streq label "VALID UNTIL" then
    d ← sliceTo buf 60;
    let '(t, e) := parseDate d in
    Ret (or_break (set_ant (set_ValidUntil t (ant st)) st) e s)
  else if streq label "SINEX CODE" then
    d ← sliceTo buf 60;
    Ret (Next (set_ant (set_SinexCode (TrimSpace d) (ant st)) st) s)
  else if streq label "START OF FREQUENCY" then
    r ← parseOneFreq s buf (dazi st) (zen1 st) (zen2 st) (dzen st);
    Ret (afterFreq st r)
  else if streq label "END OF ANTENNA" then Ret (Return_ st s)
  else Ret (Next st s).

(** How the reading loop is left: by the success [return], or with the
    value of [e] (nil at the end of input and after a short line). *)
Inductive loopExit :=
| Returned (st : antState)
| Left (st : antState) (e : option error).

Fixpoint scanLoop (fuel : nat) (s : Scanner) (st : antState)
    (log : list logEntry) : outcome (loopExit * Scanner * list logEntry) :=
  match fuel with
  | O => OutOfFuel
  | S fuel' =>
      match s with
      | [] => Ret (Left st None, [], log)
      | buf :: s' =>
          if bool_decide (len buf < 61)%Z
          then Ret (Left st None, s', log ++ [WarnNoLabel buf])
          else
            r ← labelStep buf s' st;
            match r with
            | Next st' s'' => scanLoop fuel' s'' st' log
            | Return_ st' s'' => Ret (Returned st', s'', log)
            | Break st' e s'' => Ret (Left st' (Some e), s'', log)
            end
      end
  end.

(** The loop that advances to the END OF ANTENNA label after an error. *)
Fixpoint skipToEndOfAntenna (s : Scanner) : Scanner :=
  match s with
  | [] => []
  | buf :: s' =>
      if bool_decide (len buf > 60)%Z && HasPrefix (drop 60 buf) "END OF ANTENNA"
      then s'
      else skipToEndOfAntenna s'
  end.

(** What follows the reading loop: the success return, the error for a
    loop left with [e == nil], or the skip to END OF ANTENNA with [err = e]. *)
Definition afterLoop (ex : loopExit) (s : Scanner)
  : antenna * option error * Scanner :=
  match ex with
  | Returned st => (ant st, None, s)
  | Left st None => (ant st, Some EndLabelNotFound, s)
  | Left st (Some e) => (ant st, Some e, skipToEndOfAntenna s)
  end.

(** [scanOneAntenna] from the state [st] of its local variables. *)
Definition scanOneAntenna_from (fuel : nat) (s : Scanner) (st : antState)
    (log : list logEntry)
  : outcome (antenna * option error * Scanner * list logEntry) :=
  '(ex, s, log) ← scanLoop fuel s st log;
  let '(a, e, s) := afterLoop ex s in
  Ret (a, e, s, log).

Definition scanOneAntenna (s : Scanner) (log : list logEntry)
  : outcome (antenna * option error * Scanner * list logEntry) :=
  scanOneAntenna_from (S (length s)) s st0 log.

(** ** ReadAntexData *)

Fixpoint ReadAntexData_loop (fuel : nat) (s : Scanner) (ants : list antenna)
    (log : list logEntry) : outcome (list antenna * list logEntry) :=
  match fuel with
  | O => OutOfFuel
  | S fuel' =>
      match s with
      | [] => Ret (ants, log)
      | buf :: s' =>
          let log := if bool_decide (len buf < 61)%Z
                     then log ++ [WarnNoAntexData buf] else log in
          lab ← sliceFrom buf 60;
          if HasPrefix lab "START OF ANTENNA" then
            '(a, e, s'', log) ← scanOneAntenna s' log;
            let log := match e with
                       | Some err => log ++ [LogError err]
                       | None => log
                       end in
            ReadAntexData_loop fuel' s'' (ants ++ [a]) log
          else ReadAntexData_loop fuel' s' ants log
      end
  end.

Definition ReadAntexData (s : Scanner)
  : outcome (list antenna * list logEntry) :=
  ReadAntexData_loop (S (length s)) s [] [].

(** ** ReadAntexFile *)

(** [ReadAntexFile] once the file is open: [s] holds the lines its scanner
    delivers (a file that cannot be opened makes the function panic before
    anything is read). *)
Definition ReadAntexFile (s : Scanner)
  : outcome (gostring * ascii * ascii * gostring * list antenna
             * list logEntry) :=
  '(hd, s, log) ← ScanHeader s;
  '(ant, log') ← ReadAntexData s;
  Ret (antexVer hd, satSys hd, pcvType hd, refAnt hd, ant, log ++ log').

End Antex.

(** ** Package bancroft: the quadratic equation

    A [mat.VecDense] is the list of its values (its [RawVector().Data]);
    [math.Sqrt] is the correctly rounded square root. The products and
    sums are rounded one by one, as Go compiles them where it does not
    fuse a multiplication with an addition. *)

Module Bancroft.

Inductive error := InvalidVectorSize.    (* "invalid vector size" *)

Definition fmul : float64 → float64 → float64 := SFmul prec emax.
Definition fadd : float64 → float64 → float64 := SFadd prec emax.
Definition fsqrt : float64 → float64 := SFsqrt prec emax.
Definition fneg : float64 → float64 := SFopp.
Definition fone : float64 := Eval vm_compute in binary_normalize prec emax 1 0 false.

Definition calcMinkowski4D (a b : list float64) : float64 * option error :=
  match a, b with
  | [a0; a1; a2; a3], [b0; b1; b2; b3] =>
      (fsub (fadd (fadd (fmul a0 b0) (fmul a1 b1)) (fmul a2 b2)) (fmul a3 b3),
       None)
  | _, _ => (fzero, Some InvalidVectorSize)
  end.

Definition minkowski4D (a b : list float64) : float64 * option error :=
  calcMinkowski4D a b.

Definition solveBancroftQuadraticEq (u v : list float64)
  : float64 * float64 * option error :=
  let '(E, err) := minkowski4D u u in
  match err with
  | Some e => (fzero, fzero, Some e)
  | None =>
      let '(uv, err) := minkowski4D u v in
      match err with
      | Some e => (fzero, fzero, Some e)
      | None =>
          let F := fsub uv fone in
          let '(G, err) := minkowski4D v v in
          match err with
          | Some e => (fzero, fzero, Some e)
          | None =>
              let '(a, b, c) := (E, F, G) in
              let d := fsqrt (fsub (fmul b b) (fmul a c)) in
              (fdiv (fadd (fneg b) d) a, fdiv (fsub (fneg b) d) a, None)
          end
      end
  end.

End Bancroft.

(** ** An instance of the library for running the reader

    [goStd] implements the interface on the inputs the examples use: ASCII
    white space; decimal literals [[+-]digits[.digits]] whose digits stay
    below 2^53 with at most 22 of them after the point, for which one
    correctly rounded division gives the nearest float64, as in strconv's
    exact path (other spellings are reported as errors here); decimal
    integers; dates in the layout of [parseDate]; and the amd64 result
    [-2^63] for a conversion without an [int] value. *)

Module Std.

Definition is_space (c : ascii) : bool :=
  let b := byteval c in (b =? 32) || ((9 <=? b) && (b <=? 13)).

Fixpoint trimLeft (s : gostring) : gostring :=
  match s with
  | c :: s' => if is_space c then trimLeft s' else s
  | [] => []
  end.

Definition TrimSpace (s : gostring) : gostring :=
  rev (trimLeft (rev (trimLeft s))).

(** [cur] is the field being read, in reverse. *)
Fixpoint fieldsFrom (cur : gostring) (s : gostring) : list gostring :=
  match s with
  | [] => match cur with [] => [] | _ => [rev cur] end
  | c :: s' =>
      if is_space c
      then match cur with
           | [] => fieldsFrom [] s'
           | _ => rev cur :: fieldsFrom [] s'
           end
      else fieldsFrom (c :: cur) s'
  end.

Definition Fields (s : gostring) : list gostring := fieldsFrom [] s.

Definition is_digit (c : ascii) : bool :=
  (48 <=? byteval c) && (byteval c <=? 57).

Fixpoint digits (acc : Z) (s : gostring) : option Z :=
  match s with
  | [] => Some acc
  | c :: s' =>
      if is_digit c then digits (10 * acc + Z.of_nat (byteval c - 48))%Z s'
      else None
  end.

Definition unsigned (s : gostring) : option Z :=
  match s with
  | [] => None
  | _ => digits 0 s
  end.

Definition signed_body (s : gostring) : bool * gostring :=
  match s with
  | c :: r => if bool_decide (c = "-"%char) then (true, r)
              else if bool_decide (c = "+"%char) then (false, r)
              else (false, s)
  | [] => (false, [])
  end.

Definition Atoi (s : gostring) : Z * option error :=
  let '(neg, body) := signed_body s in
  match unsigned body with
  | Some v =>
      let z := if neg then (- v)%Z else v in
      if in_int64 z then (z, None)
      else ((if neg then - 2 ^ 63 else 2 ^ 63 - 1)%Z, Some (NumError "Atoi" s))
  | None => (0%Z, Some (NumError "Atoi" s))
  end.

Fixpoint split_dot (s : gostring) : gostring * option gostring :=
  match s with
  | [] => ([], None)
  | c :: s' =>
      if bool_decide (c = "."%char) then ([], Some s')
      else let '(a, b) := split_dot s' in (c :: a, b)
  end.

Definition ParseFloat (s : gostring) : float64 * option error :=
  let bad := (fzero, Some (NumError "ParseFloat" s)) in
  let '(neg, body) := signed_body s in
  let '(ip, fp) := split_dot body in
  let fp := default [] fp in
  match unsigned (ip ++ fp) with
  | Some m =>
      if (m <? 2 ^ 53)%Z && (length fp <=? 22) then
        let q := fdiv (binary_normalize prec emax (if neg then - m else m)%Z 0
                                        neg)
                      (binary_normalize prec emax (10 ^ Z.of_nat (length fp)) 0
                                        false) in
        (q, None)
      else bad
  | None => bad
  end.

Definition num12 (s : gostring) : option Z :=
  if (1 <=? length s) && (length s <=? 2) then digits 0 s else None.

Definition num4 (s : gostring) : option Z :=
  if length s =? 4 then digits 0 s else None.

(** Seconds: one or two digits and an optional fraction, kept to
    nanoseconds. *)
Definition seconds (s : gostring) : option (Z * Z) :=
  let '(ip, fp) := split_dot s in
  sec ← num12 ip;
  match fp with
  | None => Some (sec, 0%Z)
  | Some f =>
      let f9 := take 9 (f ++ replicate 9 "0"%char) in
      _ ← unsigned f;
      ns ← digits 0 f9;
      Some (sec, ns)
  end.

Definition daysIn (m y : Z) : Z :=
  if (m =? 2)%Z then
    if ((y mod 4 =? 0) && (negb (y mod 100 =? 0) || (y mod 400 =? 0)))%Z
    then 29%Z else 28%Z
  else if ((m =? 4) || (m =? 6) || (m =? 9) || (m =? 11))%Z then 30%Z
  else 31%Z.

Definition between (lo hi x : Z) : bool := ((lo <=? x) && (x <=? hi))%Z.

Definition time_Parse (layout value : gostring) : Time * option error :=
  let bad := (zeroTime, Some (TimeParseError layout value)) in
  if negb (streq layout timeForm) then bad
  else
    match fieldsFrom [] value with
    | [y; mo; d; hh; mi; ss] =>
        match num4 y, num12 mo, num12 d, num12 hh, num12 mi, seconds ss with
        | Some y, Some mo, Some d, Some hh, Some mi, Some (sec, ns) =>
            if between 1 12 mo && between 1 (daysIn mo y) d
               && between 0 23 hh && between 0 59 mi && between 0 59 sec
            then (mkTime y mo d hh mi sec ns, None)
            else bad
        | _, _, _, _, _, _ => bad
        end
    | _ => bad
    end.

End Std.

Definition goStd : GoEnv :=
  {| TrimSpace := Std.TrimSpace;
     Fields := Std.Fields;
     ParseFloat := Std.ParseFloat;
     Atoi := Std.Atoi;
     time_Parse := Std.time_Parse;
     cvt_indefinite := λ _, (- 2 ^ 63)%Z |}.

(** ** Sample lines

    [ln data label] is the line with [data] in columns 0-59 and [label]
    from column 60 on. *)

Definition ln (data label : string) : gostring :=
  lit data ++ replicate (60 - length (lit data)) space ++ lit label.

(** The antenna block quoted in [scanOneAntenna], first frequency. *)
Definition noazi18 : gostring :=
  "   NOAZI   -0.80   -0.90   -0.90   -0.80   -0.40    0.20    0.80    1.30    1.40    1.20    0.70    0.00   -0.40   -0.70   -0.90   -0.90   -0.90   -0.90".

Definition blockIIA : Scanner :=
  [ ln "BLOCK IIA           G01                 G032      1992-079A" "TYPE / SERIAL NO";
    ln "                                             0    29-JAN-17" "METH / BY / # / DATE";
    ln "     0.0" "DAZI";
    ln "     0.0  17.0   1.0" "ZEN1 / ZEN2 / DZEN";
    ln "     1" "# OF FREQUENCIES";
    ln "  1992    11    22     0     0    0.0000000" "VALID FROM";
    ln "  2008    10    16    23    59   59.9999999" "VALID UNTIL";
    ln "IGS14_2247" "SINEX CODE";
    ln "   G01" "START OF FREQUENCY";
    ln "    279.00      0.00   2319.50" "NORTH / EAST / UP";
    noazi18;
    ln "   G01" "END OF FREQUENCY";
    ln "" "END OF ANTENNA" ].


Definition startAnt : gostring := ln "" "START OF ANTENNA".
Definition endAnt : gostring := ln "" "END OF ANTENNA".
Definition typeLine : gostring :=
  ln "BLOCK IIA           G01                 G032      1992-079A"
     "TYPE / SERIAL NO".
Definition freqStart : gostring := ln "   G01" "START OF FREQUENCY".
Definition endFreq : gostring := ln "   G01" "END OF FREQUENCY".
Definition neuLine : gostring :=
  ln "    279.00      0.00   2319.50" "NORTH / EAST / UP".

(** The float64 a decimal literal denotes. *)
Definition flt (s : string) : float64 := (Std.ParseFloat s).1.

(** A header without END OF HEADER, ending in a line without label. *)
Definition openHeader : Scanner :=
  [ ln "     1.4            M" "ANTEX VERSION / SYST";
    ln "A                   IGS14_2247" "PCV TYPE / REFANT";
    lit "free text" ].

(** An antenna block whose DAZI is not a number, followed by the block
    quoted in the source. *)
Definition badBlock : Scanner :=
  [ typeLine;
    ln "     abc" "DAZI";
    ln "     0.0  17.0   1.0" "ZEN1 / ZEN2 / DZEN";
    endAnt ].

Definition twoBlocks : Scanner := badBlock ++ startAnt :: blockIIA.

(** A frequency section with three azimuth rows of three values. *)
Definition aziRows : Scanner :=
  [ neuLine;
    lit "   NOAZI    1.00    2.00    3.00";
    lit "     0.0    1.10    2.10    3.10";
    lit "   180.0    1.20    2.20    3.20";
    lit "   360.0    1.30    2.30    3.30";
    endFreq ].

(** A frequency section that opens with a COMMENT line. *)
Definition commentRows : Scanner :=
  [ ln " calibrated in the chamber" "COMMENT"; neuLine; noazi18; endFreq ].

(** A frequency section whose NORTH / EAST / UP line has two fields. *)
Definition shortNeuRows : Scanner :=
  [ ln "    279.00      0.00" "NORTH / EAST / UP"; noazi18; endFreq ].

(** An antenna block whose VALID FROM names the 32nd of November. *)
Definition badDateLine : gostring :=
  ln "  1992    11    32     0     0    0.0000000" "VALID FROM".

Definition badDateBlock : Scanner :=
  [ typeLine; badDateLine; ln "IGS14_2247" "SINEX CODE"; endAnt ].

(** An antenna block without a ZEN1 / ZEN2 / DZEN line. *)
Definition noZenBlock : Scanner :=
  [ typeLine; freqStart; neuLine; noazi18; endFreq; endAnt ].

(** The grid of [aziRows] for DAZI 180 and zenith 0 to 10 by 5. *)
Definition aziGrid : pcv :=
  Eval vm_compute in
    match parseOneFreq (H:=goStd) aziRows freqStart
            (flt "180.0") (flt "0.0") (flt "10.0") (flt "5.0") with
    | Ret (p, _, _) => p
    | _ => pcv0
    end.

(** The variables of [scanOneAntenna] after [typeLine]. *)
Definition afterType : antState :=
  set_ant (set_serial "BLOCK IIA" "G01" "G032" "1992-079A" antenna0) st0.

(** The error of [time.Parse] on the date of [badDateLine]. *)
Definition badDateError : error :=
  TimeParseError timeForm "1992    11    32     0     0    0.0000000".

(** ** Notions used to state the properties *)

(** The scanner and the variables a round of the loop ends with. *)
Definition scannerOf (r : stepResult) : Scanner :=
  match r with
  | Next _ s | Return_ _ s | Break _ _ s => s
  end.

Definition stateOf (r : stepResult) : antState :=
  match r with
  | Next st _ | Return_ st _ | Break st _ _ => st
  end.

Definition exitState (ex : loopExit) : antState :=
  match ex with
  | Returned st | Left st _ => st
  end.

Section Notions.
Context `{GoEnv}.

(** A line carries the END OF HEADER label. *)
Definition isEndOfHeader (buf : gostring) : bool :=
  bool_decide (61 ≤ length buf) && HasPrefix (drop 60 buf) "END OF HEADER".

(** The header fields after one more line, in the words of the format:
    a version / system line gives the version (columns 0-7, trimmed) and
    the satellite system (column 20), a PCV type / reference antenna line
    the PCV type (column 0) and the reference antenna (columns 20-39,
    trimmed); every other line, and every line shorter than 61 bytes,
    leaves the fields as they are. *)
Definition headerLine (hd : header) (buf : gostring) : header :=
  if bool_decide (length buf < 61) then hd
  else if HasPrefix (drop 60 buf) "ANTEX VERSION / SYST"
  then set_version (TrimSpace (take 8 buf)) (nth 20 buf zero) hd
  else if HasPrefix (drop 60 buf) "PCV TYPE / REFANT"
  then set_pcvtype (nth 0 buf zero) (TrimSpace (take 20 (drop 20 buf))) hd
  else hd.

Definition headerFields (hd : header) : gostring * ascii * ascii * gostring :=
  (antexVer hd, satSys hd, pcvType hd, refAnt hd).

(** The label of a line of at least 61 bytes, as [scanOneAntenna] reads
    it. *)
Definition labelOf (buf : gostring) : gostring := TrimRightSp (drop 60 buf).

(** [rounds labels s st s' st']: from the scanner [s] and the variables
    [st], the reading loop of [scanOneAntenna] goes through one round per
    label of [labels], none of which leaves the loop, and then stands at
    [s'] with the variables [st']. *)
Inductive rounds
  : list gostring → Scanner → antState → Scanner → antState → Prop :=
| rounds_nil s st : rounds [] s st s st
| rounds_cons buf s st st1 s1 labels s2 st2 :
    61 ≤ length buf →
    labelStep buf s st = Ret (Next st1 s1) →
    rounds labels s1 st1 s2 st2 →
    rounds (labelOf buf :: labels) (buf :: s) st s2 st2.

(** A division that refuses a zero divisor, and the zenith count computed
    with it. *)
Definition fdiv_checked (x y : float64) : option float64 :=
  if feqb y fzero then None else Some (fdiv x y).

Definition nzenChecked (zen1 zen2 dzen : float64) : option Z :=
  q ← fdiv_checked (fsub zen2 zen1) dzen;
  Some (wrap64 (int_of_float q + 1)).

End Notions.

(** ** Further notions *)

(** A line at which the loop that skips to END OF ANTENNA stops. *)
Definition isEndOfAntenna (buf : gostring) : bool :=
  bool_decide (len buf > 60)%Z && HasPrefix (drop 60 buf) "END OF ANTENNA".

(** A line at which [ReadAntexData] enters an antenna block. *)
Definition isStartOfAntenna (buf : gostring) : bool :=
  HasPrefix (drop 60 buf) "START OF ANTENNA".

Definition startLines (s : list gostring) : nat :=
  length (filter (λ buf, isStartOfAntenna buf = true) s).

(** The sizes of a grid agree with the values it holds. *)
Definition grid_ok (p : pcv) : Prop :=
  len (Vnonaz p) = Nzen p
  ∧ len (Vaz p) = Nazi p
  ∧ Forall (λ row, len row = Nzen p) (Vaz p).

(** A header line as [ScanHeader] goes on with it: padded when short. *)
Definition padded (buf : gostring) : gostring :=
  if bool_decide (len buf < 61)%Z then Sprintf_pad60_COMMENT buf else buf.

(** The text [ScanHeader] has gathered in [h] from the lines [ls]. *)
Definition headerText (ls : list gostring) : gostring :=
  concat (map (λ buf, padded buf ++ [newline]) ls).

(** The warnings [ScanHeader] has logged for the lines [ls]. *)
Definition headerWarnings (ls : list gostring) : list logEntry :=
  map WarnNoHeaderLabel (filter (λ buf, (len buf < 61)%Z) ls).

(** The line read before does not end in COMMENT, so that [nextLine] hands
    out the next line. *)
Definition notComment (buf : gostring) : Prop :=
  HasSuffix (TrimRightSp buf) "COMMENT" = false.

(** An azimuth row: its line, its key, and what they parse to. *)
Record aziRow := mkRow {
  rowLine : gostring;
  rowAz : gostring;
  rowAzimuth : float64;
  rowVals : list float64 }.

Section Rows.
Context `{GoEnv}.

Definition rowOk (nzen : Z) (r : aziRow) : Prop :=
  parseOneAzi (rowLine r) = (rowAz r, rowVals r, None)
  ∧ rowAz r ≠ lit "NOAZI"
  ∧ len (rowVals r) = nzen
  ∧ ParseFloat (rowAz r) = (rowAzimuth r, None)
  ∧ notComment (rowLine r).

End Rows.

(** The fields of a grid that the loop over the azimuth rows leaves
    alone. *)
Definition gridHead (p : pcv) : ascii * Z * Z * Z * pco * list float64 :=
  (Sys p, Freq p, Nazi p, Nzen p, PCO p, Vnonaz p).

(** The labels [scanOneAntenna] has a case for. *)
Definition knownLabels : list gostring :=
  [ lit "COMMENT"; lit "TYPE / SERIAL NO"; lit "METH / BY / # / DATE";
    lit "DAZI"; lit "ZEN1 / ZEN2 / DZEN"; lit "# OF FREQUENCIES";
    lit "VALID FROM"; lit "VALID UNTIL"; lit "SINEX CODE";
    lit "START OF FREQUENCY"; lit "END OF ANTENNA" ].

(** The variables of [scanOneAntenna] agree except for [nf]. *)
Definition eq_but_nf (st1 st2 : antState) : Prop :=
  ant st1 = ant st2 ∧ dazi st1 = dazi st2 ∧ zen1 st1 = zen1 st2
  ∧ zen2 st1 = zen2 st2 ∧ dzen st1 = dzen st2.

Definition step_eq_but_nf (r1 r2 : stepResult) : Prop :=
  match r1, r2 with
  | Next a s, Next b s' => eq_but_nf a b ∧ s = s'
  | Return_ a s, Return_ b s' => eq_but_nf a b ∧ s = s'
  | Break a e s, Break b e' s' => eq_but_nf a b ∧ e = e' ∧ s = s'
  | _, _ => False
  end.

Definition exit_eq_but_nf (x1 x2 : loopExit) : Prop :=
  match x1, x2 with
  | Returned a, Returned b => eq_but_nf a b
  | Left a e, Left b e' => eq_but_nf a b ∧ e = e'
  | _, _ => False
  end.

(** Two outcomes of the same kind, with related values. *)
Definition outcome_rel {A} (R : A → A → Prop) (m1 m2 : outcome A) : Prop :=
  match m1, m2 with
  | Ret a, Ret b => R a b
  | Panic p, Panic q => p = q
  | OutOfFuel, OutOfFuel => True
  | _, _ => False
  end.

(** The warnings [ReadAntexData] logs for lines outside antenna blocks. *)
Definition dataWarnings (ls : list gostring) : list logEntry :=
  map WarnNoAntexData (filter (λ buf, (len buf < 61)%Z) ls).

(** ** Further sample lines *)

(** The azimuth rows of [aziRows] and what they parse to. *)
Definition aziRowList : list aziRow :=
  [ mkRow "     0.0    1.10    2.10    3.10" "0.0" (flt "0.0")
          [flt "1.10"; flt "2.10"; flt "3.10"];
    mkRow "   180.0    1.20    2.20    3.20" "180.0" (flt "180.0")
          [flt "1.20"; flt "2.20"; flt "3.20"];
    mkRow "   360.0    1.30    2.30    3.30" "360.0" (flt "360.0")
          [flt "1.30"; flt "2.30"; flt "3.30"] ].

(** A header of two lines, its END OF HEADER line, and a file made of
    them and of the two antenna blocks. *)
Definition headerLines : list gostring := take 2 openHeader.
Definition endHeader : gostring := ln "" "END OF HEADER".
Definition bodyLines : Scanner := startAnt :: twoBlocks.

(** Lines that [scanOneAntenna] reads over. *)
Definition commentLine : gostring := ln " calibrated in the chamber" "COMMENT".
Definition shortZenLine : gostring := ln "     0.0  17.0" "ZEN1 / ZEN2 / DZEN".
Definition nfLine : gostring := ln "     7" "# OF FREQUENCIES".

(** A row whose third token is not a number. *)
Definition badRow : gostring := "   NOAZI    1.00    x.00    3.00".

Definition noazi3 : gostring := "   NOAZI    1.00    2.00    3.00".

(** A line of 60 spaces: long enough to be sliced, too short for a
    label. *)
Definition blankLine60 : gostring := replicate 60 space.

(** The record of [blockIIA] and the result for [bodyLines]. *)
Definition blockIIAAnt : antenna :=
  Eval vm_compute in
    match scanOneAntenna (H:=goStd) blockIIA [] with
    | Ret (a, _, _, _) => a
    | _ => antenna0
    end.

Definition bodyAnts : list antenna :=
  Eval vm_compute in
    match ReadAntexData (H:=goStd) bodyLines with
    | Ret (ants, _) => ants
    | _ => []
    end.

Definition bodyLog : list logEntry :=
  [LogError (NumError "ParseFloat" "abc")].

(** ** Notions for the first lines of a frequency section *)

Definition isNone {A} (o : option A) : bool :=
  match o with
  | None => true
  | Some _ => false
  end.

Section FreqNotions.
Context `{GoEnv}.

(** The line that [parseOneFreq] is handed after the START OF FREQUENCY
    line is a NORTH / EAST / UP line with fewer than three fields. *)
Definition shortOffsets (buf : gostring) (s : Scanner) : bool :=
  HasPrefix (drop 60 (nextLine buf s).1) "NORTH / EAST / UP"
  && bool_decide (length (Fields (take 60 (nextLine buf s).1)) < 3).

(** The first lines of a frequency section take [parseOneFreq] to the
    computation of the grid size: the frequency number parses, the line
    handed out next has at least 60 bytes, and it is no NORTH / EAST / UP
    line or its first three fields are numbers. *)
Definition reachesGrid (buf : gostring) (s : Scanner) : bool :=
  isNone (Atoi (take 2 (drop 4 buf))).2
  && bool_decide (60 ≤ length (nextLine buf s).1)
  && (negb (HasPrefix (drop 60 (nextLine buf s).1) "NORTH / EAST / UP")
      || match Fields (take 60 (nextLine buf s).1) with
         | t0 :: t1 :: t2 :: _ =>
             isNone (ParseFloat t0).2 && isNone (ParseFloat t1).2
             && isNone (ParseFloat t2).2
         | _ => false
         end).

End FreqNotions.

(** [parseOneFreq] has computed the counts [nazi] and [nzen] and gone on
    with them: with a negative [nazi] it panics when it makes the rows;
    otherwise the grid it returns, with or without an error, holds the two
    counts, unless its search for a misplaced END OF FREQUENCY slices a
    line shorter than 60 bytes. *)
Definition goesOnWith (nazi nzen : Z)
    (m : outcome (pcv * option error * Scanner)) : Prop :=
  match m with
  | Ret (p, _, _) => (0 ≤ nazi)%Z ∧ Nazi p = nazi ∧ Nzen p = nzen
  | Panic pn =>
      if bool_decide (nazi < 0)%Z then pn = MakeSliceLen else pn = SliceBounds
  | OutOfFuel => False
  end.


(** * Properties *)

(** ** Slices within bounds *)

Lemma sliceFrom_ok (s : gostring) i :
  i ≤ length s → sliceFrom s i = Ret (drop i s).
Proof. intros. unfold sliceFrom. by rewrite decide_True. Qed.

Lemma sliceFrom_panic (s : gostring) i :
  length s < i → sliceFrom s i = Panic SliceBounds.
Proof. intros. unfold sliceFrom. rewrite decide_False; [done | lia]. Qed.

Lemma sliceTo_ok (s : gostring) j :
  j ≤ length s → sliceTo s j = Ret (take j s).
Proof. intros. unfold sliceTo. by rewrite decide_True. Qed.

Lemma slice_ok (s : gostring) i j :
  i ≤ j → j ≤ length s → slice s i j = Ret (take (j - i) (drop i s)).
Proof. intros. unfold slice. by rewrite decide_True. Qed.

Lemma index_ok {A} (s : list A) i d :
  i < length s → index s i = Ret (nth i s d).
Proof.
  intros Hi. unfold index.
  destruct (lookup_lt_is_Some_2 s i Hi) as [c Hc]. rewrite Hc.
  by rewrite (nth_lookup_Some _ _ d c Hc).
Qed.

(** ** The padding of short header lines *)

Lemma runeCountFrom_le k s : runeCountFrom k s ≤ length s.
Proof.
  revert k. induction s as [|c s IH]; intros k; simpl; [lia|].
  destruct k; [specialize (IH (runeSize c s - 1)) | specialize (IH k)]; lia.
Qed.

Lemma RuneCountInString_le s : RuneCountInString s ≤ length s.
Proof. apply runeCountFrom_le. Qed.

(** From column 60 on, a padded short line holds spaces and COMMENT. *)
Lemma pad60_label (buf : gostring) :
  length buf < 61 →
  ∃ j, drop 60 (Sprintf_pad60_COMMENT buf) = replicate j space ++ lit "COMMENT".
Proof.
  intros Hlen. unfold Sprintf_pad60_COMMENT.
  pose proof (RuneCountInString_le buf) as Hrc.
  exists (length buf + (60 - RuneCountInString buf) - 60).
  rewrite drop_app_ge by lia.
  rewrite drop_app_le by (rewrite length_replicate; lia).
  rewrite drop_replicate. do 2 f_equal. lia.
Qed.

Lemma pad60_length (buf : gostring) :
  67 ≤ length (Sprintf_pad60_COMMENT buf).
Proof.
  unfold Sprintf_pad60_COMMENT.
  pose proof (RuneCountInString_le buf).
  rewrite !length_app, length_replicate. simpl. lia.
Qed.

Lemma HasPrefix_pad j :
  HasPrefix (replicate j space ++ lit "COMMENT") "ANTEX VERSION / SYST" = false
  ∧ HasPrefix (replicate j space ++ lit "COMMENT") "PCV TYPE / REFANT" = false
  ∧ HasPrefix (replicate j space ++ lit "COMMENT") "END OF HEADER" = false.
Proof. destruct j; done. Qed.

(** ** ScanHeader *)

Section HeaderProps.
Context `{GoEnv}.

Lemma headerFields_set_h v hd : headerFields (set_h v hd) = headerFields hd.
Proof. done. Qed.

Lemma headerLine_fields hd1 hd2 buf :
  headerFields hd1 = headerFields hd2 →
  headerFields (headerLine hd1 buf) = headerFields (headerLine hd2 buf).
Proof.
  unfold headerLine, headerFields. intros [=]. repeat case_match; simpl; congruence.
Qed.

Lemma fold_headerLine_fields s hd1 hd2 :
  headerFields hd1 = headerFields hd2 →
  headerFields (fold_left headerLine s hd1)
  = headerFields (fold_left headerLine s hd2).
Proof.
  revert hd1 hd2. induction s as [|buf s IH]; intros hd1 hd2 Hf; simpl; [done|].
  apply IH. by apply headerLine_fields.
Qed.

(** One round of the loop on a line without the END OF HEADER label: no
    panic, and the fields move as [headerLine] says. *)
Lemma ScanHeader_loop_cons buf s hd log :
  isEndOfHeader buf = false →
  ∃ hd' log',
    ScanHeader_loop (buf :: s) hd log = ScanHeader_loop s hd' log'
    ∧ headerFields hd' = headerFields (headerLine hd buf).
Proof.
  intros Hend. cbn [ScanHeader_loop]. unfold headerLine.
  destruct (decide (length buf < 61)) as [Hshort|Hlong].
  - rewrite (bool_decide_true (len buf < 61)%Z) by (unfold len; lia).
    rewrite (bool_decide_true (length buf < 61)) by done.
    destruct (pad60_label buf Hshort) as [j Hj].
    pose proof (pad60_length buf) as Hl.
    rewrite sliceFrom_ok by lia. cbn [mbind outcome_bind]. rewrite Hj.
    destruct (HasPrefix_pad j) as (-> & -> & ->).
    destruct (HasPrefix _ _); eauto.
  - rewrite (bool_decide_false (len buf < 61)%Z) by (unfold len; lia).
    rewrite (bool_decide_false (length buf < 61)) by done.
    unfold isEndOfHeader in Hend.
    rewrite bool_decide_true in Hend by lia. cbn [andb] in Hend.
    rewrite sliceFrom_ok by lia. cbn [mbind outcome_bind].
    destruct (HasPrefix (drop 60 buf) "ANTEX VERSION / SYST").
    { rewrite sliceTo_ok by lia. cbn [mbind outcome_bind].
      rewrite (index_ok buf 20 zero) by lia. cbn [mbind outcome_bind].
      eauto. }
    destruct (HasPrefix (drop 60 buf) "PCV TYPE / REFANT").
    { rewrite (index_ok buf 0 zero) by lia. cbn [mbind outcome_bind].
      rewrite slice_ok by lia. cbn [mbind outcome_bind]. eauto. }
    destruct (HasPrefix (drop 60 buf) "COMMENT"); [eauto|].
    rewrite Hend. eauto.
Qed.

Lemma ScanHeader_loop_no_terminator s : ∀ hd log,
  Forall (λ buf, isEndOfHeader buf = false) s →
  ∃ hd' log',
    ScanHeader_loop s hd log = Ret (hd', [], log')
    ∧ headerFields hd' = headerFields (fold_left headerLine s hd).
Proof.
  induction s as [|buf s IH]; intros hd log Hall.
  - simpl. eauto.
  - inversion Hall as [|? ? Hbuf Hs]; subst.
    destruct (ScanHeader_loop_cons buf s hd log Hbuf) as (hd1 & log1 & Heq & Hf).
    destruct (IH hd1 log1 Hs) as (hd' & log' & Hrun & Hf').
    exists hd', log'. split; [by rewrite Heq|].
    rewrite Hf'. simpl. by apply fold_headerLine_fields.
Qed.

(** C6. When no line of the input carries the END OF HEADER label,
    [ScanHeader] does not fail: it reads the input to its end (the scanner
    it leaves is empty) and returns the version, satellite system, PCV type
    and reference antenna collected from the lines it has seen. *)
Theorem ScanHeader_without_terminator (s : Scanner) :
  Forall (λ buf, isEndOfHeader buf = false) s →
  ∃ hd log,
    ScanHeader s = Ret (hd, [], log)
    ∧ headerFields hd = headerFields (fold_left headerLine s header0).
Proof. apply ScanHeader_loop_no_terminator. Qed.

End HeaderProps.

(** ** The scanner only moves forward *)

Lemma bind_Ret {A B} (m : outcome A) (f : A → outcome B) (b : B) :
  m ≫= f = Ret b → ∃ a, m = Ret a ∧ f a = Ret b.
Proof. destruct m; simpl; eauto; discriminate. Qed.

Ltac bind_inv H :=
  let x := fresh "x" in
  let Hx := fresh "Hx" in
  apply bind_Ret in H as (x & Hx & H); cbn beta iota in H.

Ltac ret_inv H := injection H as H; subst.

(** Decide the comparisons of two literal labels. *)
Ltac eval_streq :=
  repeat match goal with
         | |- context [streq (lit ?a) (lit ?b)] =>
             let v := eval vm_compute in (streq (lit a) (lit b)) in
             change (streq (lit a) (lit b)) with v
         end;
  cbv iota.

Section ScannerProps.
Context `{GoEnv}.

Lemma nextLine_length buf s : length (nextLine buf s).2 ≤ length s.
Proof.
  induction s as [|l s IH]; simpl; [lia|].
  destruct (negb _); simpl; lia.
Qed.

Lemma seekEndOfFrequency_length s : ∀ buf found buf' s',
  seekEndOfFrequency buf s = Ret (found, buf', s') → length s' ≤ length s.
Proof.
  induction s as [|l s IH]; intros buf found buf' s' Hs; simpl in Hs.
  - ret_inv Hs. simpl. lia.
  - bind_inv Hs. destruct (HasPrefix _ _).
    + ret_inv Hs. simpl. lia.
    + apply IH in Hs. simpl. lia.
Qed.

Lemma readAzimuths_length n : ∀ i nzen buf s p,
  length (readAzimuths n i nzen buf s p).2 ≤ length s.
Proof.
  induction n as [|n IH]; intros i nzen buf s p; simpl; [lia|].
  pose proof (nextLine_length buf s) as Hn.
  destruct (nextLine buf s) as [buf1 s1]. simpl in Hn.
  destruct (parseOneAzi buf1) as [[az vals] [e|]]; simpl; [lia|].
  destruct (streq az _); simpl; [lia|].
  destruct (negb _); simpl; [lia|].
  destruct (ParseFloat az) as [x [e|]]; simpl; [lia|].
  etrans; [apply IH | done].
Qed.

Lemma resyncEndOfFrequency_length s : ∀ e s',
  resyncEndOfFrequency s = Ret (e, s') → length s' ≤ length s.
Proof.
  induction s as [|l s IH]; intros e s' Hs; simpl in Hs.
  - ret_inv Hs. simpl. lia.
  - bind_inv Hs. destruct x.
    + ret_inv Hs. simpl. lia.
    + apply IH in Hs. simpl. lia.
Qed.

Lemma parseGrid_length p buf s dazi zen1 zen2 dzen p' e s' :
  parseGrid p buf s dazi zen1 zen2 dzen = Ret (p', e, s') →
  length s' ≤ length s.
Proof.
  unfold parseGrid. intros Hg.
  destruct (gridSize dazi zen1 zen2 dzen) as [nazi nzen].
  bind_inv Hg. bind_inv Hg.
  pose proof (nextLine_length buf s) as Hn.
  destruct (nextLine buf s) as [buf1 s1]. simpl in Hn.
  destruct (parseOneAzi buf1) as [[az vals] [e1|]].
  { ret_inv Hg. lia. }
  destruct (negb (streq az _)). { ret_inv Hg. lia. }
  destruct (negb _). { ret_inv Hg. lia. }
  match type of Hg with context [readAzimuths ?n ?i ?z ?b ?s ?q] =>
    pose proof (readAzimuths_length n i z b s q) as Hr;
    destruct (readAzimuths n i z b s q) as [[[p2 e2] buf2] s2] end.
  simpl in Hr. destruct e2 as [e2|]. { ret_inv Hg. lia. }
  pose proof (nextLine_length buf2 s2) as Hn2.
  destruct (nextLine buf2 s2) as [buf3 s3]. simpl in Hn2.
  bind_inv Hg. destruct x1.
  - bind_inv Hg. destruct x1 as [e3 s4]. ret_inv Hg.
    apply resyncEndOfFrequency_length in Hx2. lia.
  - ret_inv Hg. lia.
Qed.

Lemma parseOneFreq_length s buf dazi zen1 zen2 dzen p e s' :
  parseOneFreq s buf dazi zen1 zen2 dzen = Ret (p, e, s') →
  length s' ≤ length s.
Proof.
  unfold parseOneFreq. intros Hf.
  bind_inv Hf. bind_inv Hf.
  destruct (Atoi x0) as [f [err|]]. { by ret_inv Hf. }
  pose proof (nextLine_length buf s) as Hn.
  destruct (nextLine buf s) as [buf1 s1]. simpl in Hn.
  bind_inv Hf. destruct (HasPrefix x1 _).
  - bind_inv Hf. bind_inv Hf. destruct x3 as [[found buf2] s2].
    assert (length s2 ≤ length s1) as Hs2.
    { destruct (bool_decide _).
      - by apply seekEndOfFrequency_length in Hx3.
      - by ret_inv Hx3. }
    destruct found. { ret_inv Hf. lia. }
    bind_inv Hf. destruct x3 as [[[n e0] u] [ee|]].
    + ret_inv Hf. lia.
    + apply parseGrid_length in Hf. lia.
  - apply parseGrid_length in Hf. lia.
Qed.

Lemma labelStep_length buf s st r :
  labelStep buf s st = Ret r → length (scannerOf r) ≤ length s.
Proof.
  unfold labelStep, or_break. intros Hl. bind_inv Hl.
  repeat (match type of Hl with
          | (if ?c then _ else _) = _ => destruct c
          | (let '(_, _) := ?c in _) = _ => destruct c as [? [?|]]
          | _ ≫= _ = _ => bind_inv Hl
          end);
    try (ret_inv Hl; simpl; lia).
  destruct x0 as [[p [e1|]] s1]; ret_inv Hl; simpl;
    by apply parseOneFreq_length in Hx0.
Qed.

(** Only the loops driven by a counter can run out of fuel. *)
Lemma bind_fueled {A B} (m : outcome A) (f : A → outcome B) :
  m ≠ OutOfFuel → (∀ a, f a ≠ OutOfFuel) → m ≫= f ≠ OutOfFuel.
Proof. destruct m; simpl; eauto. Qed.

Lemma sliceFrom_fueled (s : gostring) i : sliceFrom s i ≠ OutOfFuel.
Proof. unfold sliceFrom. by destruct (decide _). Qed.

Lemma sliceTo_fueled (s : gostring) i : sliceTo s i ≠ OutOfFuel.
Proof. unfold sliceTo. by destruct (decide _). Qed.

Lemma slice_fueled (s : gostring) i j : slice s i j ≠ OutOfFuel.
Proof. unfold slice. by destruct (decide _). Qed.

Lemma index_fueled {A} (s : list A) i : index s i ≠ OutOfFuel.
Proof. unfold index. by destruct (s !! i). Qed.

Lemma make_fueled {A} (z : A) n : make z n ≠ OutOfFuel.
Proof. unfold make. by destruct (bool_decide _). Qed.

Ltac fueled :=
  repeat first
    [ solve [auto]
    | apply sliceFrom_fueled | apply sliceTo_fueled | apply slice_fueled
    | apply index_fueled | apply make_fueled
    | apply bind_fueled; [|intros ?]
    | discriminate
    | match goal with
      | |- (if ?c then _ else _) ≠ _ => destruct c
      | |- (let '(_, _) := ?c in _) ≠ _ => destruct c
      | |- (match ?c with _ => _ end) ≠ _ => destruct c
      end ].

Lemma seekEndOfFrequency_fueled s : ∀ buf,
  seekEndOfFrequency buf s ≠ OutOfFuel.
Proof. induction s as [|l s IH]; intros buf; simpl; fueled. Qed.

Lemma resyncEndOfFrequency_fueled s : resyncEndOfFrequency s ≠ OutOfFuel.
Proof. induction s as [|l s IH]; simpl; fueled. Qed.

Lemma parseNEU_fueled sep : parseNEU sep ≠ OutOfFuel.
Proof. unfold parseNEU. fueled. Qed.

Lemma parseGrid_fueled p buf s dazi zen1 zen2 dzen :
  parseGrid p buf s dazi zen1 zen2 dzen ≠ OutOfFuel.
Proof.
  unfold parseGrid. pose proof resyncEndOfFrequency_fueled. fueled.
Qed.

Lemma parseOneFreq_fueled s buf dazi zen1 zen2 dzen :
  parseOneFreq s buf dazi zen1 zen2 dzen ≠ OutOfFuel.
Proof.
  unfold parseOneFreq.
  pose proof seekEndOfFrequency_fueled. pose proof parseNEU_fueled.
  pose proof parseGrid_fueled. fueled.
Qed.

Lemma labelStep_fueled buf s st : labelStep buf s st ≠ OutOfFuel.
Proof.
  unfold labelStep. pose proof parseOneFreq_fueled. fueled.
Qed.

Lemma scanLoop_length fuel : ∀ s st log ex s' log',
  scanLoop fuel s st log = Ret (ex, s', log') → length s' ≤ length s.
Proof.
  induction fuel as [|fuel IH]; intros s st log ex s' log' Hl; [done|].
  simpl in Hl. destruct s as [|buf s]. { ret_inv Hl. done. }
  destruct (bool_decide _). { ret_inv Hl. simpl. lia. }
  bind_inv Hl. apply labelStep_length in Hx.
  destruct x as [st1 s1|st1 s1|st1 e s1]; simpl in Hx.
  - apply IH in Hl. simpl. lia.
  - ret_inv Hl. simpl. lia.
  - ret_inv Hl. simpl. lia.
Qed.

(** More fuel than lines is enough fuel. *)
Lemma scanLoop_fuel fuel : ∀ fuel' s st log,
  length s < fuel → length s < fuel' →
  scanLoop fuel s st log = scanLoop fuel' s st log.
Proof.
  induction fuel as [|fuel IH]; intros fuel' s st log Hf Hf'; [lia|].
  destruct fuel' as [|fuel']; [lia|]. simpl.
  destruct s as [|buf s]; [done|]. simpl in Hf, Hf'.
  destruct (bool_decide _); [done|].
  destruct (labelStep buf s st) as [r| |] eqn:Hl; simpl; try done.
  apply labelStep_length in Hl.
  destruct r as [st1 s1|st1 s1|st1 e s1]; simpl in Hl; try done.
  apply IH; lia.
Qed.

Lemma scanLoop_returns fuel : ∀ s st log,
  length s < fuel → scanLoop fuel s st log ≠ OutOfFuel.
Proof.
  induction fuel as [|fuel IH]; intros s st log Hf; [lia|]. simpl.
  destruct s as [|buf s]; [done|]. simpl in Hf.
  destruct (bool_decide _); [done|].
  pose proof (labelStep_fueled buf s st) as Hne.
  destruct (labelStep buf s st) as [r| |] eqn:Hl; simpl; try done.
  apply labelStep_length in Hl.
  destruct r as [st1 s1|st1 s1|st1 e s1]; simpl in Hl; try done.
  apply IH; lia.
Qed.

(** The loop only appends to the log. *)
Lemma scanLoop_log fuel : ∀ s st log,
  scanLoop fuel s st log
  = '(ex, s', l) ← scanLoop fuel s st []; Ret (ex, s', log ++ l).
Proof.
  induction fuel as [|fuel IH]; intros s st log; [done|]. simpl.
  destruct s as [|buf s]. { simpl. by rewrite app_nil_r. }
  destruct (bool_decide _); [done|].
  destruct (labelStep buf s st) as [r| |]; simpl; try done.
  destruct r as [st1 s1|st1 s1|st1 e s1]; simpl.
  - apply IH.
  - by rewrite app_nil_r.
  - by rewrite app_nil_r.
Qed.

Lemma skipToEndOfAntenna_length s : length (skipToEndOfAntenna s) ≤ length s.
Proof.
  induction s as [|buf s IH]; simpl; [lia|].
  destruct (_ && _); simpl; lia.
Qed.

Lemma afterLoop_length ex s : length (afterLoop ex s).2 ≤ length s.
Proof.
  destruct ex as [st|st [e|]]; simpl; try lia.
  apply skipToEndOfAntenna_length.
Qed.

Lemma scanOneAntenna_from_log fuel s st log :
  scanOneAntenna_from fuel s st log
  = '(a, e, s', l) ← scanOneAntenna_from fuel s st []; Ret (a, e, s', log ++ l).
Proof.
  unfold scanOneAntenna_from. rewrite scanLoop_log.
  destruct (scanLoop fuel s st []) as [[[ex s1] l]| |]; simpl; try done.
  by destruct (afterLoop ex s1) as [[a e] s2].
Qed.

Lemma scanOneAntenna_log s log :
  scanOneAntenna s log
  = '(a, e, s', l) ← scanOneAntenna s []; Ret (a, e, s', log ++ l).
Proof. apply scanOneAntenna_from_log. Qed.

Lemma scanOneAntenna_length s log a e s' log' :
  scanOneAntenna s log = Ret (a, e, s', log') → length s' ≤ length s.
Proof.
  unfold scanOneAntenna, scanOneAntenna_from. intros Hs. bind_inv Hs.
  destruct x as [[ex s1] l]. apply scanLoop_length in Hx.
  pose proof (afterLoop_length ex s1) as Ha.
  destruct (afterLoop ex s1) as [[a1 e1] s2]. ret_inv Hs. simpl in Ha. lia.
Qed.

Lemma scanOneAntenna_returns s log : scanOneAntenna s log ≠ OutOfFuel.
Proof.
  unfold scanOneAntenna, scanOneAntenna_from.
  pose proof (scanLoop_returns (S (length s)) s st0 log) as Hr.
  destruct (scanLoop _ s st0 log) as [[[ex s1] l]| |]; simpl; try done.
  - by destruct (afterLoop ex s1) as [[a e] s2].
  - exfalso. apply Hr; [lia | done].
Qed.

Lemma ReadAntexData_loop_fuel fuel : ∀ fuel' s ants log,
  length s < fuel → length s < fuel' →
  ReadAntexData_loop fuel s ants log = ReadAntexData_loop fuel' s ants log.
Proof.
  induction fuel as [|fuel IH]; intros fuel' s ants log Hf Hf'; [lia|].
  destruct fuel' as [|fuel']; [lia|]. simpl.
  destruct s as [|buf s]; [done|]. simpl in Hf, Hf'.
  destruct (sliceFrom buf 60) as [lab| |]; simpl; try done.
  destruct (HasPrefix lab _); [|apply IH; lia].
  match goal with |- context [scanOneAntenna s ?l] =>
    destruct (scanOneAntenna s l) as [[[[a e] s1] l1]| |] eqn:Hs end;
    simpl; try done.
  apply scanOneAntenna_length in Hs. apply IH; lia.
Qed.

Lemma ReadAntexData_returns s : ReadAntexData s ≠ OutOfFuel.
Proof.
  unfold ReadAntexData. generalize (@nil antenna) (@nil logEntry).
  assert (∀ fuel s ants log, length s < fuel →
            ReadAntexData_loop fuel s ants log ≠ OutOfFuel) as Hgen.
  { clear s. induction fuel as [|fuel IH]; intros s ants log Hf; [lia|].
    simpl. destruct s as [|buf s]; [done|]. simpl in Hf.
    pose proof (sliceFrom_fueled buf 60) as Hsl.
    destruct (sliceFrom buf 60) as [lab| |]; simpl; try done.
    destruct (HasPrefix lab _); [|apply IH; lia].
    match goal with |- context [scanOneAntenna s ?l] =>
      pose proof (scanOneAntenna_returns s l) as Hr;
      destruct (scanOneAntenna s l) as [[[[a e] s1] l1]| |] eqn:Hs end;
      simpl; try done.
    apply scanOneAntenna_length in Hs. apply IH; lia. }
  intros ants log. apply Hgen. lia.
Qed.

Lemma ReadAntexData_loop_cons fuel buf s ants log :
  ReadAntexData_loop (S fuel) (buf :: s) ants log
  = let log := if bool_decide (len buf < 61)%Z
               then log ++ [WarnNoAntexData buf] else log in
    lab ← sliceFrom buf 60;
    if HasPrefix lab "START OF ANTENNA" then
      '(a, e, s'', log) ← scanOneAntenna s log;
      ReadAntexData_loop fuel s'' (ants ++ [a])
        (match e with Some err => log ++ [LogError err] | None => log end)
    else ReadAntexData_loop fuel s ants log.
Proof. done. Qed.

(** What the loop has collected stays in front of what it goes on to
    collect. *)
Lemma ReadAntexData_loop_acc fuel : ∀ s ants log,
  length s < fuel →
  ReadAntexData_loop fuel s ants log
  = '(ants', log') ← ReadAntexData s; Ret (ants ++ ants', log ++ log').
Proof.
  induction fuel as [|fuel IH]; intros s ants log Hf; [lia|].
  unfold ReadAntexData.
  destruct s as [|buf s]. { simpl. by rewrite !app_nil_r. }
  simpl in Hf. cbn [length]. rewrite !ReadAntexData_loop_cons. cbv zeta.
  destruct (sliceFrom buf 60) as [lab| |]; cbn [mbind outcome_bind]; try done.
  destruct (HasPrefix lab _).
  - rewrite (scanOneAntenna_log s (if bool_decide _ then _ else log)).
    rewrite (scanOneAntenna_log s (if bool_decide _ then _ else [])).
    destruct (scanOneAntenna s []) as [[[[a e] s1] l1]| |] eqn:Hs;
      cbn [mbind outcome_bind]; try done.
    apply scanOneAntenna_length in Hs.
    rewrite (ReadAntexData_loop_fuel (S (length s)) fuel) by lia.
    rewrite (IH s1 (ants ++ [a])) by lia.
    rewrite (IH s1 ([] ++ [a])) by lia.
    destruct (ReadAntexData s1) as [[ants' log']| |]; simpl; try done.
    do 2 f_equal.
    + by rewrite <- app_assoc.
    + destruct (bool_decide _), e; simpl; by rewrite <- ?app_assoc.
  - rewrite (ReadAntexData_loop_fuel (S (length s)) fuel) by lia.
    rewrite (IH s ants) by lia. rewrite (IH s []) by lia.
    destruct (ReadAntexData s) as [[ants' log']| |]; simpl; try done.
    do 2 f_equal. destruct (bool_decide _); simpl; by rewrite <- ?app_assoc.
Qed.

End ScannerProps.

(** ** The shape of a grid *)

Section GridProps.
Context `{GoEnv}.

(** The rows below [i] are filled when round [i] starts; a run of the loop
    that ends without error has filled all [i + n] rows, each with [nzen]
    values, and has touched neither the sizes nor the NOAZI row. *)
Lemma readAzimuths_shape n : ∀ i nzen buf s p p' buf' s',
  readAzimuths n i nzen buf s p = (p', None, buf', s') →
  length (Vaz p) = i + n →
  (∀ j row, j < i → Vaz p !! j = Some row → len row = nzen) →
  length (Vaz p') = i + n
  ∧ (∀ j row, Vaz p' !! j = Some row → len row = nzen)
  ∧ Vnonaz p' = Vnonaz p ∧ Nzen p' = Nzen p ∧ Nazi p' = Nazi p.
Proof.
  induction n as [|n IH]; intros i nzen buf s p p' buf' s' Hr Hlen Hrows;
    simpl in Hr.
  - injection Hr as -> _ _. rewrite Nat.add_0_r in *.
    repeat split; try done.
    intros j row Hj. apply (Hrows j); [|done].
    apply lookup_lt_Some in Hj. lia.
  - destruct (nextLine buf s) as [buf1 s1].
    destruct (parseOneAzi buf1) as [[az vals] [e|]]; [done|].
    destruct (streq az _); [done|].
    destruct (len vals =? nzen)%Z eqn:Hv; simpl in Hr; [|done].
    apply Z.eqb_eq in Hv.
    destruct (ParseFloat az) as [x [e|]]; [done|].
    apply IH in Hr; simpl.
    + simpl in Hr.
      destruct Hr as (Hl & Hall & Hnon & Hnz & Hna).
      repeat split; try done. lia.
    + rewrite length_insert. lia.
    + intros j row Hj Hrow.
      destruct (decide (j = i)) as [->|Hne].
      * rewrite list_lookup_insert_eq in Hrow by lia. by injection Hrow as <-.
      * rewrite list_lookup_insert_ne in Hrow by done.
        apply (Hrows j); [lia | done].
Qed.

Lemma make_Ret {A} (z : A) n l :
  make z n = Ret l → (0 ≤ n)%Z ∧ l = replicate (Z.to_nat n) z.
Proof.
  unfold make. destruct (bool_decide_reflect (n < 0)%Z); [done|].
  intros [= <-]. split; [lia | done].
Qed.

Lemma parseGrid_shape p buf s dazi zen1 zen2 dzen p' s' :
  parseGrid p buf s dazi zen1 zen2 dzen = Ret (p', None, s') →
  len (Vnonaz p') = Nzen p'
  ∧ len (Vaz p') = Nazi p'
  ∧ Forall (λ row, len row = Nzen p') (Vaz p').
Proof.
  unfold parseGrid. intros Hg.
  destruct (gridSize dazi zen1 zen2 dzen) as [nazi nzen].
  bind_inv Hg. apply make_Ret in Hx as [Hnazi ->].
  bind_inv Hg. apply make_Ret in Hx as [_ ->].
  destruct (nextLine buf s) as [buf1 s1].
  destruct (parseOneAzi buf1) as [[az vals] [e1|]]; [done|].
  destruct (negb (streq az _)); [done|].
  destruct (len vals =? nzen)%Z eqn:Hv; simpl in Hg; [|done].
  apply Z.eqb_eq in Hv.
  match type of Hg with context [readAzimuths ?n ?i ?z ?b ?s ?q] =>
    destruct (readAzimuths n i z b s q) as [[[p2 e2] buf2] s2] eqn:Hr end.
  destruct e2 as [e2|]; [done|].
  apply readAzimuths_shape in Hr; simpl.
  - simpl in Hr. destruct Hr as (Hl & Hall & Hnon & Hnz & Hna).
    assert (p' = p2) as ->.
    { destruct (nextLine buf2 s2) as [buf3 s3]. bind_inv Hg. destruct x.
      - bind_inv Hg. by destruct x.
      - by ret_inv Hg. }
    rewrite Hnon, Hnz, Hna. unfold len at 2. rewrite Hl.
    repeat split; [done | lia |].
    apply Forall_lookup. intros j row Hj. by apply (Hall j).
  - by rewrite length_replicate.
  - intros j row Hj. lia.
Qed.

End GridProps.

(** ** ReadAntexData and the antennas that fail *)

Section DataProps.
Context `{GoEnv}.

Lemma HasPrefix_drop_length (buf l : gostring) n :
  l ≠ [] → HasPrefix (drop n buf) l = true → n < length buf.
Proof.
  intros Hl Hp. destruct (decide (n < length buf)); [done|].
  rewrite drop_ge in Hp by lia. by destruct l.
Qed.

(** A block that fails: the error is logged and the record is appended
    all the same; the loop goes on with the scanner that [scanOneAntenna]
    leaves. *)
Lemma ReadAntexData_loop_failed (fuel : nat) (buf : gostring)
    (rest : Scanner) (ants : list antenna) (log : list logEntry)
    (a : antenna) (e : error) (s' : Scanner) (lg : list logEntry) :
  length (buf :: rest) < fuel →
  HasPrefix (drop 60 buf) "START OF ANTENNA" = true →
  scanOneAntenna rest [] = Ret (a, Some e, s', lg) →
  ReadAntexData_loop fuel (buf :: rest) ants log
  = '(ants', log') ← ReadAntexData s';
    Ret (ants ++ a :: ants', log ++ lg ++ LogError e :: log').
Proof.
  intros Hf Hp Hs. destruct fuel as [|fuel]; [simpl in Hf; lia|].
  simpl in Hf. rewrite ReadAntexData_loop_cons. cbv zeta.
  assert (60 < length buf) as Hlen
    by (by apply (HasPrefix_drop_length buf "START OF ANTENNA")).
  rewrite bool_decide_false by (unfold len; lia).
  rewrite sliceFrom_ok by lia. cbn [mbind outcome_bind]. rewrite Hp.
  rewrite scanOneAntenna_log, Hs. cbn [mbind outcome_bind].
  apply scanOneAntenna_length in Hs.
  rewrite ReadAntexData_loop_acc by lia.
  destruct (ReadAntexData s') as [[ants' log']| |]; simpl; try done.
  by rewrite <- !app_assoc.
Qed.

(** A line shorter than 60 bytes makes [ReadAntexData] panic: the warning
    is written and the line is sliced at column 60 all the same. *)
Lemma ReadAntexData_loop_short fuel buf rest ants log :
  length buf < 60 →
  ReadAntexData_loop (S fuel) (buf :: rest) ants log = Panic SliceBounds.
Proof.
  intros Hlen. rewrite ReadAntexData_loop_cons. cbv zeta.
  by rewrite sliceFrom_panic.
Qed.

(** Inside an antenna block a line shorter than 61 bytes ends the block:
    the loop is left with [e == nil], which [scanOneAntenna] reports as a
    missing end label, without moving to END OF ANTENNA. *)
Lemma scanOneAntenna_from_short fuel buf rest st log :
  length buf < 61 →
  scanOneAntenna_from (S fuel) (buf :: rest) st log
  = Ret (ant st, Some EndLabelNotFound, rest, log ++ [WarnNoLabel buf]).
Proof.
  intros Hlen. unfold scanOneAntenna_from. simpl.
  by rewrite bool_decide_true by (unfold len; lia).
Qed.

Lemma labelStep_date buf s st (from : bool) :
  61 ≤ length buf →
  labelOf buf = lit (if from then "VALID FROM" else "VALID UNTIL") →
  labelStep buf s st
  = let '(t, e) := parseDate (take 60 buf) in
    Ret (or_break (set_ant ((if from then set_ValidFrom t
                             else set_ValidUntil t) (ant st)) st) e s).
Proof.
  intros Hlen Hlab. unfold labelStep, labelOf in *.
  rewrite sliceFrom_ok by lia. cbn [mbind outcome_bind]. rewrite Hlab.
  destruct from; eval_streq; rewrite sliceTo_ok by lia; reflexivity.
Qed.

(** C7 (amended). A VALID FROM or VALID UNTIL line whose date does not
    parse ends the reading of the antenna, whatever the lines before it
    have set: [scanOneAntenna] moves past the next END OF ANTENNA and
    returns the error with the record as it stood, its date field holding
    what [time.Parse] returned; no line after the date line is read into
    the record. *)
Theorem bad_date_fails_antenna (fuel : nat) (buf : gostring) (rest : Scanner)
    (st : antState) (log : list logEntry) (from : bool) (t : Time)
    (e : error) :
  61 ≤ length buf →
  labelOf buf = lit (if from then "VALID FROM" else "VALID UNTIL") →
  parseDate (take 60 buf) = (t, Some e) →
  scanOneAntenna_from (S fuel) (buf :: rest) st log
  = Ret ((if from then set_ValidFrom t else set_ValidUntil t) (ant st),
         Some e, skipToEndOfAntenna rest, log).
Proof.
  intros Hlen Hlab Hdate. unfold scanOneAntenna_from. cbn [scanLoop].
  rewrite bool_decide_false by (unfold len; lia).
  rewrite (labelStep_date buf rest st from Hlen Hlab), Hdate.
  by destruct from.
Qed.

End DataProps.

(** ** The satellite flag *)

Section FlagProps.
Context `{GoEnv}.

(** No case of the switch assigns [isSatelliteAntenna]. *)
Lemma labelStep_flag buf s st r :
  labelStep buf s st = Ret r →
  isSatelliteAntenna (ant (stateOf r)) = isSatelliteAntenna (ant st).
Proof.
  unfold labelStep, or_break. intros Hl. bind_inv Hl.
  repeat (match type of Hl with
          | (if ?c then _ else _) = _ => destruct c
          | (let '(_, _) := ?c in _) = _ => destruct c as [? [?|]]
          | _ ≫= _ = _ => bind_inv Hl
          end);
    try (ret_inv Hl; done).
  by destruct x0 as [[p [e1|]] s1]; ret_inv Hl.
Qed.

Lemma scanLoop_flag fuel : ∀ s st log ex s' log',
  scanLoop fuel s st log = Ret (ex, s', log') →
  isSatelliteAntenna (ant (exitState ex)) = isSatelliteAntenna (ant st).
Proof.
  induction fuel as [|fuel IH]; intros s st log ex s' log' Hl; [done|].
  simpl in Hl. destruct s as [|buf s]. { by ret_inv Hl. }
  destruct (bool_decide _). { by ret_inv Hl. }
  bind_inv Hl. apply labelStep_flag in Hx.
  destruct x as [st1 s1|st1 s1|st1 e s1]; simpl in Hx.
  - apply IH in Hl. congruence.
  - by ret_inv Hl.
  - by ret_inv Hl.
Qed.

Lemma scanOneAntenna_from_flag fuel s st log a e s' log' :
  scanOneAntenna_from fuel s st log = Ret (a, e, s', log') →
  isSatelliteAntenna a = isSatelliteAntenna (ant st).
Proof.
  unfold scanOneAntenna_from. intros Hs. bind_inv Hs.
  destruct x as [[ex s1] l]. apply scanLoop_flag in Hx.
  destruct ex as [st1|st1 [e1|]]; by ret_inv Hs.
Qed.

(** Whatever the block holds, the record [scanOneAntenna] returns does not
    report a satellite antenna. *)
Lemma scanOneAntenna_IsSatAnt s log a e s' log' :
  scanOneAntenna s log = Ret (a, e, s', log') → IsSatAnt a = false.
Proof.
  unfold scanOneAntenna. intros Hs.
  apply scanOneAntenna_from_flag in Hs. unfold IsSatAnt. by rewrite Hs.
Qed.

Lemma ReadAntexData_loop_IsSatAnt fuel : ∀ s ants log ants' log',
  Forall (λ a, IsSatAnt a = false) ants →
  ReadAntexData_loop fuel s ants log = Ret (ants', log') →
  Forall (λ a, IsSatAnt a = false) ants'.
Proof.
  induction fuel as [|fuel IH]; intros s ants log ants' log' Hall Hl; [done|].
  destruct s as [|buf s]. { by ret_inv Hl. }
  rewrite ReadAntexData_loop_cons in Hl. cbv zeta in Hl.
  bind_inv Hl. destruct (HasPrefix x _).
  - bind_inv Hl. destruct x0 as [[[a e] s1] l1].
    apply scanOneAntenna_IsSatAnt in Hx0.
    apply IH in Hl; [done|]. apply Forall_app. split; [done|].
    by apply Forall_singleton.
  - by apply IH in Hl.
Qed.

Lemma ReadAntexData_IsSatAnt s ants log :
  ReadAntexData s = Ret (ants, log) → Forall (λ a, IsSatAnt a = false) ants.
Proof. by apply ReadAntexData_loop_IsSatAnt. Qed.

End FlagProps.

(** ** The grid size *)

Section SizeProps.
Context `{GoEnv}.

(** [truncZ] and [floorZ] in terms of division: for a negative exponent
    the mantissa is divided by a power of two, rounding towards zero in
    the first and down in the second. *)
Lemma truncZ_quot sg m e :
  (e < 0)%Z →
  truncZ (S754_finite sg m e)
  = Some (Z.quot (cond_Zopp sg (Zpos m)) (2 ^ (- e))).
Proof.
  intros He. simpl. f_equal. rewrite Z.shiftl_div_pow2 by lia.
  assert (0 < 2 ^ (- e))%Z by (apply Z.pow_pos_nonneg; lia).
  destruct sg; simpl.
  - change (Z.neg m) with (- Z.pos m)%Z. rewrite Z.quot_opp_l by lia.
    rewrite Z.quot_div_nonneg by lia. done.
  - by rewrite Z.quot_div_nonneg by lia.
Qed.

Lemma floorZ_div sg m e :
  (e < 0)%Z →
  floorZ (S754_finite sg m e)
  = Some (Z.div (cond_Zopp sg (Zpos m)) (2 ^ (- e))).
Proof. intros He. simpl. by rewrite Z.shiftl_div_pow2 by lia. Qed.

(** For a float that is not negative the two agree. *)
Lemma truncZ_floorZ (q : float64) (z : Z) :
  SFleb fzero q = true → truncZ q = Some z → floorZ q = Some z.
Proof. by destruct q as [sg|sg| |[|] m e]. Qed.

Lemma int_of_float_trunc (q : float64) (z : Z) :
  truncZ q = Some z → in_int64 z = true → int_of_float q = z.
Proof. unfold int_of_float. by intros -> ->. Qed.

Lemma wrap64_succ z :
  (- 2 ^ 63 ≤ z < 2 ^ 63 - 1)%Z →
  in_int64 z = true ∧ wrap64 (z + 1) = (z + 1)%Z.
Proof.
  intros Hz. split.
  - unfold in_int64. apply andb_true_iff.
    split; [apply Z.leb_le | apply Z.ltb_lt]; lia.
  - unfold wrap64. rewrite Z.mod_small; lia.
Qed.

(** C5 (amended). When the quotient [(zen2 - zen1) / dzen] is finite and
    its integer part [zq] leaves room for the increment, the zenith count
    is [zq + 1]; the azimuth count is 0 when [dazi] is zero and else, under
    the same condition on [360 / dazi], its integer part plus one. The
    integer part discards the fraction, rounding towards zero; it is the
    floor when the quotient is not negative. *)
Theorem gridSize_truncates (dazi zen1 zen2 dzen : float64) (zq : Z) :
  truncZ (fdiv (fsub zen2 zen1) dzen) = Some zq →
  (- 2 ^ 63 ≤ zq < 2 ^ 63 - 1)%Z →
  (gridSize dazi zen1 zen2 dzen).2 = (zq + 1)%Z
  ∧ (SFleb fzero (fdiv (fsub zen2 zen1) dzen) = true →
     floorZ (fdiv (fsub zen2 zen1) dzen) = Some zq)
  ∧ (feqb dazi fzero = true → (gridSize dazi zen1 zen2 dzen).1 = 0%Z)
  ∧ (∀ aq, feqb dazi fzero = false →
       truncZ (fdiv f360 dazi) = Some aq →
       (- 2 ^ 63 ≤ aq < 2 ^ 63 - 1)%Z →
       (gridSize dazi zen1 zen2 dzen).1 = (aq + 1)%Z
       ∧ (SFleb fzero (fdiv f360 dazi) = true →
          floorZ (fdiv f360 dazi) = Some aq)).
Proof.
  intros Hz Hzr. apply wrap64_succ in Hzr as [Hzi Hzw].
  unfold gridSize. cbn [fst snd].
  rewrite (int_of_float_trunc _ zq Hz Hzi), Hzw.
  split; [done|]. split; [intros; by apply truncZ_floorZ|].
  split; [by intros ->|].
  intros aq Hd Ha Har. apply wrap64_succ in Har as [Hai Haw].
  rewrite Hd, (int_of_float_trunc _ aq Ha Hai), Haw.
  split; [done|]. intros. by apply truncZ_floorZ.
Qed.

End SizeProps.

(** ** The zenith step before any ZEN1 / ZEN2 / DZEN line *)

Section ZenProps.
Context `{GoEnv}.

Lemma sliceFrom_Ret (s x : gostring) i :
  sliceFrom s i = Ret x → x = drop i s.
Proof. unfold sliceFrom. destruct (decide _); by intros [=]. Qed.



Lemma scanLoop_cons fuel buf s st log :
  scanLoop (S fuel) (buf :: s) st log
  = if bool_decide (len buf < 61)%Z
    then Ret (Left st None, s, log ++ [WarnNoLabel buf])
    else r ← labelStep buf s st;
         match r with
         | Next st' s'' => scanLoop fuel s'' st' log
         | Return_ st' s'' => Ret (Returned st', s'', log)
         | Break st' e s'' => Ret (Left st' (Some e), s'', log)
         end.
Proof. done. Qed.

(** The rounds of [rounds] are rounds of the loop. *)
Lemma rounds_scanLoop labels s st s' st' :
  rounds labels s st s' st' →
  length s' ≤ length s
  ∧ ∀ fuel log, length s < fuel →
      scanLoop fuel s st log = scanLoop fuel s' st' log.
Proof.
  induction 1 as [|buf s st st1 s1 labels s2 st2 Hlen Hstep Hr [IHl IH]].
  - split; [lia | done].
  - pose proof (labelStep_length _ _ _ _ Hstep) as Hs1. simpl in Hs1.
    split; [simpl; lia|].
    intros fuel log Hf. destruct fuel as [|fuel]; [lia|]. simpl in Hf.
    rewrite scanLoop_cons, bool_decide_false by (unfold len; lia).
    rewrite Hstep. cbn [mbind outcome_bind].
    rewrite IH by lia. apply scanLoop_fuel; lia.
Qed.

Lemma labelStep_start_of_frequency buf s st :
  61 ≤ length buf →
  labelOf buf = lit "START OF FREQUENCY" →
  labelStep buf s st
  = r ← parseOneFreq s buf (dazi st) (zen1 st) (zen2 st) (dzen st);
    Ret (afterFreq st r).
Proof.
  intros Hlen Hlab. unfold labelStep, labelOf in *.
  rewrite sliceFrom_ok by lia. cbn [mbind outcome_bind]. rewrite Hlab.
  by eval_streq.
Qed.

Lemma feqb_zero (x : float64) :
  feqb x fzero = true → ∃ sg, x = S754_zero sg.
Proof.
  destruct x as [sg|[|]| |[|] m e]; try done. by eexists.
Qed.

Lemma fdiv_by_zero (x : float64) sg : truncZ (fdiv x (S754_zero sg)) = None.
Proof. by destruct x. Qed.

(** Whenever the divisor is zero the code gets its count from a quotient
    that has no [int] value. *)
Lemma gridSize_zero_dzen dazi zen1 zen2 dzen :
  feqb dzen fzero = true →
  nzenChecked zen1 zen2 dzen = None
  ∧ (gridSize dazi zen1 zen2 dzen).2
    = wrap64 (wrap64 (cvt_indefinite (fdiv (fsub zen2 zen1) dzen)) + 1).
Proof.
  intros Hz. unfold nzenChecked, fdiv_checked, gridSize, int_of_float.
  rewrite Hz. apply feqb_zero in Hz as [sg ->].
  by rewrite fdiv_by_zero.
Qed.

End ZenProps.

(** ** nextLine and the COMMENT lines *)

Section NextLineProps.
Context `{GoEnv}.

(** When the line read before does not end in COMMENT, [nextLine] hands
    out the very next line, whatever its label. *)
Lemma nextLine_first buf line s :
  HasSuffix (TrimRightSp buf) "COMMENT" = false →
  nextLine buf (line :: s) = (line, s).
Proof. intros Hb. cbn [nextLine]. by rewrite Hb. Qed.

(** When it does, [nextLine] skips every line up to the end of input. *)
Lemma nextLine_drains buf s :
  HasSuffix (TrimRightSp buf) "COMMENT" = true → nextLine buf s = ([], []).
Proof.
  intros Hb. induction s as [|line s IH]; cbn [nextLine]; [done|].
  by rewrite Hb.
Qed.

End NextLineProps.

(** ** What the functions leave is a tail of the scanner *)

Section SuffixProps.
Context `{GoEnv}.

Lemma nextLine_suffix buf s : (nextLine buf s).2 `suffix_of` s.
Proof.
  induction s as [|l s IH]; simpl; [done|].
  destruct (negb _); simpl; by apply suffix_cons_r.
Qed.

Lemma seekEndOfFrequency_suffix s : ∀ buf found buf' s',
  seekEndOfFrequency buf s = Ret (found, buf', s') → s' `suffix_of` s.
Proof.
  induction s as [|l s IH]; intros buf found buf' s' Hs; simpl in Hs.
  - by ret_inv Hs.
  - bind_inv Hs. destruct (HasPrefix _ _).
    + ret_inv Hs. by apply suffix_cons_r.
    + apply IH in Hs. by apply suffix_cons_r.
Qed.

Lemma readAzimuths_suffix n : ∀ i nzen buf s p,
  (readAzimuths n i nzen buf s p).2 `suffix_of` s.
Proof.
  induction n as [|n IH]; intros i nzen buf s p; simpl; [done|].
  pose proof (nextLine_suffix buf s) as Hn.
  destruct (nextLine buf s) as [buf1 s1]. simpl in Hn.
  destruct (parseOneAzi buf1) as [[az vals] [e|]]; simpl; [done|].
  destruct (streq az _); simpl; [done|].
  destruct (negb _); simpl; [done|].
  destruct (ParseFloat az) as [x [e|]]; simpl; [done|].
  etrans; [apply IH | done].
Qed.

Lemma resyncEndOfFrequency_suffix s : ∀ e s',
  resyncEndOfFrequency s = Ret (e, s') → s' `suffix_of` s.
Proof.
  induction s as [|l s IH]; intros e s' Hs; simpl in Hs.
  - by ret_inv Hs.
  - bind_inv Hs. destruct x.
    + ret_inv Hs. by apply suffix_cons_r.
    + apply IH in Hs. by apply suffix_cons_r.
Qed.

Lemma parseGrid_suffix p buf s dazi zen1 zen2 dzen p' e s' :
  parseGrid p buf s dazi zen1 zen2 dzen = Ret (p', e, s') →
  s' `suffix_of` s.
Proof.
  unfold parseGrid. intros Hg.
  destruct (gridSize dazi zen1 zen2 dzen) as [nazi nzen].
  bind_inv Hg. bind_inv Hg.
  pose proof (nextLine_suffix buf s) as Hn.
  destruct (nextLine buf s) as [buf1 s1]. simpl in Hn.
  destruct (parseOneAzi buf1) as [[az vals] [e1|]].
  { by ret_inv Hg. }
  destruct (negb (streq az _)). { by ret_inv Hg. }
  destruct (negb _). { by ret_inv Hg. }
  match type of Hg with context [readAzimuths ?n ?i ?z ?b ?s ?q] =>
    pose proof (readAzimuths_suffix n i z b s q) as Hr;
    destruct (readAzimuths n i z b s q) as [[[p2 e2] buf2] s2] end.
  simpl in Hr. destruct e2 as [e2|]. { ret_inv Hg. by etrans. }
  pose proof (nextLine_suffix buf2 s2) as Hn2.
  destruct (nextLine buf2 s2) as [buf3 s3]. simpl in Hn2.
  assert (s3 `suffix_of` s) as Hs3 by (etrans; [done|]; by etrans).
  bind_inv Hg. destruct x1.
  - bind_inv Hg. destruct x1 as [e3 s4]. ret_inv Hg.
    apply resyncEndOfFrequency_suffix in Hx2. by etrans.
  - by ret_inv Hg.
Qed.

Lemma parseOneFreq_suffix_of s buf dazi zen1 zen2 dzen p e s' :
  parseOneFreq s buf dazi zen1 zen2 dzen = Ret (p, e, s') →
  s' `suffix_of` s.
Proof.
  unfold parseOneFreq. intros Hf.
  bind_inv Hf. bind_inv Hf.
  destruct (Atoi x0) as [f [err|]]. { by ret_inv Hf. }
  pose proof (nextLine_suffix buf s) as Hn.
  destruct (nextLine buf s) as [buf1 s1]. simpl in Hn.
  bind_inv Hf. destruct (HasPrefix x1 _).
  - bind_inv Hf. bind_inv Hf. destruct x3 as [[found buf2] s2].
    assert (s2 `suffix_of` s1) as Hs2.
    { destruct (bool_decide _).
      - by apply seekEndOfFrequency_suffix in Hx3.
      - by ret_inv Hx3. }
    destruct found. { ret_inv Hf. by etrans. }
    bind_inv Hf. destruct x3 as [[[n e0] u] [ee|]].
    + ret_inv Hf. by etrans.
    + apply parseGrid_suffix in Hf. etrans; [done|]. by etrans.
  - apply parseGrid_suffix in Hf. by etrans.
Qed.

Lemma labelStep_suffix buf s st r :
  labelStep buf s st = Ret r → scannerOf r `suffix_of` s.
Proof.
  unfold labelStep, or_break. intros Hl. bind_inv Hl.
  repeat (match type of Hl with
          | (if ?c then _ else _) = _ => destruct c
          | (let '(_, _) := ?c in _) = _ => destruct c as [? [?|]]
          | _ ≫= _ = _ => bind_inv Hl
          end);
    try (ret_inv Hl; done).
  ret_inv Hl.
  match goal with
  | Hp : parseOneFreq _ _ _ _ _ _ = Ret ?x |- _ =>
      destruct x as [[p [e1|]] s1]; by apply parseOneFreq_suffix_of in Hp
  end.
Qed.

Lemma skipToEndOfAntenna_suffix s : skipToEndOfAntenna s `suffix_of` s.
Proof.
  induction s as [|buf s IH]; simpl; [done|].
  destruct (_ && _); by apply suffix_cons_r.
Qed.

End SuffixProps.

(** ** How scanOneAntenna leaves the scanner *)

Section ExitProps.
Context `{GoEnv}.

Lemma streq_true (a b : gostring) : streq a b = true → a = b.
Proof. unfold streq. by intros ?%bool_decide_eq_true. Qed.

(** The success return is taken at an END OF ANTENNA line alone, and it
    changes neither the scanner nor the variables. *)
Lemma labelStep_Return buf s st st' s' :
  labelStep buf s st = Ret (Return_ st' s') →
  labelOf buf = lit "END OF ANTENNA" ∧ s' = s ∧ st' = st.
Proof.
  unfold labelStep, or_break, labelOf. intros Hl. bind_inv Hl.
  apply sliceFrom_Ret in Hx as ->.
  repeat (match type of Hl with
          | (if streq ?a ?b then _ else _) = _ =>
              let E := fresh "E" in destruct (streq a b) eqn:E
          | (if ?c then _ else _) = _ => destruct c
          | (let '(_, _) := ?c in _) = _ => destruct c as [? [?|]]
          | _ ≫= _ = _ => bind_inv Hl
          end);
    try (ret_inv Hl; done);
    try discriminate.
  - ret_inv Hl.
    match goal with
    | _ : context [afterFreq _ ?x] |- _ => destruct x as [[? [?|]] ?]
    | |- _ => idtac
    end; done.
  - injection Hl as <- <-. split; [by apply streq_true | done].
Qed.

Lemma scanLoop_Returned fuel : ∀ s st log st' s' log',
  scanLoop fuel s st log = Ret (Returned st', s', log') →
  log' = log
  ∧ ∃ pre endl, s = pre ++ endl :: s' ∧ 61 ≤ length endl
                ∧ labelOf endl = lit "END OF ANTENNA".
Proof.
  induction fuel as [|fuel IH]; intros s st log st' s' log' Hl; [done|].
  destruct s as [|buf s]; [done|].
  rewrite scanLoop_cons in Hl.
  destruct (bool_decide_reflect (len buf < 61)%Z) as [|Hlen]; [done|].
  bind_inv Hl. destruct x as [st1 s1|st1 s1|st1 e s1].
  - apply labelStep_suffix in Hx as [k ->].
    apply IH in Hl as (-> & pre & endl & -> & Hl1 & Hl2).
    split; [done|]. exists (buf :: k ++ pre), endl.
    split; [simpl; by rewrite <- app_assoc | done].
  - ret_inv Hl. apply labelStep_Return in Hx as (Hlab & -> & _).
    split; [done|]. exists [], buf. unfold len in Hlen.
    split; [done|]. split; [lia | done].
  - done.
Qed.

(** X10. When [scanOneAntenna] returns a nil error, it has read a line of
    more than 60 bytes whose label is END OF ANTENNA, the scanner is left
    just behind that line, and nothing was logged. *)
Theorem scanOneAntenna_succeeds_at_terminator (s : Scanner)
    (log : list logEntry) (a : antenna) (s' : Scanner)
    (log' : list logEntry) :
  scanOneAntenna s log = Ret (a, None, s', log') →
  log' = log
  ∧ ∃ pre endl, s = pre ++ endl :: s' ∧ 61 ≤ length endl
                ∧ labelOf endl = lit "END OF ANTENNA".
Proof.
  unfold scanOneAntenna, scanOneAntenna_from. intros Hs. bind_inv Hs.
  destruct x as [[ex s1] l]. destruct ex as [st1|st1 [e1|]]; try done.
  simpl in Hs. ret_inv Hs. by apply scanLoop_Returned in Hx.
Qed.

(** X11. The loop that [scanOneAntenna] runs after an error stops just
    behind the first line that is longer than 60 bytes and has END OF
    ANTENNA as a prefix of its label; when there is no such line it reads
    every line that is left. *)
Theorem skipToEndOfAntenna_stops_at_terminator (s : Scanner) :
  Forall (λ buf, isEndOfAntenna buf = false) s ∧ skipToEndOfAntenna s = []
  ∨ ∃ pre endl,
      s = pre ++ endl :: skipToEndOfAntenna s
      ∧ Forall (λ buf, isEndOfAntenna buf = false) pre
      ∧ isEndOfAntenna endl = true.
Proof.
  induction s as [|buf s IH]; [by left|].
  cbn [skipToEndOfAntenna]. fold (isEndOfAntenna buf).
  destruct (isEndOfAntenna buf) eqn:Hb.
  - right. by exists [], buf.
  - destruct IH as [[Hall Hnil]|(pre & endl & Heq & Hall & Hend)].
    + left. split; [by constructor | done].
    + right. exists (buf :: pre), endl.
      split; [simpl; by f_equal|]. split; [by constructor | done].
Qed.

End ExitProps.

(** ** Invariants of the antennas returned *)

Section AntennaProps.
Context `{GoEnv}.

Lemma scanLoop_suffix fuel : ∀ s st log ex s' log',
  scanLoop fuel s st log = Ret (ex, s', log') → s' `suffix_of` s.
Proof.
  induction fuel as [|fuel IH]; intros s st log ex s' log' Hl; [done|].
  destruct s as [|buf s]. { by ret_inv Hl. }
  rewrite scanLoop_cons in Hl.
  destruct (bool_decide _). { ret_inv Hl. by apply suffix_cons_r. }
  bind_inv Hl. apply labelStep_suffix in Hx.
  destruct x as [st1 s1|st1 s1|st1 e s1]; simpl in Hx.
  - apply IH in Hl. apply suffix_cons_r. by etrans.
  - ret_inv Hl. by apply suffix_cons_r.
  - ret_inv Hl. by apply suffix_cons_r.
Qed.

Lemma scanOneAntenna_from_suffix fuel s st log a e s' log' :
  scanOneAntenna_from fuel s st log = Ret (a, e, s', log') →
  s' `suffix_of` s.
Proof.
  unfold scanOneAntenna_from. intros Hs. bind_inv Hs.
  destruct x as [[ex s1] l]. apply scanLoop_suffix in Hx.
  destruct ex as [st1|st1 [e1|]]; ret_inv Hs; try done.
  etrans; [apply skipToEndOfAntenna_suffix | done].
Qed.

Lemma scanOneAntenna_suffix s log a e s' log' :
  scanOneAntenna s log = Ret (a, e, s', log') → s' `suffix_of` s.
Proof. unfold scanOneAntenna. apply scanOneAntenna_from_suffix. Qed.

Lemma grid_ok_set_grid dazi zen1 zen2 dzen p :
  grid_ok p → grid_ok (set_grid dazi zen1 zen2 dzen p).
Proof. done. Qed.

Lemma parseOneFreq_grid_ok s buf dazi zen1 zen2 dzen p s' :
  parseOneFreq s buf dazi zen1 zen2 dzen = Ret (p, None, s') → grid_ok p.
Proof.
  unfold parseOneFreq, grid_ok. intros Hf.
  bind_inv Hf. bind_inv Hf.
  destruct (Atoi x0) as [f [err|]]; [done|].
  destruct (nextLine buf s) as [buf1 s1].
  bind_inv Hf. destruct (HasPrefix x1 _).
  - bind_inv Hf. bind_inv Hf. destruct x3 as [[found buf2] s2].
    destruct found.
    + ret_inv Hf. simpl. by repeat split.
    + bind_inv Hf. destruct x3 as [[[n e0] u] [ee|]]; [done|].
      by apply parseGrid_shape in Hf.
  - by apply parseGrid_shape in Hf.
Qed.

Lemma labelStep_grids buf s st r :
  labelStep buf s st = Ret r →
  Forall grid_ok (PCV (ant st)) → Forall grid_ok (PCV (ant (stateOf r))).
Proof.
  unfold labelStep, or_break. intros Hl Hall. bind_inv Hl.
  repeat (match type of Hl with
          | (if ?c then _ else _) = _ => destruct c
          | (let '(_, _) := ?c in _) = _ => destruct c as [? [?|]]
          | _ ≫= _ = _ => bind_inv Hl
          end);
    try (ret_inv Hl; done).
  ret_inv Hl.
  match goal with
  | Hp : parseOneFreq _ _ _ _ _ _ = Ret ?x |- _ =>
      destruct x as [[p [e1|]] s1]; [done|];
      apply parseOneFreq_grid_ok in Hp
  end.
  simpl. apply Forall_app. split; [done|].
  apply Forall_singleton. by apply grid_ok_set_grid.
Qed.

Lemma scanLoop_grids fuel : ∀ s st log ex s' log',
  scanLoop fuel s st log = Ret (ex, s', log') →
  Forall grid_ok (PCV (ant st)) → Forall grid_ok (PCV (ant (exitState ex))).
Proof.
  induction fuel as [|fuel IH]; intros s st log ex s' log' Hl Hall; [done|].
  destruct s as [|buf s]. { by ret_inv Hl. }
  rewrite scanLoop_cons in Hl.
  destruct (bool_decide _). { by ret_inv Hl. }
  bind_inv Hl. apply labelStep_grids in Hx; [|done].
  destruct x as [st1 s1|st1 s1|st1 e s1]; simpl in Hx.
  - by apply IH in Hl.
  - by ret_inv Hl.
  - by ret_inv Hl.
Qed.

Lemma scanOneAntenna_grids s log a e s' log' :
  scanOneAntenna s log = Ret (a, e, s', log') → Forall grid_ok (PCV a).
Proof.
  unfold scanOneAntenna, scanOneAntenna_from. intros Hs. bind_inv Hs.
  destruct x as [[ex s1] l]. apply scanLoop_grids in Hx; [|by constructor].
  destruct ex as [st1|st1 [e1|]]; by ret_inv Hs.
Qed.

Lemma startLines_suffix s' s : s' `suffix_of` s → startLines s' ≤ startLines s.
Proof.
  intros [k ->]. unfold startLines.
  rewrite filter_app, length_app. lia.
Qed.

Lemma startLines_cons buf s :
  startLines (buf :: s)
  = (if isStartOfAntenna buf then 1 else 0) + startLines s.
Proof.
  unfold startLines. rewrite filter_cons.
  destruct (isStartOfAntenna buf) eqn:E.
  - by rewrite decide_True.
  - by rewrite decide_False.
Qed.

(** Every record, failed or not, holds well-shaped grids, and each record
    answers to a START OF ANTENNA line of its own. *)
Lemma ReadAntexData_loop_inv fuel : ∀ s ants log ants' log',
  ReadAntexData_loop fuel s ants log = Ret (ants', log') →
  Forall (λ a, Forall grid_ok (PCV a)) ants →
  Forall (λ a, Forall grid_ok (PCV a)) ants'
  ∧ length ants' ≤ length ants + startLines s.
Proof.
  induction fuel as [|fuel IH]; intros s ants log ants' log' Hl Hall; [done|].
  destruct s as [|buf s]. { ret_inv Hl. split; [done | lia]. }
  rewrite ReadAntexData_loop_cons in Hl. cbv zeta in Hl.
  rewrite startLines_cons. unfold isStartOfAntenna.
  bind_inv Hl. apply sliceFrom_Ret in Hx as ->.
  destruct (HasPrefix (drop 60 buf) _).
  - bind_inv Hl. destruct x as [[[a e] s1] l1].
    pose proof (scanOneAntenna_grids _ _ _ _ _ _ Hx) as Hg.
    apply scanOneAntenna_suffix in Hx. apply startLines_suffix in Hx.
    apply IH in Hl as [Hl1 Hl2].
    + split; [exact Hl1|]. rewrite length_app in Hl2.
      cbn [length] in Hl2. lia.
    + apply Forall_app. split; [exact Hall|].
      apply Forall_singleton. exact Hg.
  - apply IH in Hl as [Hl1 Hl2]; [|exact Hall]. split; [exact Hl1 | lia].
Qed.

End AntennaProps.

(** ** ScanHeader, line by line *)

Section HeaderRun.
Context `{GoEnv}.

Lemma HasPrefix_END_OF_HEADER (l : gostring) :
  HasPrefix l "END OF HEADER" = true →
  HasPrefix l "ANTEX VERSION / SYST" = false
  ∧ HasPrefix l "PCV TYPE / REFANT" = false
  ∧ HasPrefix l "COMMENT" = false.
Proof.
  destruct l as [|c l]; [done|]. cbn.
  intros [Hc _]%andb_true_iff. apply bool_decide_eq_true in Hc as ->.
  done.
Qed.

(** A round on a line without END OF HEADER, with what it does to the
    results and to the log. *)
Lemma ScanHeader_loop_step buf s hd log :
  isEndOfHeader buf = false →
  ScanHeader_loop (buf :: s) hd log
  = ScanHeader_loop s
      (set_h (h hd ++ padded buf ++ [newline]) (headerLine hd buf))
      (log ++ headerWarnings [buf]).
Proof.
  intros Hend. cbn [ScanHeader_loop]. unfold headerLine, padded, headerWarnings.
  rewrite filter_cons, filter_nil.
  destruct (decide (length buf < 61)) as [Hshort|Hlong].
  - rewrite (bool_decide_true (len buf < 61)%Z) by (unfold len; lia).
    rewrite (bool_decide_true (length buf < 61)) by done.
    rewrite decide_True by (unfold len; lia).
    destruct (pad60_label buf Hshort) as [j Hj].
    pose proof (pad60_length buf) as Hl.
    rewrite sliceFrom_ok by lia. cbn [mbind outcome_bind]. rewrite Hj.
    destruct (HasPrefix_pad j) as (-> & -> & ->).
    by destruct (HasPrefix _ _).
  - rewrite (bool_decide_false (len buf < 61)%Z) by (unfold len; lia).
    rewrite (bool_decide_false (length buf < 61)) by done.
    rewrite decide_False by (unfold len; lia).
    cbn [map]. rewrite app_nil_r.
    unfold isEndOfHeader in Hend.
    rewrite bool_decide_true in Hend by lia. cbn [andb] in Hend.
    rewrite sliceFrom_ok by lia. cbn [mbind outcome_bind].
    destruct (HasPrefix (drop 60 buf) "ANTEX VERSION / SYST").
    { rewrite sliceTo_ok by lia. cbn [mbind outcome_bind].
      by rewrite (index_ok buf 20 zero) by lia. }
    destruct (HasPrefix (drop 60 buf) "PCV TYPE / REFANT").
    { rewrite (index_ok buf 0 zero) by lia. cbn [mbind outcome_bind].
      by rewrite slice_ok by lia. }
    destruct (HasPrefix (drop 60 buf) "COMMENT"); [done|].
    by rewrite Hend.
Qed.

(** The round on a line with END OF HEADER. *)
Lemma ScanHeader_loop_end buf s hd log :
  isEndOfHeader buf = true →
  ScanHeader_loop (buf :: s) hd log
  = Ret (set_h (h hd ++ buf ++ [newline]) hd, s, log).
Proof.
  unfold isEndOfHeader. intros [Hlen Hend]%andb_true_iff.
  apply bool_decide_eq_true in Hlen. cbn [ScanHeader_loop].
  rewrite (bool_decide_false (len buf < 61)%Z) by (unfold len; lia).
  rewrite sliceFrom_ok by lia. cbn [mbind outcome_bind].
  destruct (HasPrefix_END_OF_HEADER _ Hend) as (-> & -> & ->).
  by rewrite Hend.
Qed.

Lemma headerText_snoc ls buf :
  headerText (ls ++ [buf]) = headerText ls ++ padded buf ++ [newline].
Proof.
  unfold headerText. rewrite map_app, concat_app. simpl.
  by rewrite app_nil_r.
Qed.

Lemma headerWarnings_app l1 l2 :
  headerWarnings (l1 ++ l2) = headerWarnings l1 ++ headerWarnings l2.
Proof. unfold headerWarnings. by rewrite filter_app, map_app. Qed.

(** The rounds on the lines before the first END OF HEADER. *)
Lemma ScanHeader_loop_run pre : ∀ s hd log,
  Forall (λ buf, isEndOfHeader buf = false) pre →
  ∃ hd',
    ScanHeader_loop (pre ++ s) hd log
    = ScanHeader_loop s hd' (log ++ headerWarnings pre)
    ∧ headerFields hd' = headerFields (fold_left headerLine pre hd)
    ∧ h hd' = h hd ++ headerText pre.
Proof.
  induction pre as [|buf pre IH]; intros s hd log Hall.
  - exists hd. by rewrite !app_nil_r.
  - inversion Hall as [|? ? Hbuf Hpre]; subst.
    cbn [app]. rewrite (ScanHeader_loop_step buf (pre ++ s) hd log Hbuf).
    destruct (IH s (set_h (h hd ++ padded buf ++ [newline]) (headerLine hd buf))
                (log ++ headerWarnings [buf]) Hpre) as (hd' & Hrun & Hf & Hh).
    exists hd'. split; [|split].
    + rewrite Hrun. f_equal.
      change (buf :: pre) with ([buf] ++ pre).
      by rewrite headerWarnings_app, app_assoc.
    + rewrite Hf. cbn [fold_left]. by apply fold_headerLine_fields.
    + rewrite Hh. cbn [h set_h].
      change (buf :: pre) with ([buf] ++ pre).
      unfold headerText at 2. rewrite map_app, concat_app.
      cbn [map concat]. rewrite app_nil_r.
      by rewrite <- !app_assoc.
Qed.

End HeaderRun.

Section HeaderLeaves.
Context `{GoEnv}.

Lemma ScanHeader_loop_returns s : ∀ hd log,
  ∃ hd' s' log',
    ScanHeader_loop s hd log = Ret (hd', s', log') ∧ s' `suffix_of` s.
Proof.
  induction s as [|buf s IH]; intros hd log.
  - by exists hd, [], log.
  - destruct (isEndOfHeader buf) eqn:Hend.
    + rewrite (ScanHeader_loop_end buf s hd log Hend).
      eexists _, _, _. split; [done | by apply suffix_cons_r].
    + rewrite (ScanHeader_loop_step buf s hd log Hend).
      destruct (IH (set_h (h hd ++ padded buf ++ [newline]) (headerLine hd buf))
                  (log ++ headerWarnings [buf])) as (hd' & s' & log' & -> & Hs).
      eexists _, _, _. split; [done | by apply suffix_cons_r].
Qed.

Lemma ScanHeader_at_terminator pre endl rest :
  Forall (λ buf, isEndOfHeader buf = false) pre →
  isEndOfHeader endl = true →
  ∃ hd,
    ScanHeader (pre ++ endl :: rest) = Ret (hd, rest, headerWarnings pre)
    ∧ headerFields hd = headerFields (fold_left headerLine pre header0)
    ∧ h hd = headerText (pre ++ [endl]).
Proof.
  intros Hpre Hend. unfold ScanHeader.
  destruct (ScanHeader_loop_run pre (endl :: rest) header0 [] Hpre)
    as (hd' & -> & Hf & Hh).
  rewrite (ScanHeader_loop_end endl rest hd' _ Hend).
  eexists. split; [done|]. split; [done|].
  cbn [h set_h]. rewrite Hh, headerText_snoc. cbn [h header0 app].
  unfold padded. unfold isEndOfHeader in Hend.
  apply andb_true_iff in Hend as [Hlen _]. apply bool_decide_eq_true in Hlen.
  by rewrite bool_decide_false by (unfold len; lia).
Qed.

(** X1. [ScanHeader] returns on every input, without a panic (no slice
    of a header line is out of range, since a short line is padded first),
    and what it leaves in the scanner is a tail of the lines it was
    given. *)
Theorem ScanHeader_returns (s : Scanner) :
  ∃ hd s' log, ScanHeader s = Ret (hd, s', log) ∧ s' `suffix_of` s.
Proof. apply ScanHeader_loop_returns. Qed.

(** X2. [ScanHeader] stops at the first line that carries END OF HEADER at
    column 60: the lines behind it stay in the scanner, one warning is
    logged for each line before it that is shorter than 61 bytes, the four
    fields are those collected from the lines before it, and the header
    text holds every line read, the short ones padded, each followed by a
    newline. *)
Theorem ScanHeader_stops_at_terminator (pre : list gostring)
    (endl : gostring) (rest : Scanner) :
  Forall (λ buf, isEndOfHeader buf = false) pre →
  isEndOfHeader endl = true →
  ∃ hd,
    ScanHeader (pre ++ endl :: rest) = Ret (hd, rest, headerWarnings pre)
    ∧ headerFields hd = headerFields (fold_left headerLine pre header0)
    ∧ h hd = headerText (pre ++ [endl]).
Proof.
  intros Hpre Hend.
  exact (ScanHeader_at_terminator pre endl rest Hpre Hend).
Qed.

Lemma ReadAntexData_nil : ReadAntexData [] = Ret ([], []).
Proof. done. Qed.

(** X3. On a file in which no line carries END OF HEADER, [ReadAntexFile]
    returns no antenna at all: the header scan takes every line, also the
    antenna blocks, and the four fields are those collected over the whole
    file. *)
Theorem ReadAntexFile_without_terminator (s : Scanner) :
  Forall (λ buf, isEndOfHeader buf = false) s →
  ∃ hd log,
    ReadAntexFile s
    = Ret (antexVer hd, satSys hd, pcvType hd, refAnt hd, [], log)
    ∧ headerFields hd = headerFields (fold_left headerLine s header0).
Proof.
  intros Hall. unfold ReadAntexFile, ScanHeader.
  destruct (ScanHeader_loop_no_terminator s header0 [] Hall)
    as (hd & log & -> & Hf).
  exists hd, log. cbn [mbind outcome_bind]. rewrite ReadAntexData_nil.
  cbn [mbind outcome_bind]. by rewrite app_nil_r.
Qed.

(** X4. [ReadAntexFile] on a file with an END OF HEADER line gives the
    header fields of the lines before that line and the antennas that
    [ReadAntexData] reads from the lines behind it; it panics exactly when
    [ReadAntexData] does on those lines; the log is the header's warnings
    followed by those of the body. *)
Theorem ReadAntexFile_body (pre : list gostring) (endl : gostring)
    (body : Scanner) :
  Forall (λ buf, isEndOfHeader buf = false) pre →
  isEndOfHeader endl = true →
  ∃ hd,
    headerFields hd = headerFields (fold_left headerLine pre header0)
    ∧ ReadAntexFile (pre ++ endl :: body)
      = '(ant, log) ← ReadAntexData body;
        Ret (antexVer hd, satSys hd, pcvType hd, refAnt hd, ant,
             headerWarnings pre ++ log).
Proof.
  intros Hpre Hend.
  destruct (ScanHeader_at_terminator pre endl body Hpre Hend)
    as (hd & Hrun & Hf & _).
  exists hd. split; [done|]. unfold ReadAntexFile. by rewrite Hrun.
Qed.

End HeaderLeaves.

(** ** parseOneAzi *)

Section RowProps.
Context `{GoEnv}.

Lemma parseVals_length toks : length (parseVals toks).1 = length toks.
Proof.
  induction toks as [|t ts IH]; [done|]. simpl.
  destruct (ParseFloat t) as [x [e|]]; simpl.
  - by rewrite length_replicate.
  - destruct (parseVals ts) as [xs e']. simpl in *. by rewrite IH.
Qed.

Lemma parseVals_ok toks : ∀ v,
  parseVals toks = (v, None)
  ↔ Forall2 (λ t x, ParseFloat t = (x, None)) toks v.
Proof.
  induction toks as [|t ts IH]; intros v; simpl.
  - split.
    + intros [= <-]. constructor.
    + by intros ->%Forall2_nil_inv_l.
  - destruct (ParseFloat t) as [x [e|]] eqn:Ht.
    + split; [done|]. intros (y & v' & Hy & _ & _)%Forall2_cons_inv_l.
      rewrite Ht in Hy. done.
    + destruct (parseVals ts) as [xs e'] eqn:Hts. split.
      * intros [= <- ->]. constructor; [done|]. by apply IH.
      * intros (y & v' & Hy & Hv' & ->)%Forall2_cons_inv_l.
        rewrite Ht in Hy. injection Hy as <-.
        apply IH in Hv'. by injection Hv' as <- <-.
Qed.

(** The first token that does not parse is the one reported. *)
Lemma parseVals_first_bad ok : ∀ t rest x e0,
  Forall (λ t, (ParseFloat t).2 = None) ok →
  ParseFloat t = (x, Some e0) →
  (parseVals (ok ++ t :: rest)).2 = Some (ParseValError t e0).
Proof.
  induction ok as [|t' ok IH]; intros t rest x e0 Hok Ht; simpl.
  - by rewrite Ht.
  - inversion Hok as [|? ? Ht' Hok']; subst.
    destruct (ParseFloat t') as [x' e'] eqn:E. simpl in Ht'. subst e'.
    specialize (IH t rest x e0 Hok' Ht).
    by destruct (parseVals (ok ++ t :: rest)) as [xs e''].
Qed.

(** X18. [parseOneAzi] returns the key [az] and the values [v] without an
    error exactly when the line has at least one field, the first field is
    [az], and the other fields parse, in their order, to the values of
    [v]. *)
Theorem parseOneAzi_ok_iff (s az : gostring) (v : list float64) :
  parseOneAzi s = (az, v, None)
  ↔ ∃ toks, Fields s = az :: toks
            ∧ Forall2 (λ t x, ParseFloat t = (x, None)) toks v.
Proof.
  unfold parseOneAzi. destruct (Fields s) as [|az' toks].
  - split; [done|]. by intros (toks & ? & _).
  - destruct (parseVals toks) as [v' e] eqn:Hv. split.
    + intros [= -> -> ->]. exists toks. split; [done|]. by apply parseVals_ok.
    + intros (toks' & [= -> ->] & Hall). apply parseVals_ok in Hall.
      rewrite Hv in Hall. by injection Hall as -> ->.
Qed.

(** X19. When a field of the line does not parse as a number and every
    value field before it does, [parseOneAzi] reports that field, wrapped
    with the error of [ParseFloat], and still returns the key and a slice
    with one slot for each value field. *)
Theorem parseOneAzi_first_bad_token (s az : gostring)
    (ok : list gostring) (t : gostring) (rest : list gostring)
    (x : float64) (e0 : error) :
  Fields s = az :: ok ++ t :: rest →
  Forall (λ t, (ParseFloat t).2 = None) ok →
  ParseFloat t = (x, Some e0) →
  ∃ v, parseOneAzi s = (az, v, Some (ParseValError t e0))
       ∧ length v = length ok + S (length rest).
Proof.
  intros Hf Hok Ht. unfold parseOneAzi. rewrite Hf.
  pose proof (parseVals_first_bad ok t rest x e0 Hok Ht) as He.
  pose proof (parseVals_length (ok ++ t :: rest)) as Hl.
  destruct (parseVals (ok ++ t :: rest)) as [v e]. simpl in *. subst e.
  exists v. split; [done|]. by rewrite Hl, length_app.
Qed.

End RowProps.

(** ** A well-formed frequency section *)

Section SectionProps.
Context `{GoEnv}.

Lemma streq_false (a b : gostring) : a ≠ b → streq a b = false.
Proof. unfold streq. intros. by apply bool_decide_eq_false. Qed.

Lemma streq_refl (a : gostring) : streq a a = true.
Proof. unfold streq. by apply bool_decide_eq_true. Qed.

Lemma readAzimuths_rows rows : ∀ i nzen buf s p dv da,
  Forall (rowOk nzen) rows →
  notComment buf →
  Vaz p = dv ++ replicate (length rows) [] →
  Azs p = da ++ replicate (length rows) fzero →
  length dv = i → length da = i →
  ∃ p' buf',
    readAzimuths (length rows) i nzen buf (map rowLine rows ++ s) p
    = (p', None, buf', s)
    ∧ Vaz p' = dv ++ map rowVals rows
    ∧ Azs p' = da ++ map rowAzimuth rows
    ∧ gridHead p' = gridHead p
    ∧ notComment buf'.
Proof.
  induction rows as [|r rows IH]; intros i nzen buf s p dv da Hall Hb Hv Ha Hi Hj.
  - exists p, buf. simpl in *. by rewrite !app_nil_r in *.
  - inversion Hall as [|? ? (Hp & Hne & Hlen & Haz & Hnc) Hrows]; subst.
    cbn [length map app readAzimuths].
    rewrite (nextLine_first buf (rowLine r) _ Hb), Hp.
    rewrite (streq_false _ _ Hne).
    rewrite (proj2 (Z.eqb_eq _ _) eq_refl). cbn [negb]. rewrite Haz.
    edestruct (IH (S (length dv)) (len (rowVals r)) (rowLine r) s
                 (set_Azs (<[length dv:=rowAzimuth r]>
                             (Azs (set_Vaz (<[length dv:=rowVals r]> (Vaz p)) p)))
                          (set_Vaz (<[length dv:=rowVals r]> (Vaz p)) p))
                 (dv ++ [rowVals r]) (da ++ [rowAzimuth r]))
      as (p' & buf' & Hrun & Hv' & Ha' & Hh & Hnc'); try done.
    + cbn. rewrite Hv. cbn [replicate length].
      rewrite insert_app_r_alt by lia. rewrite Nat.sub_diag. cbn.
      by rewrite <- app_assoc.
    + cbn. rewrite Ha. cbn [replicate length].
      rewrite insert_app_r_alt by lia. rewrite Hj, Nat.sub_diag. cbn.
      by rewrite <- app_assoc.
    + rewrite length_app. simpl. lia.
    + rewrite length_app. simpl. lia.
    + exists p', buf'. rewrite Hrun, Hv', Ha', Hh.
      by rewrite <- !app_assoc.
Qed.

Lemma first_error_none : first_error [None; None; None] = None.
Proof. done. Qed.

(** X16. A well-formed frequency section is read in full. When the START
    OF FREQUENCY line gives the frequency number, the next line is a NORTH
    / EAST / UP line with three numbers, then comes a NOAZI row with as
    many values as the zenith count, then as many azimuth rows as the
    azimuth count, each with a numeric key other than NOAZI and as many
    values as the zenith count, then an END OF FREQUENCY line, and none of
    these lines ends in COMMENT, [parseOneFreq] returns without error,
    leaves the scanner behind the END OF FREQUENCY line, and the grid
    holds the system letter, the frequency number, the two counts, the
    offsets, the NOAZI values, and the rows and their azimuths in the
    order of the file. *)
Theorem parseOneFreq_well_formed (buf neu noazi endl : gostring)
    (rows : list aziRow) (rest : Scanner)
    (dazi zen1 zen2 dzen : float64) (f nazi nzen : Z)
    (t0 t1 t2 : gostring) (more : list gostring) (n e u : float64)
    (vals : list float64) :
  6 ≤ length buf →
  Atoi (take 2 (drop 4 buf)) = (f, None) →
  notComment buf →
  61 ≤ length neu →
  HasPrefix (drop 60 neu) "NORTH / EAST / UP" = true →
  Fields (take 60 neu) = t0 :: t1 :: t2 :: more →
  ParseFloat t0 = (n, None) →
  ParseFloat t1 = (e, None) →
  ParseFloat t2 = (u, None) →
  notComment neu →
  gridSize dazi zen1 zen2 dzen = (nazi, nzen) →
  parseOneAzi noazi = (lit "NOAZI", vals, None) →
  len vals = nzen →
  notComment noazi →
  Forall (rowOk nzen) rows →
  len rows = nazi →
  61 ≤ length endl →
  HasPrefix (drop 60 endl) "END OF FREQUENCY" = true →
  ∃ p,
    parseOneFreq (neu :: noazi :: map rowLine rows ++ endl :: rest) buf
                 dazi zen1 zen2 dzen
    = Ret (p, None, rest)
    ∧ Sys p = nth 3 buf zero ∧ Freq p = f
    ∧ Nazi p = nazi ∧ Nzen p = nzen
    ∧ PCO p = mkPco n e u
    ∧ Vnonaz p = vals
    ∧ Vaz p = map rowVals rows
    ∧ Azs p = map rowAzimuth rows.
Proof.
  intros Hbuf Hatoi Hnb Hneu Hlab Hsep Ht0 Ht1 Ht2 Hnn Hsize Hnoazi Hvals
         Hnz Hrows Hcount Hendl Hend.
  unfold parseOneFreq.
  rewrite (index_ok buf 3 zero) by lia. cbn [mbind outcome_bind].
  rewrite slice_ok by lia. cbn [mbind outcome_bind].
  change (6 - 4) with 2. rewrite Hatoi.
  rewrite (nextLine_first buf neu _ Hnb).
  rewrite sliceFrom_ok by lia. cbn [mbind outcome_bind]. rewrite Hlab.
  rewrite sliceTo_ok by lia. cbn [mbind outcome_bind]. rewrite Hsep.
  rewrite bool_decide_false by (simpl; lia). cbn [mbind outcome_bind].
  unfold parseNEU. cbn [index lookup list_lookup mbind outcome_bind].
  rewrite Ht0, Ht1, Ht2. cbn [mbind outcome_bind]. rewrite first_error_none.
  unfold parseGrid. rewrite Hsize.
  assert (0 ≤ nazi)%Z as Hpos by (subst nazi; unfold len; lia).
  unfold make. rewrite bool_decide_false by lia. cbn [mbind outcome_bind].
  rewrite (nextLine_first neu noazi _ Hnn), Hnoazi, streq_refl.
  cbn [negb]. rewrite (proj2 (Z.eqb_eq _ _) Hvals). cbn [negb].
  assert (Z.to_nat nazi = length rows) as -> by (subst nazi; unfold len; lia).
  match goal with |- context [readAzimuths _ 0 nzen noazi _ ?q] =>
    destruct (readAzimuths_rows rows 0 nzen noazi (endl :: rest) q [] []
                Hrows Hnz eq_refl eq_refl eq_refl eq_refl)
      as (p' & buf' & Hrun & Hv & Ha & Hh & Hnc)
  end.
  rewrite Hrun. rewrite (nextLine_first buf' endl _ Hnc).
  rewrite bool_decide_false by (unfold len; lia).
  rewrite sliceFrom_ok by lia. cbn [mbind outcome_bind]. rewrite Hend.
  cbn [negb]. exists p'. split; [done|].
  injection Hh as H1 H2 H3 H4 H5 H6.
  rewrite H1, H2, H3, H4, H5, H6, Hv, Ha. done.
Qed.

End SectionProps.

(** ** Lines that end a frequency section too early *)

Section TruncProps.
Context `{GoEnv}.

Lemma parseOneFreq_short_next buf s dazi zen1 zen2 dzen f :
  6 ≤ length buf →
  Atoi (take 2 (drop 4 buf)) = (f, None) →
  length (nextLine buf s).1 < 60 →
  parseOneFreq s buf dazi zen1 zen2 dzen = Panic SliceBounds.
Proof.
  intros Hbuf Hatoi Hshort. unfold parseOneFreq.
  rewrite (index_ok buf 3 zero) by lia. cbn [mbind outcome_bind].
  rewrite slice_ok by lia. cbn [mbind outcome_bind].
  change (6 - 4) with 2. rewrite Hatoi.
  destruct (nextLine buf s) as [buf1 s1]. simpl in Hshort.
  by rewrite sliceFrom_panic by lia.
Qed.

Lemma scanOneAntenna_from_cons fuel buf s st log :
  61 ≤ length buf →
  scanOneAntenna_from (S fuel) (buf :: s) st log
  = r ← labelStep buf s st;
    match r with
    | Next st' s' => scanOneAntenna_from fuel s' st' log
    | Return_ st' s' => Ret (ant st', None, s', log)
    | Break st' e s' => Ret (ant st', Some e, skipToEndOfAntenna s', log)
    end.
Proof.
  intros Hlen. unfold scanOneAntenna_from. rewrite scanLoop_cons.
  rewrite bool_decide_false by (unfold len; lia).
  destruct (labelStep buf s st) as [[st1 s1|st1 s1|st1 e s1]| |]; done.
Qed.

(** X15. When the line that [nextLine] hands out after a START OF
    FREQUENCY line is shorter than 60 bytes (an empty line, the end of the
    input, or the skipping of [nextLine] after a line that ends in
    COMMENT), [scanOneAntenna] panics with a slice out of range: the line
    is sliced at column 60 before its length is looked at. *)
Theorem start_of_frequency_needs_a_long_line (fuel : nat) (buf : gostring)
    (s : Scanner) (st : antState) (log : list logEntry) (f : Z) :
  61 ≤ length buf →
  labelOf buf = lit "START OF FREQUENCY" →
  Atoi (take 2 (drop 4 buf)) = (f, None) →
  length (nextLine buf s).1 < 60 →
  scanOneAntenna_from (S fuel) (buf :: s) st log = Panic SliceBounds.
Proof.
  intros Hlen Hlab Hatoi Hshort.
  rewrite scanOneAntenna_from_cons by done.
  rewrite labelStep_start_of_frequency by done.
  by rewrite (parseOneFreq_short_next buf s _ _ _ _ f) by (done || lia).
Qed.

End TruncProps.

(** ** Lines without effect *)

Section InertProps.
Context `{GoEnv}.

Lemma scanOneAntenna_from_fuel fuel fuel' s st log :
  length s < fuel → length s < fuel' →
  scanOneAntenna_from fuel s st log = scanOneAntenna_from fuel' s st log.
Proof.
  intros Hf Hf'. unfold scanOneAntenna_from.
  by rewrite (scanLoop_fuel fuel fuel').
Qed.

Lemma labelStep_inert buf s st :
  61 ≤ length buf →
  labelOf buf = lit "COMMENT" ∨ labelOf buf = lit "METH / BY / # / DATE"
  ∨ labelOf buf ∉ knownLabels →
  labelStep buf s st = Ret (Next st s).
Proof.
  intros Hlen Hlab. unfold labelStep, labelOf in *.
  rewrite sliceFrom_ok by lia. cbn [mbind outcome_bind].
  destruct Hlab as [->| [->|Hno]]; [by eval_streq..|].
  unfold knownLabels in Hno.
  repeat (apply not_elem_of_cons in Hno as [?%streq_false Hno]).
  repeat match goal with Hs : streq _ _ = false |- _ => rewrite Hs; clear Hs end.
  done.
Qed.

(** X12. Inside an antenna block a COMMENT line, a METH / BY / # / DATE
    line and a line of more than 60 bytes whose label the switch has no
    case for are read over: the result is the one for the lines that
    follow, from the same variables. *)
Theorem scanOneAntenna_reads_over (fuel : nat) (buf : gostring) (s : Scanner)
    (st : antState) (log : list logEntry) :
  length (buf :: s) < fuel →
  61 ≤ length buf →
  labelOf buf = lit "COMMENT" ∨ labelOf buf = lit "METH / BY / # / DATE"
  ∨ labelOf buf ∉ knownLabels →
  scanOneAntenna_from fuel (buf :: s) st log
  = scanOneAntenna_from fuel s st log.
Proof.
  intros Hf Hlen Hlab. destruct fuel as [|fuel]; [simpl in Hf; lia|].
  simpl in Hf. rewrite scanOneAntenna_from_cons by done.
  rewrite (labelStep_inert buf s st Hlen Hlab). cbn [mbind outcome_bind].
  apply scanOneAntenna_from_fuel; lia.
Qed.

(** X13. A ZEN1 / ZEN2 / DZEN line with fewer than three fields is read
    over as well: it gives no error, and the three values stay as they
    were. *)
Theorem short_zen_line_is_read_over (fuel : nat) (buf : gostring)
    (s : Scanner) (st : antState) (log : list logEntry) :
  length (buf :: s) < fuel →
  61 ≤ length buf →
  labelOf buf = lit "ZEN1 / ZEN2 / DZEN" →
  length (Fields (take 60 buf)) < 3 →
  scanOneAntenna_from fuel (buf :: s) st log
  = scanOneAntenna_from fuel s st log.
Proof.
  intros Hf Hlen Hlab Hfew. destruct fuel as [|fuel]; [simpl in Hf; lia|].
  simpl in Hf. rewrite scanOneAntenna_from_cons by done.
  assert (labelStep buf s st = Ret (Next st s)) as ->.
  { unfold labelStep, labelOf in *.
    rewrite sliceFrom_ok by lia. cbn [mbind outcome_bind]. rewrite Hlab.
    eval_streq. rewrite sliceTo_ok by lia. cbn [mbind outcome_bind].
    by rewrite bool_decide_true. }
  cbn [mbind outcome_bind]. apply scanOneAntenna_from_fuel; lia.
Qed.

End InertProps.

(** ** The declared number of frequencies *)

Section NfProps.
Context `{GoEnv}.

Lemma labelStep_eq_but_nf buf s st1 st2 :
  eq_but_nf st1 st2 →
  outcome_rel step_eq_but_nf (labelStep buf s st1) (labelStep buf s st2).
Proof.
  destruct st1 as [a1 n1 d1 z1 y1 w1], st2 as [a2 n2 d2 z2 y2 w2].
  unfold eq_but_nf. cbn. intros (-> & -> & -> & -> & ->).
  unfold labelStep, or_break, afterFreq, mbind, outcome_bind, eq_but_nf.
  cbn [ant dazi zen1 zen2 dzen nf set_ant set_nf set_dazi set_zen].
  repeat (case_match; simplify_eq; cbn [outcome_rel step_eq_but_nf];
          try done).
Qed.

Lemma scanLoop_eq_but_nf fuel : ∀ s st1 st2 log,
  eq_but_nf st1 st2 →
  outcome_rel (λ r1 r2, exit_eq_but_nf r1.1.1 r2.1.1
                        ∧ r1.1.2 = r2.1.2 ∧ r1.2 = r2.2)
              (scanLoop fuel s st1 log) (scanLoop fuel s st2 log).
Proof.
  induction fuel as [|fuel IH]; intros s st1 st2 log Heq; [done|].
  destruct s as [|buf s]; [done|]. rewrite !scanLoop_cons.
  destruct (bool_decide _); [done|].
  pose proof (labelStep_eq_but_nf buf s st1 st2 Heq) as Hstep.
  destruct (labelStep buf s st1) as [r1| |], (labelStep buf s st2) as [r2| |];
    try done; cbn [outcome_rel] in Hstep; try (by subst).
  cbn [mbind outcome_bind].
  destruct r1, r2; cbn [step_eq_but_nf] in Hstep; try done.
  - destruct Hstep as [Hst ->]. by apply IH.
  - by destruct Hstep as [Hst ->].
  - by destruct Hstep as (Hst & -> & ->).
Qed.

Lemma scanOneAntenna_from_eq_but_nf fuel s st1 st2 log :
  eq_but_nf st1 st2 →
  scanOneAntenna_from fuel s st1 log = scanOneAntenna_from fuel s st2 log.
Proof.
  intros Heq. unfold scanOneAntenna_from.
  pose proof (scanLoop_eq_but_nf fuel s st1 st2 log Heq) as Hl.
  destruct (scanLoop fuel s st1 log) as [[[x1 s1] l1]| |],
           (scanLoop fuel s st2 log) as [[[x2 s2] l2]| |];
    try done; cbn [outcome_rel] in Hl; try (by subst).
  cbn in Hl. destruct Hl as (Hx & -> & ->). cbn [mbind outcome_bind].
  destruct x1 as [a|a e1], x2 as [b|b e2]; cbn in Hx; try done.
  - destruct Hx as (Ha & _). cbn [afterLoop]. by rewrite Ha.
  - destruct Hx as ((Ha & _) & ->). cbn [afterLoop].
    rewrite Ha. by destruct e2.
Qed.

(** X14. The number on a # OF FREQUENCIES line is not used: when it
    parses, the result of [scanOneAntenna] is the one for the lines that
    follow, whatever the number is and however many frequency sections
    the block holds. *)
Theorem declared_frequency_count_is_not_used (fuel : nat) (buf : gostring)
    (s : Scanner) (st : antState) (log : list logEntry) (n : Z) :
  length (buf :: s) < fuel →
  61 ≤ length buf →
  labelOf buf = lit "# OF FREQUENCIES" →
  Atoi (TrimSpace (take 60 buf)) = (n, None) →
  scanOneAntenna_from fuel (buf :: s) st log
  = scanOneAntenna_from fuel s st log.
Proof.
  intros Hf Hlen Hlab Hatoi. destruct fuel as [|fuel]; [simpl in Hf; lia|].
  simpl in Hf. rewrite scanOneAntenna_from_cons by done.
  assert (labelStep buf s st = Ret (Next (set_nf n st) s)) as ->.
  { unfold labelStep, labelOf in *.
    rewrite sliceFrom_ok by lia. cbn [mbind outcome_bind]. rewrite Hlab.
    eval_streq. rewrite sliceTo_ok by lia. cbn [mbind outcome_bind].
    by rewrite Hatoi. }
  cbn [mbind outcome_bind].
  rewrite (scanOneAntenna_from_eq_but_nf fuel s (set_nf n st) st)
    by (by destruct st).
  apply scanOneAntenna_from_fuel; lia.
Qed.

End NfProps.

(** ** ReadAntexData outside and across antenna blocks *)

Section BodyProps.
Context `{GoEnv}.

Lemma dataWarnings_cons buf ls :
  dataWarnings (buf :: ls)
  = (if bool_decide (len buf < 61)%Z then [WarnNoAntexData buf] else [])
    ++ dataWarnings ls.
Proof.
  unfold dataWarnings. rewrite filter_cons.
  destruct (bool_decide_reflect (len buf < 61)%Z).
  - by rewrite decide_True.
  - by rewrite decide_False.
Qed.

Lemma ReadAntexData_loop_no_start fuel : ∀ s ants log,
  length s < fuel →
  Forall (λ buf, 60 ≤ length buf ∧ isStartOfAntenna buf = false) s →
  ReadAntexData_loop fuel s ants log = Ret (ants, log ++ dataWarnings s).
Proof.
  induction fuel as [|fuel IH]; intros s ants log Hf Hall; [lia|].
  destruct s as [|buf s]. { simpl. by rewrite app_nil_r. }
  inversion Hall as [|? ? [Hlen Hno] Hs]; subst. simpl in Hf.
  rewrite ReadAntexData_loop_cons. cbv zeta.
  rewrite sliceFrom_ok by lia. cbn [mbind outcome_bind].
  unfold isStartOfAntenna in Hno. rewrite Hno.
  rewrite IH by (done || lia). rewrite dataWarnings_cons.
  destruct (bool_decide _); by rewrite <- ?app_assoc.
Qed.

(** X5. On lines of at least 60 bytes none of which carries START OF
    ANTENNA at column 60, [ReadAntexData] returns no antenna and logs one
    warning for each line of exactly 60 bytes. *)
Theorem ReadAntexData_without_antennas (s : Scanner) :
  Forall (λ buf, 60 ≤ length buf ∧ isStartOfAntenna buf = false) s →
  ReadAntexData s = Ret ([], dataWarnings s).
Proof.
  intros Hall. unfold ReadAntexData.
  rewrite ReadAntexData_loop_no_start; [done | unfold gostring; lia | done].
Qed.

Lemma ReadAntexData_loop_parsed fuel buf rest ants log a s' :
  length (buf :: rest) < fuel →
  isStartOfAntenna buf = true →
  scanOneAntenna rest [] = Ret (a, None, s', []) →
  ReadAntexData_loop fuel (buf :: rest) ants log
  = '(ants', log') ← ReadAntexData s';
    Ret (ants ++ a :: ants', log ++ log').
Proof.
  intros Hf Hp Hs. destruct fuel as [|fuel]; [simpl in Hf; lia|].
  simpl in Hf. rewrite ReadAntexData_loop_cons. cbv zeta.
  unfold isStartOfAntenna in Hp.
  assert (60 < length buf) as Hlen
    by (by apply (HasPrefix_drop_length buf "START OF ANTENNA")).
  rewrite bool_decide_false by (unfold len; lia).
  rewrite sliceFrom_ok by lia. cbn [mbind outcome_bind]. rewrite Hp.
  rewrite scanOneAntenna_log, Hs. cbn [mbind outcome_bind].
  apply scanOneAntenna_length in Hs.
  rewrite ReadAntexData_loop_acc by lia.
  destruct (ReadAntexData s') as [[ants' log']| |]; cbn; try done.
  by rewrite <- !app_assoc.
Qed.

(** X6. When the block behind a START OF ANTENNA line parses without
    error, [ReadAntexData] puts its record first, logs nothing for it, and
    goes on with the lines behind its END OF ANTENNA line. *)
Theorem ReadAntexData_appends_parsed_antenna (buf : gostring)
    (rest : Scanner) (a : antenna) (s' : Scanner) :
  isStartOfAntenna buf = true →
  scanOneAntenna rest [] = Ret (a, None, s', []) →
  ReadAntexData (buf :: rest)
  = '(ants', log') ← ReadAntexData s'; Ret (a :: ants', log').
Proof.
  intros Hp Hs. unfold ReadAntexData at 1.
  rewrite (ReadAntexData_loop_parsed _ buf rest [] [] a s')
    by (done || (unfold gostring; simpl; lia)).
  by destruct (ReadAntexData s') as [[ants' log']| |].
Qed.

End BodyProps.

(** ** A negative number of azimuths *)

Section NaziProps.
Context `{GoEnv}.

(** X17. When the azimuth count derived from DAZI is negative (DAZI -5.0
    gives -71), [parseOneFreq] panics after a NORTH / EAST / UP line with
    three numbers, when it allocates the rows of the grid. *)
Theorem negative_azimuth_count_panics (buf neu : gostring) (s : Scanner)
    (dazi zen1 zen2 dzen : float64) (f : Z)
    (t0 t1 t2 : gostring) (more : list gostring) (n e u : float64) :
  6 ≤ length buf →
  Atoi (take 2 (drop 4 buf)) = (f, None) →
  notComment buf →
  61 ≤ length neu →
  HasPrefix (drop 60 neu) "NORTH / EAST / UP" = true →
  Fields (take 60 neu) = t0 :: t1 :: t2 :: more →
  ParseFloat t0 = (n, None) →
  ParseFloat t1 = (e, None) →
  ParseFloat t2 = (u, None) →
  ((gridSize dazi zen1 zen2 dzen).1 < 0)%Z →
  parseOneFreq (neu :: s) buf dazi zen1 zen2 dzen = Panic MakeSliceLen.
Proof.
  intros Hbuf Hatoi Hnb Hneu Hlab Hsep Ht0 Ht1 Ht2 Hneg.
  unfold parseOneFreq.
  rewrite (index_ok buf 3 zero) by lia. cbn [mbind outcome_bind].
  rewrite slice_ok by lia. cbn [mbind outcome_bind].
  change (6 - 4) with 2. rewrite Hatoi.
  rewrite (nextLine_first buf neu _ Hnb).
  rewrite sliceFrom_ok by lia. cbn [mbind outcome_bind]. rewrite Hlab.
  rewrite sliceTo_ok by lia. cbn [mbind outcome_bind]. rewrite Hsep.
  rewrite bool_decide_false by (simpl; lia). cbn [mbind outcome_bind].
  unfold parseNEU. cbn [index lookup list_lookup mbind outcome_bind].
  rewrite Ht0, Ht1, Ht2. cbn [mbind outcome_bind]. rewrite first_error_none.
  unfold parseGrid.
  destruct (gridSize dazi zen1 zen2 dzen) as [nazi nzen]. simpl in Hneg.
  unfold make. by rewrite bool_decide_true by lia.
Qed.

End NaziProps.

(** ** The quadratic equation of package bancroft *)

Lemma calcMinkowski4D_error (a b : list float64) :
  (Bancroft.calcMinkowski4D a b).2 = None ↔ length a = 4 ∧ length b = 4.
Proof.
  unfold Bancroft.calcMinkowski4D.
  destruct a as [|a0 [|a1 [|a2 [|a3 [|a4 a]]]]];
    try (split; [done | by intros [[=] _]]).
  destruct b as [|b0 [|b1 [|b2 [|b3 [|b4 b]]]]];
    try (split; [done | by intros [_ [=]]]).
Qed.

(** X20. [solveBancroftQuadraticEq] returns an error exactly when one of
    its two vectors does not hold four values; the error is then the one
    of [calcMinkowski4D], and both roots are returned as zero. *)
Theorem solveBancroftQuadraticEq_error (u v : list float64) :
  ((Bancroft.solveBancroftQuadraticEq u v).2 = None
   ↔ length u = 4 ∧ length v = 4)
  ∧ ((Bancroft.solveBancroftQuadraticEq u v).2 ≠ None →
     Bancroft.solveBancroftQuadraticEq u v
     = (fzero, fzero, Some Bancroft.InvalidVectorSize)).
Proof.
  unfold Bancroft.solveBancroftQuadraticEq, Bancroft.minkowski4D.
  pose proof (calcMinkowski4D_error u u) as Huu.
  pose proof (calcMinkowski4D_error u v) as Huv.
  pose proof (calcMinkowski4D_error v v) as Hvv.
  destruct (Bancroft.calcMinkowski4D u u) as [E [[]|]];
    destruct (Bancroft.calcMinkowski4D u v) as [uv [[]|]];
    destruct (Bancroft.calcMinkowski4D v v) as [G [[]|]];
    cbn in *; intuition (discriminate || done).
Qed.

(** ** The properties of the records, stated for the entry points *)

Section EntryProps.
Context `{GoEnv}.

(** X9. Whatever [scanOneAntenna] returns, with or without an error, the
    scanner it leaves holds a tail of the lines it was given: lines are
    only consumed, in their order. *)
Theorem scanOneAntenna_leaves_tail (s : Scanner) (log : list logEntry)
    (a : antenna) (e : option error) (s' : Scanner) (log' : list logEntry) :
  scanOneAntenna s log = Ret (a, e, s', log') → s' `suffix_of` s.
Proof. apply scanOneAntenna_suffix. Qed.

(** X8. In every record that [ReadAntexData] returns, also in those of
    the blocks that failed, every grid has as many NOAZI values as its
    zenith count, as many azimuth rows as its azimuth count, and as many
    values in each row as its zenith count. *)
Theorem ReadAntexData_grids_ok (s : Scanner) (ants : list antenna)
    (log : list logEntry) :
  ReadAntexData s = Ret (ants, log) →
  Forall (λ a, Forall grid_ok (PCV a)) ants.
Proof.
  unfold ReadAntexData. intros Hr.
  by apply ReadAntexData_loop_inv in Hr as [Hg _]; [|constructor].
Qed.

(** X7. [ReadAntexData] returns at most as many records as its input has
    lines with START OF ANTENNA at column 60. *)
Theorem ReadAntexData_count (s : Scanner) (ants : list antenna)
    (log : list logEntry) :
  ReadAntexData s = Ret (ants, log) → length ants ≤ startLines s.
Proof.
  unfold ReadAntexData. intros Hr.
  apply ReadAntexData_loop_inv in Hr as [_ Hc]; [|constructor].
  exact Hc.
Qed.

End EntryProps.

(** ** The counts of a grid and the grid size *)

Section CountProps.
Context `{GoEnv}.

Lemma readAzimuths_counts n : ∀ i nzen buf s p,
  Nazi (readAzimuths n i nzen buf s p).1.1.1 = Nazi p
  ∧ Nzen (readAzimuths n i nzen buf s p).1.1.1 = Nzen p.
Proof.
  induction n as [|n IH]; intros i nzen buf s p; simpl; [done|].
  destruct (nextLine buf s) as [buf1 s1].
  destruct (parseOneAzi buf1) as [[az vals] [e|]]; [done|].
  destruct (streq az _); [done|].
  destruct (negb _); [done|].
  destruct (ParseFloat az) as [x [e|]]; [done|].
  match goal with |- context [readAzimuths n ?j ?z ?b ?t ?q] =>
    destruct (IH j z b t q) as [-> ->] end.
  done.
Qed.

Lemma resyncEndOfFrequency_panic s pn :
  resyncEndOfFrequency s = Panic pn → pn = SliceBounds.
Proof.
  induction s as [|buf s IH]; simpl; [done|].
  destruct (bool_decide _); cbn [mbind outcome_bind mret outcome_ret].
  - done.
  - unfold sliceFrom. destruct (decide _); cbn [mbind outcome_bind].
    + destruct (HasPrefix _ _); [done | exact IH].
    + by intros [= <-].
Qed.


(** From the computation of the grid size on, what [parseOneFreq] returns
    holds the two counts of [gridSize]. *)
Lemma parseGrid_goesOn p buf s dazi zen1 zen2 dzen :
  goesOnWith (gridSize dazi zen1 zen2 dzen).1 (gridSize dazi zen1 zen2 dzen).2
             (parseGrid p buf s dazi zen1 zen2 dzen).
Proof.
  unfold parseGrid.
  destruct (gridSize dazi zen1 zen2 dzen) as [nazi nzen]. cbn [fst snd].
  unfold make.
  destruct (bool_decide_reflect (nazi < 0)%Z) as [Hneg|Hpos].
  { cbn. by rewrite bool_decide_true. }
  cbn [mbind outcome_bind].
  destruct (nextLine buf s) as [buf1 s1].
  destruct (parseOneAzi buf1) as [[az vals] [e|]]. { cbn. split; [lia|done]. }
  destruct (negb (streq az _)). { cbn. split; [lia|done]. }
  destruct (negb (len vals =? nzen)%Z). { cbn. split; [lia|done]. }
  match goal with |- context [readAzimuths ?n ?i ?z ?b ?s ?q] =>
    pose proof (readAzimuths_counts n i z b s q) as [Ha Hz];
    destruct (readAzimuths n i z b s q) as [[[p2 e2] buf2] s2]
  end.
  cbn in Ha, Hz.
  destruct e2 as [e2|]. { cbn. split; [lia|done]. }
  destruct (nextLine buf2 s2) as [buf3 s3].
  destruct (bool_decide_reflect (len buf3 < 61)%Z) as [Hshort|Hlong];
    cbn [mbind outcome_bind mret outcome_ret].
  - pose proof (resyncEndOfFrequency_fueled s3) as Hfu.
    pose proof (resyncEndOfFrequency_panic s3) as Hpa.
    destruct (resyncEndOfFrequency s3) as [[e3 s4]|pn|]; cbn.
    + split; [lia|done].
    + rewrite bool_decide_false by done. by apply Hpa.
    + done.
  - rewrite sliceFrom_ok by (unfold len in Hlong; lia).
    cbn [mbind outcome_bind mret outcome_ret].
    destruct (negb _); cbn [mbind outcome_bind].
    + pose proof (resyncEndOfFrequency_fueled s3) as Hfu.
      pose proof (resyncEndOfFrequency_panic s3) as Hpa.
      destruct (resyncEndOfFrequency s3) as [[e3 s4]|pn|]; cbn.
      * split; [lia|done].
      * rewrite bool_decide_false by done. by apply Hpa.
      * done.
    + cbn. split; [lia|done].
Qed.





(** A grid returned without error: either the offsets line was short, and
    the grid is empty, or its counts are those of [gridSize] and its
    values fit them. *)
Lemma parseOneFreq_grid_counts s buf dazi zen1 zen2 dzen p s' :
  parseOneFreq s buf dazi zen1 zen2 dzen = Ret (p, None, s') →
  (shortOffsets buf s = true
   ∧ Nazi p = 0%Z ∧ Nzen p = 0%Z ∧ Vnonaz p = [] ∧ Vaz p = [])
  ∨ ((Nazi p, Nzen p) = gridSize dazi zen1 zen2 dzen
     ∧ len (Vnonaz p) = Nzen p
     ∧ len (Vaz p) = Nazi p
     ∧ Forall (λ row, len row = Nzen p) (Vaz p)).
Proof.
  intros Hf.
  assert (∀ q b t, parseGrid q b t dazi zen1 zen2 dzen = Ret (p, None, s') →
            (Nazi p, Nzen p) = gridSize dazi zen1 zen2 dzen
            ∧ len (Vnonaz p) = Nzen p ∧ len (Vaz p) = Nazi p
            ∧ Forall (λ row, len row = Nzen p) (Vaz p)) as Hgrid.
  { intros q b t Hg. split; [|by apply parseGrid_shape in Hg].
    pose proof (parseGrid_goesOn q b t dazi zen1 zen2 dzen) as Hgo.
    rewrite Hg in Hgo. destruct (gridSize dazi zen1 zen2 dzen) as [na nz].
    cbn [goesOnWith fst snd] in Hgo. by destruct Hgo as (_ & -> & ->). }
  unfold parseOneFreq in Hf. unfold shortOffsets.
  bind_inv Hf. bind_inv Hf.
  destruct (Atoi x0) as [f [err|]]; [done|].
  destruct (nextLine buf s) as [buf1 s1]. cbn [fst].
  bind_inv Hf. apply sliceFrom_Ret in Hx1 as ->.
  destruct (HasPrefix (drop 60 buf1) _); [|right; by eapply Hgrid].
  unfold sliceTo in Hf. destruct (decide _); [|done].
  cbn [mbind outcome_bind] in Hf.
  destruct (bool_decide (length (Fields (take 60 buf1)) < 3)).
  - destruct (seekEndOfFrequency buf1 s1) as [[[found buf2] s2]| |];
      try done.
    cbn [mbind outcome_bind] in Hf. destruct found.
    + ret_inv Hf. left. by cbn.
    + bind_inv Hf. destruct x1 as [[[n e0] u] [ee|]]; [done|].
      right. by eapply Hgrid.
  - cbn [mbind outcome_bind] in Hf.
    bind_inv Hf. destruct x1 as [[[n e0] u] [ee|]]; [done|].
    right. by eapply Hgrid.
Qed.

End CountProps.

(** ** Where an antenna that failed leaves the scanner *)

Section FailedProps.
Context `{GoEnv}.

Lemma skipToEndOfAntenna_behind s :
  skipToEndOfAntenna s = []
  ∨ ∃ pre endl,
      s = pre ++ endl :: skipToEndOfAntenna s ∧ isEndOfAntenna endl = true.
Proof.
  induction s as [|buf s IH]; [by left|].
  cbn [skipToEndOfAntenna]. fold (isEndOfAntenna buf).
  destruct (isEndOfAntenna buf) eqn:Hb.
  - right. by exists [], buf.
  - destruct IH as [Hnil|(pre & endl & Heq & Hend)]; [by left|].
    right. exists (buf :: pre), endl. split; [simpl; by f_equal | done].
Qed.

(** The loop is left without an error at the end of the input or at a
    line shorter than 61 bytes, which it logs. *)
Lemma scanLoop_Left fuel : ∀ s st log st' e s' log',
  scanLoop fuel s st log = Ret (Left st' e, s', log') →
  match e with
  | None =>
      s' = []
      ∨ ∃ pre l, s = pre ++ l :: s' ∧ length l < 61
                 ∧ log' = log ++ [WarnNoLabel l]
  | Some _ => s' `suffix_of` s
  end.
Proof.
  induction fuel as [|fuel IH]; intros s st log st' e s' log' Hl; [done|].
  destruct s as [|buf s]. { ret_inv Hl. by left. }
  rewrite scanLoop_cons in Hl.
  destruct (bool_decide_reflect (len buf < 61)%Z) as [Hshort|Hlong].
  { ret_inv Hl. right. exists [], buf. unfold len in Hshort.
    split; [done|]. split; [lia | done]. }
  bind_inv Hl. pose proof (labelStep_suffix _ _ _ _ Hx) as Hsuf.
  destruct x as [st1 s1|st1 s1|st1 e1 s1]; simpl in Hsuf.
  - apply IH in Hl. destruct Hsuf as [k ->]. destruct e as [e|].
    + apply suffix_cons_r. etrans; [exact Hl | by apply suffix_app_r].
    + destruct Hl as [->|(pre & l & -> & Hlen & ->)]; [by left|].
      right. exists (buf :: k ++ pre), l.
      split; [simpl; by rewrite <- app_assoc | done].
  - done.
  - ret_inv Hl. by apply suffix_cons_r.
Qed.

(** After an error the scanner is empty, or stands behind an END OF
    ANTENNA line, or behind the short line that ended the block. *)
Lemma scanOneAntenna_error_exit s log a e s' log' :
  scanOneAntenna s log = Ret (a, Some e, s', log') →
  s' = []
  ∨ ∃ pre l,
      s = pre ++ l :: s'
      ∧ (isEndOfAntenna l = true
         ∨ (length l < 61 ∧ e = EndLabelNotFound
            ∧ log' = log ++ [WarnNoLabel l])).
Proof.
  unfold scanOneAntenna, scanOneAntenna_from. intros Hs. bind_inv Hs.
  destruct x as [[ex s1] l1]. destruct ex as [st1|st1 [e1|]]; [done| |].
  - cbn [afterLoop] in Hs. ret_inv Hs.
    apply scanLoop_Left in Hx as [k ->].
    destruct (skipToEndOfAntenna_behind s1) as [->|(pre & endl & Heq & Hend)];
      [by left|].
    right. exists (k ++ pre), endl. split; [|by left].
    rewrite <- app_assoc. by f_equal.
  - cbn [afterLoop] in Hs. ret_inv Hs.
    apply scanLoop_Left in Hx as [->|(pre & l & -> & Hlen & ->)]; [by left|].
    right. exists pre, l. split; [done|]. by right.
Qed.

(** C1 (amended). Wherever the loop of [ReadAntexData] stands at a START
    OF ANTENNA line whose block [scanOneAntenna] returns with an error,
    the record returned with the error is kept: the result is that of
    [ReadAntexData] on the lines [scanOneAntenna] has left, with the
    record put in front of its records, behind the antennas collected so
    far, and the error logged in front of its log; it is a panic when the
    reading of those lines panics. So whenever the loop returns, its
    output holds the record, right behind the antennas collected so far,
    and its log holds the error. The lines left are none, or those behind
    a line that carries END OF ANTENNA, or, when the block ended with
    "End of freq label not found" at a line shorter than 61 bytes, those
    behind that line, logged with a warning. *)
Theorem ReadAntexData_keeps_failed_antenna (fuel : nat) (buf : gostring)
    (rest : Scanner) (ants : list antenna) (log : list logEntry)
    (a : antenna) (e : error) (s' : Scanner) (lg : list logEntry) :
  length (buf :: rest) < fuel →
  HasPrefix (drop 60 buf) "START OF ANTENNA" = true →
  scanOneAntenna rest [] = Ret (a, Some e, s', lg) →
  ReadAntexData_loop fuel (buf :: rest) ants log
  = ('(ants', log') ← ReadAntexData s';
     Ret (ants ++ a :: ants', log ++ lg ++ LogError e :: log'))
  ∧ (∀ out log',
       ReadAntexData_loop fuel (buf :: rest) ants log = Ret (out, log') →
       out !! length ants = Some a ∧ LogError e ∈ log')
  ∧ (s' = []
     ∨ ∃ pre l,
         rest = pre ++ l :: s'
         ∧ (isEndOfAntenna l = true
            ∨ (length l < 61 ∧ e = EndLabelNotFound
               ∧ lg = [WarnNoLabel l]))).
Proof.
  intros Hf Hp Hs.
  pose proof (ReadAntexData_loop_failed fuel buf rest ants log a e s' lg
                Hf Hp Hs) as Heq.
  split; [exact Heq|]. split.
  - intros out log' Hout. rewrite Heq in Hout. bind_inv Hout.
    destruct x as [ants' lg']. ret_inv Hout. split.
    + by rewrite list_lookup_middle.
    + rewrite !elem_of_app. right. right. by left.
  - exact (scanOneAntenna_error_exit rest [] a e s' lg Hs).
Qed.

End FailedProps.

(** ** The division by the zenith step *)

Section DivisionProps.
Context `{GoEnv}.


End DivisionProps.

(** * Runs of the reader on the sample inputs *)

(** C6, at a header of three lines without END OF HEADER. *)
Lemma ScanHeader_without_terminator_witness :
  Forall (λ buf, isEndOfHeader buf = false) openHeader
  ∧ ∃ hd log,
      ScanHeader (H:=goStd) openHeader = Ret (hd, [], log)
      ∧ headerFields hd
        = headerFields (fold_left (headerLine (H:=goStd)) openHeader header0).
Proof.
  split.
  - repeat constructor.
  - apply (ScanHeader_without_terminator (H:=goStd) openHeader).
    repeat constructor.
Defined.

(** The fields that header yields. *)
Example ScanHeader_openHeader :
  ∃ hd log,
    ScanHeader (H:=goStd) openHeader = Ret (hd, [], log)
    ∧ headerFields hd
      = (lit "1.4", "M"%char, "A"%char, lit "IGS14_2247")
    ∧ log = [WarnNoHeaderLabel "free text"].
Proof. eexists _, _. split; [vm_compute; reflexivity|]. by vm_compute. Qed.

(** C1, the claim as stated fails: the block with the DAZI that is not a
    number is returned with an error, and its record is the first antenna
    of the result. *)
Lemma failed_antenna_is_emitted :
  ∃ a e s' lg ants log,
    scanOneAntenna (H:=goStd) twoBlocks [] = Ret (a, Some e, s', lg)
    ∧ ReadAntexData (H:=goStd) (startAnt :: twoBlocks) = Ret (ants, log)
    ∧ ants !! 0 = Some a
    ∧ length ants = 2
    ∧ log = [LogError e].
Proof.
  eexists _, _, _, _, _, _.
  split; [vm_compute; reflexivity|].
  split; [vm_compute; reflexivity|].
  by vm_compute.
Qed.

(** C1 (amended), at the same file: the block failed at its DAZI line and
    the scanner stands behind its END OF ANTENNA line. *)
Lemma ReadAntexData_keeps_failed_antenna_witness :
  ∃ a e s' lg,
    length (startAnt :: twoBlocks) < 40
    ∧ HasPrefix (drop 60 startAnt) "START OF ANTENNA" = true
    ∧ scanOneAntenna (H:=goStd) twoBlocks [] = Ret (a, Some e, s', lg)
    ∧ ReadAntexData_loop (H:=goStd) 40 (startAnt :: twoBlocks) [] []
      = ('(ants', log') ← ReadAntexData (H:=goStd) s';
         Ret ([] ++ a :: ants', [] ++ lg ++ LogError e :: log'))
    ∧ (∀ out log',
         ReadAntexData_loop (H:=goStd) 40 (startAnt :: twoBlocks) [] []
         = Ret (out, log') →
         out !! length (@nil antenna) = Some a ∧ LogError e ∈ log')
    ∧ (s' = []
       ∨ ∃ pre l,
           twoBlocks = pre ++ l :: s'
           ∧ (isEndOfAntenna l = true
              ∨ (length l < 61 ∧ e = EndLabelNotFound
                 ∧ lg = [WarnNoLabel l]))).
Proof.
  eexists _, _, _, _.
  assert (length (startAnt :: twoBlocks) < 40) as Hf by (vm_compute; lia).
  assert (HasPrefix (drop 60 startAnt) "START OF ANTENNA" = true) as Hp
    by reflexivity.
  split; [exact Hf|]. split; [exact Hp|].
  refine ((λ Hs, conj Hs
             (ReadAntexData_keeps_failed_antenna (H:=goStd) 40 startAnt
                twoBlocks [] [] _ _ _ _ Hf Hp Hs)) _).
  vm_compute. reflexivity.
Defined.

(** A block that ends at an empty line leaves the scanner inside the
    block; a second empty line then makes [ReadAntexData] panic, and no
    record is returned at all. *)
Example failed_antenna_then_panic :
  (∃ a, scanOneAntenna (H:=goStd) (typeLine :: [] :: [] :: drop 1 blockIIA) []
        = Ret (a, Some EndLabelNotFound, [] :: drop 1 blockIIA,
               [WarnNoLabel []]))
  ∧ ReadAntexData (H:=goStd)
      (startAnt :: typeLine :: [] :: [] :: drop 1 blockIIA)
    = Panic SliceBounds.
Proof.
  split; [eexists|]; vm_compute; reflexivity.
Qed.

(** C2, where the code fails the claim: an empty line in front of the
    first antenna makes [ReadAntexData] panic, and an empty line inside an
    antenna block ends the block with an error, the rest of the block left
    unread in the scanner. *)
Theorem short_line_breaks_body :
  ReadAntexData (H:=goStd) ([] :: startAnt :: blockIIA) = Panic SliceBounds
  ∧ ∃ a,
      scanOneAntenna (H:=goStd) (typeLine :: [] :: drop 1 blockIIA) []
      = Ret (a, Some EndLabelNotFound, drop 1 blockIIA, [WarnNoLabel []])
      ∧ PCV a = [].
Proof.
  split.
  - unfold ReadAntexData. apply (ReadAntexData_loop_short (H:=goStd)).
    simpl. lia.
  - eexists. split; [vm_compute; reflexivity|]. done.
Qed.

(** C3, where the code fails the claim: with two fields on the NORTH /
    EAST / UP line [parseOneFreq] returns, without error, a grid that
    holds no NOAZI value and the zenith count 0, while the zenith count
    computed from ZEN1 0, ZEN2 17 and DZEN 1 is 18. This is the one way in
    which a grid returned without error misses the computed counts: every
    other such grid holds the counts of [gridSize], as many NOAZI values
    as the zenith count, as many azimuth rows as the azimuth count, and
    as many values in each row as the zenith count. *)
Theorem short_offsets_break_grid_shape :
  (∃ p, parseOneFreq (H:=goStd) shortNeuRows freqStart
                     (flt "0.0") (flt "0.0") (flt "17.0") (flt "1.0")
        = Ret (p, None, [])
        ∧ gridSize (H:=goStd) (flt "0.0") (flt "0.0") (flt "17.0") (flt "1.0")
          = (0%Z, 18%Z)
        ∧ len (Vnonaz p) = 0%Z ∧ Nzen p = 0%Z)
  ∧ ∀ (H : GoEnv) (s : Scanner) (buf : gostring)
      (dazi zen1 zen2 dzen : float64) (p : pcv) (s' : Scanner),
      parseOneFreq (H:=H) s buf dazi zen1 zen2 dzen = Ret (p, None, s') →
      (shortOffsets (H:=H) buf s = true
       ∧ Nazi p = 0%Z ∧ Nzen p = 0%Z ∧ Vnonaz p = [] ∧ Vaz p = [])
      ∨ ((Nazi p, Nzen p) = gridSize (H:=H) dazi zen1 zen2 dzen
         ∧ len (Vnonaz p) = Nzen p
         ∧ len (Vaz p) = Nazi p
         ∧ Forall (λ row, len row = Nzen p) (Vaz p)).
Proof.
  split.
  - eexists. split; [vm_compute; reflexivity|].
    split; [vm_compute; reflexivity | done].
  - intros H s buf dazi zen1 zen2 dzen p s' Hf.
    exact (parseOneFreq_grid_counts (H:=H) s buf dazi zen1 zen2 dzen p s' Hf).
Qed.

(** A frequency section of three azimuth rows (DAZI 180, zenith 0 to 10
    by 5), whose offsets line has three numbers: the grid holds the
    computed counts. *)
Example parseOneFreq_aziRows :
  parseOneFreq (H:=goStd) aziRows freqStart
               (flt "180.0") (flt "0.0") (flt "10.0") (flt "5.0")
  = Ret (aziGrid, None, [])
  ∧ shortOffsets (H:=goStd) freqStart aziRows = false
  ∧ (Nazi aziGrid, Nzen aziGrid)
    = gridSize (H:=goStd) (flt "180.0") (flt "0.0") (flt "10.0") (flt "5.0")
  ∧ len (Vnonaz aziGrid) = 3%Z ∧ len (Vaz aziGrid) = 3%Z.
Proof. repeat split; vm_compute; reflexivity. Qed.

(** C4, where the code fails the claim: a COMMENT line right after START
    OF FREQUENCY is not skipped. It is taken as the line that may hold the
    offsets; [nextLine] then skips everything up to the end of input, and
    the section that parses without the COMMENT line is rejected. *)
Theorem comment_line_is_not_skipped :
  (∃ p, parseOneFreq (H:=goStd) (drop 1 commentRows) freqStart
                     (flt "0.0") (flt "0.0") (flt "17.0") (flt "1.0")
        = Ret (p, None, []) ∧ len (Vnonaz p) = 18%Z)
  ∧ nextLine freqStart commentRows
    = (ln " calibrated in the chamber" "COMMENT", drop 1 commentRows)
  ∧ ∃ p, parseOneFreq (H:=goStd) commentRows freqStart
                      (flt "0.0") (flt "0.0") (flt "17.0") (flt "1.0")
         = Ret (p, Some (LineError (NoPhaseVariation [])), [])
         ∧ Vnonaz p = [].
Proof.
  split; [|split].
  - eexists. split; [vm_compute; reflexivity | done].
  - by vm_compute.
  - eexists. split; [vm_compute; reflexivity | done].
Qed.

(** C5, the claim as stated fails: for ZEN1 0, ZEN2 -1 and DZEN 2 the
    quotient is -0.5, its floor is -1, and the zenith count is 1, not 0. *)
Lemma gridSize_is_not_floor :
  ∃ q z,
    q = fdiv (fsub (flt "-1.0") (flt "0.0")) (flt "2.0")
    ∧ floorZ q = Some z
    ∧ (gridSize (H:=goStd) (flt "0.0") (flt "0.0") (flt "-1.0") (flt "2.0")).2
      ≠ (z + 1)%Z.
Proof.
  eexists _, _. split; [reflexivity|]. split; [vm_compute; reflexivity|].
  by vm_compute.
Qed.

(** C5 (amended), at DAZI 5 and zenith 0 to 90 by 5: the quotient 18
    gives 19 zenith angles. *)
Lemma gridSize_truncates_witness :
  truncZ (fdiv (fsub (flt "90.0") (flt "0.0")) (flt "5.0")) = Some 18%Z
  ∧ (- 2 ^ 63 ≤ 18 < 2 ^ 63 - 1)%Z
  ∧ (gridSize (H:=goStd) (flt "5.0") (flt "0.0") (flt "90.0") (flt "5.0")).2
    = (18 + 1)%Z.
Proof.
  assert (truncZ (fdiv (fsub (flt "90.0") (flt "0.0")) (flt "5.0")) = Some 18%Z)
    as Hq by (vm_compute; reflexivity).
  assert (- 2 ^ 63 ≤ 18 < 2 ^ 63 - 1)%Z as Hr by lia.
  exact (conj Hq (conj Hr
           (proj1 (gridSize_truncates (H:=goStd) (flt "5.0") (flt "0.0")
                     (flt "90.0") (flt "5.0") 18 Hq Hr)))).
Defined.

(** The sizes for DAZI 5 and for DAZI 0, zenith 0 to 90 by 5. *)
Example gridSize_dazi5 :
  gridSize (H:=goStd) (flt "5.0") (flt "0.0") (flt "90.0") (flt "5.0")
  = (73%Z, 19%Z)
  ∧ gridSize (H:=goStd) (flt "0.0") (flt "0.0") (flt "90.0") (flt "5.0")
    = (0%Z, 19%Z).
Proof. split; vm_compute; reflexivity. Qed.

(** C7, the claim as stated fails: the block with the VALID FROM that does
    not parse is returned with an error, and its SINEX CODE line, which
    comes after, has not been read. *)
Lemma bad_date_is_fatal :
  ∃ a e,
    scanOneAntenna (H:=goStd) badDateBlock [] = Ret (a, Some e, [], [])
    ∧ e = badDateError
    ∧ SinexCode a = [].
Proof. eexists _, _. split; [vm_compute; reflexivity|]. by vm_compute. Qed.

(** C7 (amended), at that date line, with the variables as the TYPE /
    SERIAL NO line leaves them. *)
Lemma bad_date_fails_antenna_witness :
  61 ≤ length badDateLine
  ∧ labelOf badDateLine = lit "VALID FROM"
  ∧ parseDate (H:=goStd) (take 60 badDateLine) = (zeroTime, Some badDateError)
  ∧ scanOneAntenna_from (H:=goStd) 3
      (badDateLine :: drop 2 badDateBlock) afterType []
    = Ret (set_ValidFrom zeroTime (ant afterType), Some badDateError,
           skipToEndOfAntenna (drop 2 badDateBlock), []).
Proof.
  assert (61 ≤ length badDateLine) as Hl by (vm_compute; lia).
  assert (labelOf badDateLine = lit "VALID FROM") as Hlab by reflexivity.
  assert (parseDate (H:=goStd) (take 60 badDateLine)
          = (zeroTime, Some badDateError)) as Hd by (vm_compute; reflexivity).
  exact (conj Hl (conj Hlab (conj Hd
           (bad_date_fails_antenna (H:=goStd) 2 badDateLine
              (drop 2 badDateBlock) afterType [] true zeroTime badDateError
              Hl Hlab Hd)))).
Defined.

(** C8, where the code fails the claim: with two fields on the NORTH /
    EAST / UP line, [parseOneFreq] moves to END OF FREQUENCY and returns
    without error a grid that holds no value. *)
Theorem short_offsets_return_no_error :
  length (Fields (GoEnv:=goStd) (take 60 (ln "    279.00      0.00"
                                         "NORTH / EAST / UP"))) = 2
  ∧ ∃ p, parseOneFreq (H:=goStd) shortNeuRows freqStart
                      (flt "0.0") (flt "0.0") (flt "17.0") (flt "1.0")
         = Ret (p, None, [])
         ∧ Vnonaz p = [] ∧ Nzen p = 0%Z.
Proof.
  split; [reflexivity|].
  eexists. split; [vm_compute; reflexivity | done].
Qed.

(** C9, where the code fails the claim: the block quoted in the source
    names the satellite G01, the satellite G032 and the COSPAR identifier
    1992-079A, and its record does not report a satellite antenna. *)
Theorem satellite_block_is_not_flagged :
  ∃ a,
    scanOneAntenna (H:=goStd) blockIIA [] = Ret (a, None, [], [])
    ∧ S1 a = lit "G01" ∧ S2 a = lit "G032" ∧ S3 a = lit "1992-079A"
    ∧ IsSatAnt a = false.
Proof.
  eexists. split; [vm_compute; reflexivity|]. by vm_compute.
Qed.


(** In that block the first lines of the section pass, and the grid
    [parseOneFreq] returns with its error holds the count. *)
Example parseOneFreq_noZenBlock :
  reachesGrid (H:=goStd) freqStart (drop 2 noZenBlock) = true
  ∧ ∃ p buf,
      parseOneFreq (H:=goStd) (drop 2 noZenBlock) freqStart
                   (dazi afterType) fzero fzero fzero
      = Ret (p, Some (InvalidValues (- 2 ^ 63 + 1) 18 buf), [endFreq; endAnt])
      ∧ Nzen p = (- 2 ^ 63 + 1)%Z.
Proof.
  split; [vm_compute; reflexivity|].
  eexists _, _. split; vm_compute; reflexivity.
Qed.

(** The run of [scanOneAntenna] on that block. *)
Example scanOneAntenna_noZenBlock :
  ∃ a buf,
    scanOneAntenna (H:=goStd) noZenBlock []
    = Ret (a, Some (PcvDataError (lit "BLOCK IIA")
                      (InvalidValues (- 2 ^ 63 + 1) 18 buf)), [], [])
    ∧ buf = noazi18.
Proof. eexists _, _. split; [vm_compute; reflexivity | done]. Qed.

(** * Runs of the further properties on the sample inputs *)

(** X9, at the block of the satellite antenna followed by one more line. *)
Lemma scanOneAntenna_leaves_tail_witness :
  scanOneAntenna (H:=goStd) (blockIIA ++ [commentLine]) []
  = Ret (blockIIAAnt, None, [commentLine], [])
  ∧ [commentLine] `suffix_of` blockIIA ++ [commentLine].
Proof.
  assert (scanOneAntenna (H:=goStd) (blockIIA ++ [commentLine]) []
          = Ret (blockIIAAnt, None, [commentLine], [])) as Hs
    by (vm_compute; reflexivity).
  exact (conj Hs (scanOneAntenna_leaves_tail (H:=goStd) _ _ _ _ _ _ Hs)).
Defined.

(** X10, at the same lines. *)
Lemma scanOneAntenna_succeeds_at_terminator_witness :
  scanOneAntenna (H:=goStd) (blockIIA ++ [commentLine]) []
  = Ret (blockIIAAnt, None, [commentLine], [])
  ∧ [] = @nil logEntry
  ∧ ∃ pre endl,
      blockIIA ++ [commentLine] = pre ++ endl :: [commentLine]
      ∧ 61 ≤ length endl ∧ labelOf endl = lit "END OF ANTENNA".
Proof.
  assert (scanOneAntenna (H:=goStd) (blockIIA ++ [commentLine]) []
          = Ret (blockIIAAnt, None, [commentLine], [])) as Hs
    by (vm_compute; reflexivity).
  exact (conj Hs
           (scanOneAntenna_succeeds_at_terminator (H:=goStd) _ _ _ _ _ Hs)).
Defined.

(** X8, at a body of two blocks, the first of which fails. *)
Lemma ReadAntexData_grids_ok_witness :
  ReadAntexData (H:=goStd) bodyLines = Ret (bodyAnts, bodyLog)
  ∧ Forall (λ a, Forall grid_ok (PCV a)) bodyAnts.
Proof.
  assert (ReadAntexData (H:=goStd) bodyLines = Ret (bodyAnts, bodyLog)) as Hr
    by (vm_compute; reflexivity).
  exact (conj Hr (ReadAntexData_grids_ok (H:=goStd) _ _ _ Hr)).
Defined.

(** X7, at the same body. *)
Lemma ReadAntexData_count_witness :
  ReadAntexData (H:=goStd) bodyLines = Ret (bodyAnts, bodyLog)
  ∧ length bodyAnts ≤ startLines bodyLines.
Proof.
  assert (ReadAntexData (H:=goStd) bodyLines = Ret (bodyAnts, bodyLog)) as Hr
    by (vm_compute; reflexivity).
  exact (conj Hr (ReadAntexData_count (H:=goStd) _ _ _ Hr)).
Defined.

(** Both START OF ANTENNA lines of that body give a record. *)
Example bodyLines_count : length bodyAnts = 2 ∧ startLines bodyLines = 2.
Proof. split; vm_compute; reflexivity. Qed.

(** X2, at a header with a short line, followed by the body. *)
Lemma ScanHeader_stops_at_terminator_witness :
  Forall (λ buf, isEndOfHeader buf = false) openHeader
  ∧ isEndOfHeader endHeader = true
  ∧ ∃ hd,
      ScanHeader (H:=goStd) (openHeader ++ endHeader :: bodyLines)
      = Ret (hd, bodyLines, headerWarnings openHeader)
      ∧ headerFields hd
        = headerFields (fold_left (headerLine (H:=goStd)) openHeader header0)
      ∧ h hd = headerText (openHeader ++ [endHeader]).
Proof.
  assert (Forall (λ buf, isEndOfHeader buf = false) openHeader) as Hp
    by (repeat constructor).
  assert (isEndOfHeader endHeader = true) as He by reflexivity.
  exact (conj Hp (conj He
           (ScanHeader_stops_at_terminator (H:=goStd) openHeader endHeader
              bodyLines Hp He))).
Defined.

(** The one warning of that header. *)
Example headerWarnings_openHeader :
  headerWarnings openHeader = [WarnNoHeaderLabel "free text"].
Proof. vm_compute. reflexivity. Qed.

(** X3, at a header of two lines followed at once by the body. *)
Lemma ReadAntexFile_without_terminator_witness :
  Forall (λ buf, isEndOfHeader buf = false) (headerLines ++ bodyLines)
  ∧ ∃ hd log,
      ReadAntexFile (H:=goStd) (headerLines ++ bodyLines)
      = Ret (antexVer hd, satSys hd, pcvType hd, refAnt hd, [], log)
      ∧ headerFields hd
        = headerFields (fold_left (headerLine (H:=goStd))
                                  (headerLines ++ bodyLines) header0).
Proof.
  assert (Forall (λ buf, isEndOfHeader buf = false) (headerLines ++ bodyLines))
    as Hp by (repeat constructor).
  exact (conj Hp (ReadAntexFile_without_terminator (H:=goStd) _ Hp)).
Defined.

(** X4, at the same header, its END OF HEADER line and the body. *)
Lemma ReadAntexFile_body_witness :
  Forall (λ buf, isEndOfHeader buf = false) headerLines
  ∧ isEndOfHeader endHeader = true
  ∧ ∃ hd,
      headerFields hd
      = headerFields (fold_left (headerLine (H:=goStd)) headerLines header0)
      ∧ ReadAntexFile (H:=goStd) (headerLines ++ endHeader :: bodyLines)
        = '(ant, log) ← ReadAntexData (H:=goStd) bodyLines;
          Ret (antexVer hd, satSys hd, pcvType hd, refAnt hd, ant,
               headerWarnings headerLines ++ log).
Proof.
  assert (Forall (λ buf, isEndOfHeader buf = false) headerLines) as Hp
    by (repeat constructor).
  assert (isEndOfHeader endHeader = true) as He by reflexivity.
  exact (conj Hp (conj He
           (ReadAntexFile_body (H:=goStd) headerLines endHeader bodyLines
              Hp He))).
Defined.

(** The whole file: the header fields and the two records. *)
Example ReadAntexFile_sample :
  ReadAntexFile (H:=goStd) (headerLines ++ endHeader :: bodyLines)
  = Ret (lit "1.4", "M"%char, "A"%char, lit "IGS14_2247", bodyAnts, bodyLog).
Proof. vm_compute. reflexivity. Qed.

(** X19, at a NOAZI row whose second value is not a number. *)
Lemma parseOneAzi_first_bad_token_witness :
  Fields (GoEnv:=goStd) badRow
  = lit "NOAZI" :: [lit "1.00"] ++ lit "x.00" :: [lit "3.00"]
  ∧ ∃ v, parseOneAzi (H:=goStd) badRow
         = (lit "NOAZI", v,
            Some (ParseValError "x.00" (NumError "ParseFloat" "x.00")))
         ∧ length v = length [lit "1.00"] + S (length [lit "3.00"]).
Proof.
  assert (Fields (GoEnv:=goStd) badRow
          = lit "NOAZI" :: [lit "1.00"] ++ lit "x.00" :: [lit "3.00"]) as Hf
    by reflexivity.
  refine (conj Hf
            (parseOneAzi_first_bad_token (H:=goStd) badRow "NOAZI"
               [lit "1.00"] "x.00" [lit "3.00"] fzero
               (NumError "ParseFloat" "x.00") Hf _ _)).
  - repeat constructor.
  - reflexivity.
Defined.

(** X16, at a section of three azimuth rows (DAZI 180, zenith 0 to 10
    by 5). *)
Lemma parseOneFreq_well_formed_witness :
  ∃ p,
    parseOneFreq (H:=goStd)
      (neuLine :: noazi3 :: map rowLine aziRowList ++ endFreq :: []) freqStart
      (flt "180.0") (flt "0.0") (flt "10.0") (flt "5.0")
    = Ret (p, None, [])
    ∧ Sys p = nth 3 freqStart zero ∧ Freq p = 1%Z
    ∧ Nazi p = 3%Z ∧ Nzen p = 3%Z
    ∧ PCO p = mkPco (flt "279.00") (flt "0.00") (flt "2319.50")
    ∧ Vnonaz p = [flt "1.00"; flt "2.00"; flt "3.00"]
    ∧ Vaz p = map rowVals aziRowList
    ∧ Azs p = map rowAzimuth aziRowList.
Proof.
  assert (Forall (rowOk (H:=goStd) 3) aziRowList) as Hrows.
  { unfold aziRowList.
    repeat (apply Forall_cons_2;
            [refine (conj _ (conj _ (conj _ (conj _ _))));
             vm_compute; first [reflexivity | discriminate]|]).
    apply Forall_nil_2. }
  refine (parseOneFreq_well_formed (H:=goStd) freqStart neuLine noazi3
            endFreq aziRowList [] (flt "180.0") (flt "0.0") (flt "10.0")
            (flt "5.0") 1 3 3 "279.00" "0.00" "2319.50" []
            (flt "279.00") (flt "0.00") (flt "2319.50")
            [flt "1.00"; flt "2.00"; flt "3.00"]
            _ _ _ _ _ _ _ _ _ _ _ _ _ _ Hrows _ _ _);
    vm_compute; first [reflexivity | lia].
Defined.

(** X15, at a START OF FREQUENCY line that ends the input. *)
Lemma start_of_frequency_needs_a_long_line_witness :
  61 ≤ length freqStart
  ∧ labelOf freqStart = lit "START OF FREQUENCY"
  ∧ Atoi (GoEnv:=goStd) (take 2 (drop 4 freqStart)) = (1%Z, None)
  ∧ length (nextLine freqStart []).1 < 60
  ∧ scanOneAntenna_from (H:=goStd) 2 [freqStart] afterType []
    = Panic SliceBounds.
Proof.
  assert (61 ≤ length freqStart) as Hl by (vm_compute; lia).
  assert (labelOf freqStart = lit "START OF FREQUENCY") as Hlab by reflexivity.
  assert (Atoi (GoEnv:=goStd) (take 2 (drop 4 freqStart)) = (1%Z, None))
    as Ha by reflexivity.
  assert (length (nextLine freqStart []).1 < 60) as Hn by (vm_compute; lia).
  exact (conj Hl (conj Hlab (conj Ha (conj Hn
           (start_of_frequency_needs_a_long_line (H:=goStd) 1 freqStart []
              afterType [] 1 Hl Hlab Ha Hn))))).
Defined.

(** X12, at a COMMENT line put before the block. *)
Lemma scanOneAntenna_reads_over_witness :
  length (commentLine :: blockIIA) < 20
  ∧ 61 ≤ length commentLine
  ∧ (labelOf commentLine = lit "COMMENT"
     ∨ labelOf commentLine = lit "METH / BY / # / DATE"
     ∨ labelOf commentLine ∉ knownLabels)
  ∧ scanOneAntenna_from (H:=goStd) 20 (commentLine :: blockIIA) st0 []
    = scanOneAntenna_from (H:=goStd) 20 blockIIA st0 [].
Proof.
  assert (length (commentLine :: blockIIA) < 20) as Hf by (vm_compute; lia).
  assert (61 ≤ length commentLine) as Hl by (vm_compute; lia).
  assert (labelOf commentLine = lit "COMMENT"
          ∨ labelOf commentLine = lit "METH / BY / # / DATE"
          ∨ labelOf commentLine ∉ knownLabels) as Hlab by (left; reflexivity).
  exact (conj Hf (conj Hl (conj Hlab
           (scanOneAntenna_reads_over (H:=goStd) 20 commentLine blockIIA st0 []
              Hf Hl Hlab)))).
Defined.

(** X13, at a ZEN1 / ZEN2 / DZEN line with two numbers. *)
Lemma short_zen_line_is_read_over_witness :
  length (shortZenLine :: blockIIA) < 20
  ∧ 61 ≤ length shortZenLine
  ∧ labelOf shortZenLine = lit "ZEN1 / ZEN2 / DZEN"
  ∧ length (Fields (GoEnv:=goStd) (take 60 shortZenLine)) < 3
  ∧ scanOneAntenna_from (H:=goStd) 20 (shortZenLine :: blockIIA) st0 []
    = scanOneAntenna_from (H:=goStd) 20 blockIIA st0 [].
Proof.
  assert (length (shortZenLine :: blockIIA) < 20) as Hf by (vm_compute; lia).
  assert (61 ≤ length shortZenLine) as Hl by (vm_compute; lia).
  assert (labelOf shortZenLine = lit "ZEN1 / ZEN2 / DZEN") as Hlab
    by reflexivity.
  assert (length (Fields (GoEnv:=goStd) (take 60 shortZenLine)) < 3) as Hfew
    by (vm_compute; lia).
  exact (conj Hf (conj Hl (conj Hlab (conj Hfew
           (short_zen_line_is_read_over (H:=goStd) 20 shortZenLine blockIIA
              st0 [] Hf Hl Hlab Hfew))))).
Defined.

(** X14, at a line that declares seven frequencies before a block of
    two. *)
Lemma declared_frequency_count_is_not_used_witness :
  length (nfLine :: blockIIA) < 20
  ∧ 61 ≤ length nfLine
  ∧ labelOf nfLine = lit "# OF FREQUENCIES"
  ∧ Atoi (GoEnv:=goStd) (TrimSpace (GoEnv:=goStd) (take 60 nfLine))
    = (7%Z, None)
  ∧ scanOneAntenna_from (H:=goStd) 20 (nfLine :: blockIIA) st0 []
    = scanOneAntenna_from (H:=goStd) 20 blockIIA st0 [].
Proof.
  assert (length (nfLine :: blockIIA) < 20) as Hf by (vm_compute; lia).
  assert (61 ≤ length nfLine) as Hl by (vm_compute; lia).
  assert (labelOf nfLine = lit "# OF FREQUENCIES") as Hlab by reflexivity.
  assert (Atoi (GoEnv:=goStd) (TrimSpace (GoEnv:=goStd) (take 60 nfLine))
          = (7%Z, None)) as Ha by reflexivity.
  exact (conj Hf (conj Hl (conj Hlab (conj Ha
           (declared_frequency_count_is_not_used (H:=goStd) 20 nfLine blockIIA
              st0 [] 7 Hf Hl Hlab Ha))))).
Defined.

(** X5, at a COMMENT line and a line of 60 spaces. *)
Lemma ReadAntexData_without_antennas_witness :
  Forall (λ buf, 60 ≤ length buf ∧ isStartOfAntenna buf = false)
         [commentLine; blankLine60]
  ∧ ReadAntexData (H:=goStd) [commentLine; blankLine60]
    = Ret ([], dataWarnings [commentLine; blankLine60]).
Proof.
  assert (Forall (λ buf, 60 ≤ length buf ∧ isStartOfAntenna buf = false)
            [commentLine; blankLine60]) as Hall.
  { repeat constructor; vm_compute; lia. }
  exact (conj Hall (ReadAntexData_without_antennas (H:=goStd) _ Hall)).
Defined.

(** The one warning of those lines. *)
Example dataWarnings_blank :
  dataWarnings [commentLine; blankLine60] = [WarnNoAntexData blankLine60].
Proof. vm_compute. reflexivity. Qed.

(** X6, at the block of the satellite antenna followed by a COMMENT
    line. *)
Lemma ReadAntexData_appends_parsed_antenna_witness :
  isStartOfAntenna startAnt = true
  ∧ scanOneAntenna (H:=goStd) (blockIIA ++ [commentLine]) []
    = Ret (blockIIAAnt, None, [commentLine], [])
  ∧ ReadAntexData (H:=goStd) (startAnt :: blockIIA ++ [commentLine])
    = '(ants', log') ← ReadAntexData (H:=goStd) [commentLine];
      Ret (blockIIAAnt :: ants', log').
Proof.
  assert (isStartOfAntenna startAnt = true) as Hp by reflexivity.
  assert (scanOneAntenna (H:=goStd) (blockIIA ++ [commentLine]) []
          = Ret (blockIIAAnt, None, [commentLine], [])) as Hs
    by (vm_compute; reflexivity).
  exact (conj Hp (conj Hs
           (ReadAntexData_appends_parsed_antenna (H:=goStd) startAnt
              (blockIIA ++ [commentLine]) blockIIAAnt [commentLine]
              Hp Hs))).
Defined.

(** X17, at DAZI -5.0. *)
Lemma negative_azimuth_count_panics_witness :
  ((gridSize (H:=goStd) (flt "-5.0") (flt "0.0") (flt "10.0") (flt "5.0")).1
   < 0)%Z
  ∧ parseOneFreq (H:=goStd) (neuLine :: [noazi3; endFreq]) freqStart
      (flt "-5.0") (flt "0.0") (flt "10.0") (flt "5.0")
    = Panic MakeSliceLen.
Proof.
  assert ((gridSize (H:=goStd) (flt "-5.0") (flt "0.0") (flt "10.0")
             (flt "5.0")).1 < 0)%Z as Hneg by (vm_compute; reflexivity).
  refine (conj Hneg
            (negative_azimuth_count_panics (H:=goStd) freqStart neuLine
               [noazi3; endFreq] (flt "-5.0") (flt "0.0") (flt "10.0")
               (flt "5.0") 1 "279.00" "0.00" "2319.50" []
               (flt "279.00") (flt "0.00") (flt "2319.50")
               _ _ _ _ _ _ _ _ _ Hneg));
    vm_compute; first [reflexivity | lia].
Defined.
